(** * parse-logger.py: Intigeo data-logger parser and aggregator

    A shallow embedding of [src/parse-logger.py] and the properties its
    specification states about it.

    Modelling conventions.
    - Python [int] is [Z]; Python [float] is an IEEE-754 binary64 value,
      represented by [spec_float] with the operations of [SpecFloat] at
      precision 53.
    - Python [str] is [string]; the characters are those of [ascii].
    - A Python [dict] keyed by field names is a [gmap string _]; an
      [OrderedDict] is an association list kept in insertion order.
    - An uncaught exception is the [Raise] outcome of the [result] monad.
    - [time.mktime] and [datetime.fromtimestamp] depend on the time zone
      of the machine: a [zone] gives the offset from UTC in effect at every
      instant and the result of [mktime] for every local date and time.
      The calendar is the proleptic Gregorian one of [datetime]; the
      limits of [time_t] and of [tm_year], and the year that [%Y] writes
      without leading zeros, are those of the C library of a 64-bit
      Linux. *)

From Stdlib Require Import ZArith Ascii String List Lia SpecFloat.
From stdpp Require Import gmap strings list sorting.

Local Open Scope Z_scope.

(** ** Exceptions and results *)

Inductive exn : Type :=
| KeyError (key : string)
| ZeroDivisionError
| ValueError
| IndexError
| OverflowError
| OSError.

Inductive result (A : Type) : Type :=
| Ok (a : A)
| Raise (e : exn).
Arguments Ok {A} a.
Arguments Raise {A} e.

#[global] Instance result_ret : MRet result := fun A a => Ok a.
#[global] Instance result_bind : MBind result := fun A B f r =>
  match r with
  | Ok a => f a
  | Raise e => Raise e
  end.

(** ** Characters and strings *)

(** The code of a character. *)
Definition code (c : ascii) : Z := Z.of_N (N_of_ascii c).

(** The value of a decimal digit: the codes 48 to 57. *)
Definition digit_val (c : ascii) : option Z :=
  let n := code c in
  if (48 <=? n) && (n <=? 57) then Some (n - 48) else None.

Definition is_digit (c : ascii) : bool :=
  match digit_val c with Some _ => true | None => false end.

(** [str.isspace] and the regular-expression class [\s], on [ascii]: tab
    to carriage return, the four separators, and the space. *)
Definition is_space (c : ascii) : bool :=
  let n := code c in
  ((9 <=? n) && (n <=? 13)) || ((28 <=? n) && (n <=? 32)).

Definition newline : ascii := "010"%char.
Definition tab : ascii := "009"%char.

Fixpoint lstrip (s : string) : string :=
  match s with
  | String c r => if is_space c then lstrip r else s
  | EmptyString => EmptyString
  end.

(** [rstrip] keeps a character when it is not a space or when something
    that is kept follows it. *)
Fixpoint rstrip (s : string) : string :=
  match s with
  | String c r =>
      match rstrip r with
      | EmptyString => if is_space c then EmptyString else String c EmptyString
      | r' => String c r'
      end
  | EmptyString => EmptyString
  end.

(** [s.strip()] *)
Definition strip (s : string) : string := rstrip (lstrip s).

(** [s.split(sep)] for a one-character separator: never the empty list. *)
Fixpoint split (sep : ascii) (s : string) : list string :=
  match s with
  | EmptyString => [EmptyString]
  | String c r =>
      if Ascii.eqb c sep then EmptyString :: split sep r
      else match split sep r with
           | w :: ws => String c w :: ws
           | [] => [String c EmptyString]
           end
  end.

(** [sub in s] *)
Fixpoint contains (sub s : string) : bool :=
  String.prefix sub s ||
  match s with
  | String _ r => contains sub r
  | EmptyString => false
  end.

(** The text after [p] when [s] starts with [p]. *)
Fixpoint strip_prefix (p s : string) : option string :=
  match p, s with
  | EmptyString, _ => Some s
  | String a p', String b s' =>
      if Ascii.eqb a b then strip_prefix p' s' else None
  | String _ _, EmptyString => None
  end.

(** The lazy group [(.*?)] followed by the literal [stop]: the text before
    the first [stop], which [.] must be able to cross (no newline). *)
Fixpoint lazy_until (stop : ascii) (s : string) : option string :=
  match s with
  | EmptyString => None
  | String c r =>
      if Ascii.eqb c stop then Some EmptyString
      else if Ascii.eqb c newline then None
      else String c <$> lazy_until stop r
  end.

Fixpoint no_newline (s : string) : bool :=
  match s with
  | EmptyString => true
  | String c r => negb (Ascii.eqb c newline) && no_newline r
  end.

(** [row[i]] *)
Definition getindex (row : list string) (i : nat) : result string :=
  match row !! i with
  | Some x => Ok x
  | None => Raise IndexError
  end.

(** [d[k]] on a dict *)
Definition getitem {V} (d : gmap string V) (k : string) : result V :=
  match d !! k with
  | Some v => Ok v
  | None => Raise (KeyError k)
  end.

(** ** Calendar arithmetic of [datetime]

    [strptime], [timetuple], [time.mktime], [fromtimestamp] and [strftime]
    are library functions; their model follows the reference algorithms of
    the [datetime] module ([_ymd2ord], [_ord2ymd]). *)

Record datetime : Type := mkDatetime {
  year : Z; month : Z; day : Z; hour : Z; minute : Z; second : Z
}.

Definition is_leap (y : Z) : bool :=
  (y mod 4 =? 0) && (negb (y mod 100 =? 0) || (y mod 400 =? 0)).

Definition days_before_year (y : Z) : Z :=
  let y1 := y - 1 in y1 * 365 + y1 / 4 - y1 / 100 + y1 / 400.

Definition month_length (m : Z) : Z :=
  match m with
  | 1 => 31 | 2 => 28 | 3 => 31 | 4 => 30 | 5 => 31 | 6 => 30
  | 7 => 31 | 8 => 31 | 9 => 30 | 10 => 31 | 11 => 30 | 12 => 31
  | _ => 0
  end.

Definition month_start (m : Z) : Z :=
  match m with
  | 1 => 0 | 2 => 31 | 3 => 59 | 4 => 90 | 5 => 120 | 6 => 151
  | 7 => 181 | 8 => 212 | 9 => 243 | 10 => 273 | 11 => 304 | 12 => 334
  | _ => 0
  end.

Definition days_in_month (y m : Z) : Z :=
  if (m =? 2) && is_leap y then 29 else month_length m.

Definition days_before_month (y m : Z) : Z :=
  month_start m + (if (2 <? m) && is_leap y then 1 else 0).

Definition ymd2ord (y m d : Z) : Z :=
  days_before_year y + days_before_month y m + d.

Definition DI400Y : Z := 146097.
Definition DI100Y : Z := 36524.
Definition DI4Y : Z := 1461.

(** The part of [_ord2ymd] after the 400-year cycle has been split off:
    [n] is the zero-based day within the cycle, the year returned is
    relative to the first year of the cycle. *)
Definition ord2ymd_cycle (n : Z) : Z * Z * Z :=
  let n100 := n / DI100Y in
  let n := n mod DI100Y in
  let n4 := n / DI4Y in
  let n := n mod DI4Y in
  let n1 := n / 365 in
  let n := n mod 365 in
  let y := n100 * 100 + n4 * 4 + n1 in
  if (n1 =? 4) || (n100 =? 4) then (y - 1, 12, 31)
  else
    let leapyear := (n1 =? 3) && (negb (n4 =? 24) || (n100 =? 3)) in
    let m := Z.shiftr (n + 50) 5 in
    let preceding := month_start m + (if (2 <? m) && leapyear then 1 else 0) in
    if n <? preceding then
      let m' := m - 1 in
      let preceding' :=
        preceding - (month_length m' + (if (m' =? 2) && leapyear then 1 else 0)) in
      (y, m', n - preceding' + 1)
    else (y, m, n - preceding + 1).

Definition ord2ymd (n : Z) : Z * Z * Z :=
  let n := n - 1 in
  let n400 := n / DI400Y in
  let '(y, m, d) := ord2ymd_cycle (n mod DI400Y) in
  (n400 * 400 + 1 + y, m, d).

(** The checks of the [datetime] constructor. *)
Definition valid_datetime (dt : datetime) : bool :=
  (1 <=? year dt) && (year dt <=? 9999) &&
  (1 <=? month dt) && (month dt <=? 12) &&
  (1 <=? day dt) && (day dt <=? days_in_month (year dt) (month dt)) &&
  (0 <=? hour dt) && (hour dt <=? 23) &&
  (0 <=? minute dt) && (minute dt <=? 59) &&
  (0 <=? second dt) && (second dt <=? 59).

(** Ordinal of 1970-01-01. *)
Definition EPOCH_ORD : Z := 719163.

Definition digit_char (d : Z) : ascii := ascii_of_nat (Z.to_nat (48 + d)).

Definition pad2 (n : Z) : string :=
  String (digit_char (n / 10 mod 10)) (String (digit_char (n mod 10)) "").

Definition pad4 (n : Z) : string :=
  String (digit_char (n / 1000 mod 10))
    (String (digit_char (n / 100 mod 10)) (pad2 n)).

(** [%Y] of the C library: the year in decimal, without leading zeros
    (a year of a [datetime] is between 1 and 9999). *)
Definition year_text (y : Z) : string :=
  if y <? 10 then String (digit_char y) ""
  else if y <? 100 then pad2 y
  else if y <? 1000 then String (digit_char (y / 100)) (pad2 y)
  else pad4 y.

(** [dt.strftime('%Y-%m-%d %H:%M:%S')] *)
Definition strftime (dt : datetime) : string :=
  year_text (year dt) +:+ "-" +:+ pad2 (month dt) +:+ "-" +:+ pad2 (day dt) +:+ " " +:+
  pad2 (hour dt) +:+ ":" +:+ pad2 (minute dt) +:+ ":" +:+ pad2 (second dt).

(** *** The regular expression of [strptime] for ['%d/%m/%Y %H:%M:%S']

    Ordered alternatives with backtracking, written with continuations:
    a matcher takes what follows it in the expression. *)
Section Regex.
Context {A : Type}.

Definition re_digit (lo hi : Z) (k : Z → string → option A) (s : string)
  : option A :=
  match s with
  | String c r =>
      match digit_val c with
      | Some v => if (lo <=? v) && (v <=? hi) then k v r else None
      | None => None
      end
  | EmptyString => None
  end.

Definition re_char (c : ascii) (k : string → option A) (s : string)
  : option A :=
  match s with
  | String c' r => if Ascii.eqb c' c then k r else None
  | EmptyString => None
  end.

Definition re_alt (p q : string → option A) (s : string) : option A :=
  match p s with
  | Some x => Some x
  | None => q s
  end.

(** [\s+], greedy *)
Fixpoint re_spaces (k : string → option A) (s : string) : option A :=
  match s with
  | String c r =>
      if is_space c then
        match re_spaces k r with
        | Some x => Some x
        | None => k r
        end
      else None
  | EmptyString => None
  end.

Definition re_2digits (lo1 hi1 lo2 hi2 : Z) (k : Z → string → option A)
  : string → option A :=
  re_digit lo1 hi1 (fun a => re_digit lo2 hi2 (fun b => k (10 * a + b))).

(** [3[0-1]|[1-2]\d|0[1-9]|[1-9]| [1-9]] *)
Definition re_d (k : Z → string → option A) : string → option A :=
  re_alt (re_2digits 3 3 0 1 k)
 (re_alt (re_2digits 1 2 0 9 k)
 (re_alt (re_2digits 0 0 1 9 k)
 (re_alt (re_digit 1 9 k)
         (re_char " " (re_digit 1 9 k))))).

(** [1[0-2]|0[1-9]|[1-9]] *)
Definition re_m (k : Z → string → option A) : string → option A :=
  re_alt (re_2digits 1 1 0 2 k)
 (re_alt (re_2digits 0 0 1 9 k)
         (re_digit 1 9 k)).

(** [\d\d\d\d] *)
Definition re_Y (k : Z → string → option A) : string → option A :=
  re_digit 0 9 (fun a => re_digit 0 9 (fun b => re_digit 0 9 (fun c =>
  re_digit 0 9 (fun d => k (1000 * a + 100 * b + 10 * c + d))))).

(** [2[0-3]|[0-1]\d|\d] *)
Definition re_H (k : Z → string → option A) : string → option A :=
  re_alt (re_2digits 2 2 0 3 k)
 (re_alt (re_2digits 0 1 0 9 k)
         (re_digit 0 9 k)).

(** [[0-5]\d|\d] *)
Definition re_M (k : Z → string → option A) : string → option A :=
  re_alt (re_2digits 0 5 0 9 k) (re_digit 0 9 k).

(** [6[0-1]|[0-5]\d|\d] *)
Definition re_S (k : Z → string → option A) : string → option A :=
  re_alt (re_2digits 6 6 0 1 k)
 (re_alt (re_2digits 0 5 0 9 k)
         (re_digit 0 9 k)).
End Regex.

(** The match of the whole format: the fields and the unconverted rest. *)
Definition strptime_match : string → option (datetime * string) :=
  re_d (fun d => re_char "/" (re_m (fun m => re_char "/" (re_Y (fun y =>
  re_spaces (re_H (fun H => re_char ":" (re_M (fun M => re_char ":"
  (re_S (fun S rest => Some (mkDatetime y m d H M S, rest)))))))))))).

(** [datetime.strptime(s, '%d/%m/%Y %H:%M:%S')]; [None] stands for the
    [ValueError] of a mismatch, of unconverted data or of an impossible
    date. *)
Definition strptime (s : string) : option datetime :=
  match strptime_match s with
  | Some (dt, EmptyString) => if valid_datetime dt then Some dt else None
  | _ => None
  end.

(** ** Python numbers *)

Definition prec : Z := 53.
Definition emax : Z := 1024.

Inductive pynum : Type :=
| PInt (z : Z)
| PFloat (f : spec_float).

(** [float(z)]: the nearest binary64 value, [OverflowError] beyond the
    range. *)
Definition float_of_int (z : Z) : result spec_float :=
  match binary_normalize prec emax z 0 false with
  | S754_infinity _ => Raise OverflowError
  | f => Ok f
  end.

Definition raw_int (z : Z) : spec_float :=
  match z with
  | Z0 => S754_zero false
  | Zpos p => S754_finite false p 0
  | Zneg p => S754_finite true p 0
  end.

(** [a / b] on two [int]s: the correctly rounded quotient. *)
Definition py_truediv (a b : Z) : result pynum :=
  if b =? 0 then Raise ZeroDivisionError
  else match SFdiv prec emax (raw_int a) (raw_int b) with
       | S754_infinity _ => Raise OverflowError
       | f => Ok (PFloat f)
       end.

Definition py_arith (fz : Z → Z → Z) (ff : spec_float → spec_float → spec_float)
    (a b : pynum) : result pynum :=
  match a, b with
  | PInt x, PInt y => Ok (PInt (fz x y))
  | PInt x, PFloat g => f ← float_of_int x; Ok (PFloat (ff f g))
  | PFloat f, PInt y => g ← float_of_int y; Ok (PFloat (ff f g))
  | PFloat f, PFloat g => Ok (PFloat (ff f g))
  end.

Definition py_mul : pynum → pynum → result pynum :=
  py_arith Z.mul (SFmul prec emax).
Definition py_add : pynum → pynum → result pynum :=
  py_arith Z.add (SFadd prec emax).
Definition py_sub : pynum → pynum → result pynum :=
  py_arith Z.sub (SFsub prec emax).

(** The nearest integer of a float, ties to the even one. *)
Definition round_half_even (f : spec_float) : result Z :=
  match f with
  | S754_zero _ => Ok 0
  | S754_finite s m e =>
      if 0 <=? e then Ok (cond_Zopp s (Z.shiftl (Zpos m) e))
      else
        let k := - e in
        let q := Z.shiftr (Zpos m) k in
        let r := Zpos m - Z.shiftl q k in
        let half := Z.shiftl 1 (k - 1) in
        Ok (cond_Zopp s
              match r ?= half with
              | Lt => q
              | Gt => q + 1
              | Eq => if Z.even q then q else q + 1
              end)
  | S754_infinity _ => Raise OverflowError
  | S754_nan => Raise ValueError
  end.

(** [round(x)] *)
Definition py_round (x : pynum) : result Z :=
  match x with
  | PInt z => Ok z
  | PFloat f => round_half_even f
  end.

(** C [modf]: the fractional part, with the sign of [f], and the integral
    part. *)
Definition modf (f : spec_float) : result (spec_float * Z) :=
  match f with
  | S754_zero _ => Ok (f, 0)
  | S754_finite s m e =>
      if 0 <=? e then Ok (S754_zero s, cond_Zopp s (Z.shiftl (Zpos m) e))
      else
        let k := - e in
        let q := Z.shiftr (Zpos m) k in
        let r := Zpos m - Z.shiftl q k in
        Ok (binary_normalize prec emax (cond_Zopp s r) e s, cond_Zopp s q)
  | S754_infinity _ => Raise OverflowError
  | S754_nan => Raise ValueError
  end.

(** The whole seconds [fromtimestamp] takes from a float: the fraction is
    scaled to microseconds, rounded half to even, and a carry goes into the
    integral part. *)
Definition timestamp_seconds (f : spec_float) : result Z :=
  '(floatpart, intpart) ← modf f;
  us ← round_half_even (SFmul prec emax floatpart (raw_int 1000000));
  if 1000000 <=? us then Ok (intpart + 1)
  else if us <? 0 then Ok (intpart - 1)
  else Ok intpart.

(** ** The two time functions of the script *)

Definition timezone_offset : Z := 4.

(** *** The time zone of the machine

    What the C library knows of the zone: the offset from UTC, in
    seconds, in effect at each instant, and the time [mktime] returns for
    a local date and time (with [tm_isdst = -1], as [timetuple] sets
    it). *)
Record zone : Type := mkZone {
  utcoffset : Z → Z;
  mktime_of : datetime → Z
}.

(** The seconds from 1970-01-01 00:00:00 to a date and time on the same
    clock, and the date and time that many seconds after it. *)
Definition civil_seconds (dt : datetime) : Z :=
  (ymd2ord (year dt) (month dt) (day dt) - EPOCH_ORD) * 86400
  + hour dt * 3600 + minute dt * 60 + second dt.

Definition civil (u : Z) : datetime :=
  let '(y, m, d) := ord2ymd (u / 86400 + EPOCH_ORD) in
  let r := u mod 86400 in
  mkDatetime y m d (r / 3600) (r mod 3600 / 60) (r mod 60).

(** A zone whose offset never changes, and the zone of UTC. *)
Definition fixed_zone (off : Z) : zone :=
  mkZone (fun _ => off) (fun dt => civil_seconds dt - off).

Definition UTC : zone := fixed_zone 0.

(** The range of [time_t] and of the [int] of [tm_year]. *)
Definition TIME_T_MIN : Z := - 2 ^ 63.
Definition TIME_T_MAX : Z := 2 ^ 63 - 1.
Definition INT_MIN : Z := - 2 ^ 31.
Definition INT_MAX : Z := 2 ^ 31 - 1.

(** [MINYEAR <= year <= MAXYEAR] *)
Definition year_in_range (y : Z) : bool := (1 <=? y) && (y <=? 9999).

Section TimeCodec.
Variable tz : zone.

(** [time.mktime(dt.timetuple())] *)
Definition mktime (dt : datetime) : Z := mktime_of tz dt.

(** The local date and time at the instant [t]. *)
Definition localtime (t : Z) : datetime := civil (t + utcoffset tz t).

Definition parse_time (timestring : string) : Z :=
  match strptime timestring with
  | Some dt => mktime dt
  | None => 0
  end.

(** [localtime_r] as [fromtimestamp] calls it: it fails, and [OSError]
    is raised, when the year does not fit [tm_year]. *)
Definition localtime_r (t : Z) : result datetime :=
  let dt := localtime t in
  if (INT_MIN <=? year dt - 1900) && (year dt - 1900 <=? INT_MAX) then Ok dt
  else Raise OSError.

(** The local time at [t] as [fromtimestamp] looks it up to find the
    fold: the year must be one of a [datetime]. *)
Definition local (t : Z) : result datetime :=
  dt ← localtime_r t;
  if year_in_range (year dt) then Ok dt else Raise ValueError.

(** [datetime.fromtimestamp(sec)] for whole seconds: the conversion to
    [time_t], the local time, and the two looks back in time, a day
    and, where the offset has fallen within that day, as far as it
    fell. *)
Definition fromtimestamp (sec : Z) : result datetime :=
  if (TIME_T_MIN <=? sec) && (sec <=? TIME_T_MAX) then
    dt ← local sec;
    _ ← local (sec - 86400);
    let transition := utcoffset tz sec - utcoffset tz (sec - 86400) in
    if transition <? 0 then _ ← local (sec + transition); Ok dt
    else Ok dt
  else Raise OverflowError.

Definition format_seconds (sec : Z) : result string :=
  dt ← fromtimestamp sec; Ok (strftime dt).

Definition time_to_string (timestamp : pynum) : result string :=
  match timestamp with
  | PInt z => format_seconds z
  | PFloat f => sec ← timestamp_seconds f; format_seconds sec
  end.
End TimeCodec.

(** ** [OrderedDict]: an association list in insertion order *)

Section OrderedDict.
Context {V : Type}.

Definition odict : Type := list (string * V).

(** [d.get(k)] *)
Fixpoint od_get (d : odict) (k : string) : option V :=
  match d with
  | [] => None
  | (k', v) :: d' => if decide (k' = k) then Some v else od_get d' k
  end.

(** [d[k] = v]: in place for a key that is there, at the end for a new
    one. *)
Fixpoint od_set (d : odict) (k : string) (v : V) : odict :=
  match d with
  | [] => [(k, v)]
  | (k', v') :: d' =>
      if decide (k' = k) then (k', v) :: d' else (k', v') :: od_set d' k v
  end.

(** [d.keys()] *)
Definition od_keys (d : odict) : list string := d.*1.

(** [k in d.keys()] *)
Definition od_mem (k : string) (d : odict) : bool :=
  match od_get d k with Some _ => true | None => false end.

(** A mutation [f] of the object stored under [k]. *)
Fixpoint od_alter (f : V → V) (k : string) (d : odict) : odict :=
  match d with
  | [] => []
  | (k', v) :: d' =>
      if decide (k' = k) then (k', f v) :: d' else (k', v) :: od_alter f k d'
  end.
End OrderedDict.
Arguments odict V : clear implicits.

(** ** [read_data_file] *)

(** The header vocabulary. *)
Definition fields : odict string :=
  [ ("T('C)", "temp");
    ("light(lux)", "light");
    ("wets0-50", "wets");
    ("wet min('C)", "wet_temp_min");
    ("wet/dry", "wetdry");
    ("duration", "duration") ].

(** [fields[label]] *)
Definition fields_lookup (label : string) : result string :=
  match od_get fields label with
  | Some f => Ok f
  | None => Raise (KeyError label)
  end.

Record parser_state : Type := mkState {
  data : odict (gmap string string);
  start : Z;
  end_ : Z;
  drift : Z;
  dps : pynum;
  field : option string;
  in_data : bool
}.

Definition initial_state : parser_state :=
  mkState [] 0 0 0 (PInt 0) None false.

Definition set_data (st : parser_state) (d : odict (gmap string string)) :=
  mkState d (start st) (end_ st) (drift st) (dps st) (field st) (in_data st).
Definition set_start (st : parser_state) (t : Z) :=
  mkState (data st) t (end_ st) (drift st) (dps st) (field st) (in_data st).
Definition set_end (st : parser_state) (t : Z) :=
  mkState (data st) (start st) t (drift st) (dps st) (field st) (in_data st).
Definition set_drift (st : parser_state) (d : Z) (r : pynum) :=
  mkState (data st) (start st) (end_ st) d r (field st) (in_data st).
Definition set_field (st : parser_state) (f : string) :=
  mkState (data st) (start st) (end_ st) (drift st) (dps st) (Some f) true.

(** The text before the first [c], all of [s] when there is none. *)
Fixpoint before_char (c : ascii) (s : string) : string :=
  match s with
  | EmptyString => EmptyString
  | String a r => if Ascii.eqb a c then EmptyString else String a (before_char c r)
  end.

(** The four header patterns, on a stripped line (so that [$] is its end);
    each gives [m.group(1)]. *)

(** [^DD/MM/YYYY HH:MM:SS\t(.*?)(\t(.*?))?$] *)
Definition match_column_header (line : string) : option string :=
  rest ← strip_prefix ("DD/MM/YYYY HH:MM:SS" +:+ String tab "") line;
  if no_newline rest then Some (before_char tab rest) else None.

(** [^Programmed: (.*?)\.] *)
Definition match_programmed (line : string) : option string :=
  rest ← strip_prefix "Programmed: " line;
  lazy_until "." rest.

(** [^End of logging \(DD/MM/YYYY HH:MM:SS\): (.*?)$] *)
Definition match_end (line : string) : option string :=
  rest ← strip_prefix "End of logging (DD/MM/YYYY HH:MM:SS): " line;
  if no_newline rest then Some rest else None.

(** [^Drift \(secs\): (.*?)\.] *)
Definition match_drift (line : string) : option string :=
  rest ← strip_prefix "Drift (secs): " line;
  lazy_until "." rest.

(** The digits of an [int] literal given to [int()]: single underscores
    may separate digits. *)
Fixpoint int_digits (acc : Z) (after_digit : bool) (s : string) : option Z :=
  match s with
  | EmptyString => if after_digit then Some acc else None
  | String c r =>
      match digit_val c with
      | Some v => int_digits (10 * acc + v) true r
      | None =>
          if Ascii.eqb c "_" && after_digit then int_digits acc false r
          else None
      end
  end.

(** [int(s)] *)
Definition py_int (s : string) : result Z :=
  let parsed :=
    match strip s with
    | String "-" r => Z.opp <$> int_digits 0 false r
    | String "+" r => int_digits 0 false r
    | t => int_digits 0 false t
    end in
  match parsed with
  | Some z => Ok z
  | None => Raise ValueError
  end.

Section Parser.
Variable tz : zone.

(** The body of the loop for a line of the data section. [field] is
    [None] only before the column header, when no line gets here; the
    key [None] that Python would then use is no field name and is not
    kept. *)
Definition data_line (st : parser_state) (line : string)
  : result parser_state :=
  let row := split tab line in
  row0 ← getindex row 0;
  if decide (row0 = "") then Ok st
  else
    let time := parse_time tz row0 in
    if time <? 1 then Ok st
    else
      skew ← py_mul (dps st) (PInt (time - start st));
      adjtime ← py_add (PInt time) skew;
      loctime ← py_sub adjtime (PInt (3600 * timezone_offset));
      atime ← time_to_string tz adjtime;
      let data1 :=
        if od_mem atime (data st) then data st
        else od_set (data st) atime ∅ in
      ts ← time_to_string tz (PInt time);
      let data2 := od_alter (insert "time" ts) atime data1 in
      ls ← time_to_string tz loctime;
      let data3 := od_alter (insert "localtime" ls) atime data2 in
      data4 ←
        (if decide (field st = Some "wetdry") then
           r2 ← getindex row 2;
           let d := od_alter (insert "wetdry" r2) atime data3 in
           r1 ← getindex row 1;
           Ok (od_alter (insert "duration" r1) atime d)
         else if decide (field st = Some "wet_temp_min") then
           r1 ← getindex row 1;
           let d := od_alter (insert "wet_temp_min" r1) atime data3 in
           r2 ← getindex row 2;
           let d := od_alter (insert "wet_temp_max" r2) atime d in
           r3 ← getindex row 3;
           let d := od_alter (insert "wet_temp_mean" r3) atime d in
           r4 ← getindex row 4;
           Ok (od_alter (insert "wet_temp_samples" r4) atime d)
         else
           r1 ← getindex row 1;
           match field st with
           | Some f => Ok (od_alter (insert f r1) atime data3)
           | None => Ok data3
           end);
      Ok (set_data st data4).

(** The body of the loop for a line of the header section. *)
Definition header_line (st : parser_state) (line : string)
  : result parser_state :=
  match match_column_header line with
  | Some label =>
      f ← fields_lookup label;
      Ok (set_field st (if decide (f = "duration") then "wetdry" else f))
  | None =>
  match match_programmed line with
  | Some g => Ok (set_start st (parse_time tz g))
  | None =>
  match match_end line with
  | Some g => Ok (set_end st (parse_time tz g))
  | None =>
  match match_drift line with
  | Some g =>
      d ← py_int g;
      r ← py_truediv d (end_ st - start st);
      Ok (set_drift st d r)
  | None => Ok st
  end end end end.

Definition process_line (st : parser_state) (raw : string)
  : result parser_state :=
  let line := strip raw in
  if in_data st then data_line st line else header_line st line.

Fixpoint process_lines (st : parser_state) (lines : list string)
  : result parser_state :=
  match lines with
  | [] => Ok st
  | l :: ls => st' ← process_line st l; process_lines st' ls
  end.

(** The loop inside its [try]: [except IOError] catches the [OSError]
    that a line raises ([IOError] is [OSError]), and the function then
    returns the data read so far; any other exception leaves the
    function. Only [fromtimestamp] raises [OSError] in the loop, and only
    for the adjusted time, before the line has stored anything: the two
    times formatted after it are the time of the row, which [strptime]
    has accepted, and a time four hours before one that has just been
    formatted. *)
Fixpoint read_lines (st : parser_state) (lines : list string)
  : result (odict (gmap string string)) :=
  match lines with
  | [] => Ok (data st)
  | l :: ls =>
      match process_line st l with
      | Ok st' => read_lines st' ls
      | Raise OSError => Ok (data st)
      | Raise e => Raise e
      end
  end.

(** [contents] is what [open(path)] gives: the lines of the file, or
    [None] when it cannot be opened ([IOError], caught and reported). *)
Definition read_data_file (contents : option (list string))
  : result (odict (gmap string string)) :=
  match contents with
  | None => Ok []
  | Some lines => read_lines initial_state lines
  end.
End Parser.

(** ** The script: merge, interpolation, final order, emission *)

(** [d[k]] on an [OrderedDict] *)
Definition od_getitem {V} (d : odict V) (k : string) : result V :=
  match od_get d k with
  | Some v => Ok v
  | None => Raise (KeyError k)
  end.

Definition FIELD_NAMES : list string :=
  [ "time"; "localtime"; "temp"; "wets"; "light"; "wetdry"; "duration";
    "wet_temp_min"; "wet_temp_max"; "wet_temp_mean"; "wet_temp_samples" ].

(** One round of the loop over the field names, on the dict [out] stored
    in [output[date]]; [None] as a value is Python's [None]. *)
Definition merge_field (values : gmap string string) (f : string)
    (out : gmap string (option string)) : gmap string (option string) :=
  match values !! f with
  | Some v => <[f := Some v]> out
  | None =>
      match out !! f with
      | None => <[f := None]> out
      | Some _ => out
      end
  end.

(** The body of the loop over [data.items()]. *)
Definition merge_item (output : odict (gmap string (option string)))
    (item : string * gmap string string)
    : odict (gmap string (option string)) :=
  let '(date, values) := item in
  let output :=
    if od_mem date output then output else od_set output date ∅ in
  foldl (fun output f => od_alter (merge_field values f) date output)
    output FIELD_NAMES.

Definition merge_file (output : odict (gmap string (option string)))
    (data : odict (gmap string string))
    : odict (gmap string (option string)) :=
  foldl merge_item output data.

Definition str_ge (x y : string) : Prop := String.le y x.
#[global] Instance str_ge_dec : RelDecision str_ge.
Proof. intros x y. unfold str_ge. apply _. Defined.

(** [sorted(l, reverse=...)] on strings *)
Definition py_sorted (reverse : bool) (l : list string) : list string :=
  if reverse then merge_sort str_ge l else merge_sort String.le l.

(** [for key in keys: t[key] = d[key]], from an empty [t] *)
Fixpoint reorder_into {V} (t : odict V) (keys : list string) (d : odict V)
    : result (odict V) :=
  match keys with
  | [] => Ok t
  | key :: keys' => v ← od_getitem d key; reorder_into (od_set t key v) keys' d
  end.

Definition reorder {V} (keys : list string) (d : odict V) : result (odict V) :=
  reorder_into [] keys d.

(** The body of the interpolation loop, in its two blocks: [state] is the
    rolling dict, [values] the dict of the current time. *)

(** The wet-temperature block. *)
Definition fill_wet_temp (state values : gmap string (option string))
    : result (gmap string (option string) * gmap string (option string)) :=
  state ←
    (match values !! "wet_temp_min" with
     | Some (Some _) =>
         a ← getitem values "wet_temp_min";
         let state := <["wet_temp_min" := a]> state in
         b ← getitem values "wet_temp_max";
         let state := <["wet_temp_max" := b]> state in
         c ← getitem values "wet_temp_mean";
         let state := <["wet_temp_mean" := c]> state in
         d ← getitem values "wet_temp_samples";
         Ok (<["wet_temp_samples" := d]> state)
     | _ => Ok state
     end);
  values ←
    (match state !! "wet_temp_min" with
     | Some _ =>
         a ← getitem state "wet_temp_min";
         let values := <["wet_temp_min" := a]> values in
         b ← getitem state "wet_temp_max";
         let values := <["wet_temp_max" := b]> values in
         c ← getitem state "wet_temp_mean";
         let values := <["wet_temp_mean" := c]> values in
         d ← getitem state "wet_temp_samples";
         Ok (<["wet_temp_samples" := d]> values)
     | None => Ok values
     end);
  Ok (state, values).

(** The wet/dry block ("same as above, but for some other values"). *)
Definition fill_wetdry (state values : gmap string (option string))
    : result (gmap string (option string) * gmap string (option string)) :=
  state ←
    (match values !! "wetdry" with
     | Some (Some _) =>
         a ← getitem values "wetdry";
         let state := <["wetdry" := a]> state in
         b ← getitem values "duration";
         Ok (<["duration" := b]> state)
     | _ => Ok state
     end);
  values ←
    (match state !! "wetdry" with
     | Some _ => a ← getitem state "wetdry"; Ok (<["wetdry" := a]> values)
     | None => Ok values
     end);
  Ok (state, values).

Definition interp_step (state values : gmap string (option string))
    : result (gmap string (option string) * gmap string (option string)) :=
  '(state, values) ← fill_wet_temp state values;
  fill_wetdry state values.

(** The loop over [temp.items()]; every key has a dict of its own, which is
    mutated at its own visit only, so the items are those of the start. *)
Fixpoint interp_loop (state : gmap string (option string))
    (temp : odict (gmap string (option string)))
    (items : list (string * gmap string (option string)))
    : result (odict (gmap string (option string))) :=
  match items with
  | [] => Ok temp
  | (time, values) :: items' =>
      '(state', values') ← interp_step state values;
      interp_loop state' (od_set temp time values') items'
  end.

(** From the merged [output] to the [output] that is written. *)
Definition interpolate (output : odict (gmap string (option string)))
    : result (odict (gmap string (option string))) :=
  let keys := py_sorted true (od_keys output) in
  temp ← reorder keys output;
  temp ← interp_loop ∅ temp temp;
  let keys := py_sorted false (od_keys temp) in
  reorder keys temp.

(** A row of the table; [None] is written as an empty cell. *)
Definition emit_row (item : string * gmap string (option string))
    : result (list (option string)) :=
  let '(time, values) := item in
  c1 ← getitem values "localtime";
  c2 ← getitem values "time";
  c3 ← getitem values "temp";
  c4 ← getitem values "light";
  c5 ← getitem values "wets";
  c6 ← getitem values "wetdry";
  c7 ← getitem values "duration";
  c8 ← getitem values "wet_temp_min";
  c9 ← getitem values "wet_temp_max";
  c10 ← getitem values "wet_temp_mean";
  c11 ← getitem values "wet_temp_samples";
  Ok [Some time; c1; c2; c3; c4; c5; c6; c7; c8; c9; c10; c11].

(** Everything after the files have been read. *)
Definition process (datas : list (odict (gmap string string)))
    : result (list (list (option string))) :=
  output ← interpolate (foldl merge_file [] datas);
  mapM emit_row output.

Section Script.
Variable tz : zone.

(** The loop over the files: a file is its path and what opening it
    gives. *)
Fixpoint read_files (output : odict (gmap string (option string)))
    (files : list (string * option (list string)))
    : result (odict (gmap string (option string))) :=
  match files with
  | [] => Ok output
  | (file, contents) :: files' =>
      if contains "driftadj" file then read_files output files'
      else
        data ← read_data_file tz contents;
        read_files (merge_file output data) files'
  end.

Definition main (files : list (string * option (list string)))
    : result (list (list (option string))) :=
  output ← read_files [] files;
  output ← interpolate output;
  mapM emit_row output.
End Script.

(** ** Auxiliary notions for the statements *)

(** The loop over the field names, on one dict. *)
Definition merge_reading (values : gmap string string)
    (out : gmap string (option string)) : gmap string (option string) :=
  foldl (fun out f => merge_field values f out) out FIELD_NAMES.

(** What a field holds after the merge of [values] into [out]. *)
Definition merged_value (values : gmap string string)
    (out : gmap string (option string)) (f : string) : option string :=
  match values !! f with
  | Some v => Some v
  | None => default None (out !! f)
  end.

(** A dict with all eleven fields. *)
Definition complete (r : gmap string (option string)) : Prop :=
  ∀ f, f ∈ FIELD_NAMES → is_Some (r !! f).

(** A merged timeline: unique keys, every dict complete. *)
Definition merged (output : odict (gmap string (option string))) : Prop :=
  NoDup (od_keys output) ∧ ∀ k r, od_get output k = Some r → complete r.

(** The strict order on keys. *)
Definition str_lt (x y : string) : Prop := String.le x y ∧ x ≠ y.

(** The interpolation loop as a pass over the items that threads the
    state. *)
Fixpoint interp_items (state : gmap string (option string))
    (items : list (string * gmap string (option string)))
    : result (list (string * gmap string (option string))) :=
  match items with
  | [] => Ok []
  | (time, values) :: items' =>
      '(state', values') ← interp_step state values;
      rest ← interp_items state' items';
      Ok ((time, values') :: rest)
  end.

(** The fields the interpolation loop assigns. *)
Definition INTERPOLATED : list string :=
  [ "wetdry"; "wet_temp_min"; "wet_temp_max"; "wet_temp_mean";
    "wet_temp_samples" ].

(** The state dict holds the whole wet-temperature group or none of it. *)
Definition state_ok (state : gmap string (option string)) : Prop :=
  is_Some (state !! "wet_temp_min") →
  is_Some (state !! "wet_temp_max") ∧ is_Some (state !! "wet_temp_mean") ∧
  is_Some (state !! "wet_temp_samples").

(** The key of a row: its first cell. *)
Definition row_key (row : list (option string)) : option string :=
  match row with
  | Some k :: _ => Some k
  | _ => None
  end.

(** The [wetdry] values a pass leaves, from the values it meets: [cur] is
    the value the state holds, [None] when it holds none. *)
Fixpoint wetdry_fill (cur : option (option string))
    (ws : list (option (option string))) : list (option (option string)) :=
  match ws with
  | [] => []
  | w :: ws' =>
      match w with
      | Some (Some x) => Some (Some x) :: wetdry_fill (Some (Some x)) ws'
      | _ =>
          match cur with
          | Some x => Some x
          | None => w
          end :: wetdry_fill cur ws'
      end
  end.

(** ** Sample data *)

(** What [read_data_file] returns for a temperature file with five
    readings, one second apart. *)
Definition temp_data : odict (gmap string string) :=
  [ ("2022-01-01 00:00:01",
      {[ "time" := "2022-01-01 00:00:01"; "localtime" := "2021-12-31 20:00:01";
         "temp" := "20.1" ]});
    ("2022-01-01 00:00:02",
      {[ "time" := "2022-01-01 00:00:02"; "localtime" := "2021-12-31 20:00:02";
         "temp" := "20.2" ]});
    ("2022-01-01 00:00:03",
      {[ "time" := "2022-01-01 00:00:03"; "localtime" := "2021-12-31 20:00:03";
         "temp" := "20.3" ]});
    ("2022-01-01 00:00:04",
      {[ "time" := "2022-01-01 00:00:04"; "localtime" := "2021-12-31 20:00:04";
         "temp" := "20.4" ]});
    ("2022-01-01 00:00:05",
      {[ "time" := "2022-01-01 00:00:05"; "localtime" := "2021-12-31 20:00:05";
         "temp" := "20.5" ]}) ].

(** What it returns for a wet/dry file with a reading at the second and
    at the fifth of these times. *)
Definition wetdry_data : odict (gmap string string) :=
  [ ("2022-01-01 00:00:02",
      {[ "time" := "2022-01-01 00:00:02"; "localtime" := "2021-12-31 20:00:02";
         "wetdry" := "dry"; "duration" := "7" ]});
    ("2022-01-01 00:00:05",
      {[ "time" := "2022-01-01 00:00:05"; "localtime" := "2021-12-31 20:00:05";
         "wetdry" := "wet"; "duration" := "12" ]}) ].

(** What it returns for a light file with a reading at the first time. *)
Definition light_data : odict (gmap string string) :=
  [ ("2022-01-01 00:00:01",
      {[ "time" := "2022-01-01 00:00:01"; "localtime" := "2021-12-31 20:00:01";
         "light" := "350" ]}) ].

Definition five_readings : odict (gmap string (option string)) :=
  foldl merge_file [] [temp_data; wetdry_data].

(** The field [f] at key [k] after the interpolation, [None] when there is
    none or when the interpolation raises. *)
Definition field_after (output : odict (gmap string (option string)))
    (k f : string) : option (option string) :=
  match interpolate output with
  | Ok out => od_get out k ≫= (.!! f)
  | Raise _ => None
  end.

(** A file the script reads to the end, and what it reads from it. *)
Definition read_by (tz : zone) (files : list (string * option (list string)))
    (data : odict (gmap string string)) : Prop :=
  ∃ file contents, (file, contents) ∈ files ∧
    contains "driftadj" file = false ∧
    read_data_file tz contents = Ok data.

(** The check of [ord2ymd_cycle] against [ymd2ord] on one day of the
    cycle of 400 years, and on all of them. *)
Definition check_day (y m d : Z) : bool :=
  let n := days_before_year y + days_before_month y m + d - 1 in
  let '(y', m', d') := ord2ymd_cycle n in
  negb (d <=? days_in_month y m) ||
  ((0 <=? n) && (n <? DI400Y) && (y' =? y - 1) && (m' =? m) && (d' =? d)).

Definition forall3b (f : Z → Z → Z → bool) (a b c : Z) : bool :=
  forallb (fun y => forallb (fun m => forallb (f y m) (seqZ 1 c)) (seqZ 1 b))
    (seqZ 1 a).

(** ** The shape of a timestamp in the logger's format *)

Fixpoint all_chars (p : ascii → bool) (s : string) : bool :=
  match s with
  | EmptyString => true
  | String c r => p c && all_chars p r
  end.

(** One or two digits. *)
Definition digits_1_2 (f : string) : Prop :=
  (String.length f = 1%nat ∨ String.length f = 2%nat) ∧
  all_chars is_digit f = true.

(** One or two digits, or a space and a digit. *)
Definition day_field (f : string) : Prop :=
  digits_1_2 f ∨ ∃ c, f = String " " (String c "") ∧ is_digit c = true.

(** [d/m/yyyy H:M:S]: fields of digits between the separators, any
    white space between the date and the time. *)
Definition timestamp_shape (s : string) : Prop :=
  ∃ d m y ws H M S : string,
    s = d +:+ "/" +:+ m +:+ "/" +:+ y +:+ ws +:+ H +:+ ":" +:+ M +:+ ":" +:+ S ∧
    day_field d ∧ digits_1_2 m ∧
    (String.length y = 4%nat ∧ all_chars is_digit y = true) ∧
    (ws ≠ "" ∧ all_chars is_space ws = true) ∧
    digits_1_2 H ∧ digits_1_2 M ∧ digits_1_2 S.

(** A part of the regular expression that takes a field of one or two
    digits and then goes on as its continuation does. *)
Definition field_1_2 {A : Type}
    (p : (Z → string → option A) → string → option A) : Prop :=
  ∀ k s x, p k s = Some x →
    ∃ f r v, s = f +:+ r ∧ digits_1_2 f ∧ k v r = Some x.

(** No file that is read raises. *)
Definition reads_cleanly (tz : zone)
    (files : list (string * option (list string))) : Prop :=
  ∀ file contents, (file, contents) ∈ files →
    contains "driftadj" file = false →
    ∃ data, read_data_file tz contents = Ok data.

(** The adjusted time as the specification words it:
    [rawTime + round(dps * (rawTime - start))]. *)
Definition adjusted_time_spec (rawTime start : Z) (dps : pynum) : result Z :=
  skew ← py_mul dps (PInt (rawTime - start));
  r ← py_round skew;
  Ok (rawTime + r).

(** ** Sample files *)

(** A parser state in the data section of a temperature file. *)
Definition temp_state : parser_state := set_field initial_state "temp".

(** A temperature file whose header records a drift of 3 seconds over a
    window of 4 seconds. *)
Definition drift_header : list string :=
  [ "Intigeo logger";
    "Programmed: 01/01/2022 00:00:00.";
    "End of logging (DD/MM/YYYY HH:MM:SS): 01/01/2022 00:00:04";
    "Drift (secs): 3.";
    "DD/MM/YYYY HH:MM:SS" +:+ String tab "T('C)" ].

Definition drift_row : string := "01/01/2022 00:00:01" +:+ String tab "20.5".

Definition drift_file : list string := drift_header ++ [drift_row; ""].

(** The state after the header of that file, and after its first row. *)
Definition state_of (r : result parser_state) : parser_state :=
  match r with
  | Ok st => st
  | Raise _ => initial_state
  end.

Definition drift_state : parser_state :=
  state_of (process_lines UTC initial_state drift_header).

Definition drift_state' : parser_state :=
  state_of (process_line UTC drift_state drift_row).

(** A header whose drift window is empty: no start and no end line. *)
Definition zero_window_file : list string :=
  [ "Intigeo logger"; "Drift (secs): 3.";
    "DD/MM/YYYY HH:MM:SS" +:+ String tab "T('C)" ].

(** A header whose column label is not in the vocabulary. *)
Definition unknown_label_file : list string :=
  [ "Intigeo logger";
    "DD/MM/YYYY HH:MM:SS" +:+ String tab "pressure" +:+ String tab "x";
    drift_row ].

(** The state after the three lines that set the drift window. *)
Definition window_state : parser_state :=
  state_of (process_lines UTC initial_state (take 3 drift_header)).

(** A column-header line of a wet/dry file. *)
Definition wetdry_header : string :=
  "DD/MM/YYYY HH:MM:SS" +:+ String tab "duration" +:+ String tab "wet/dry".

Definition data_of (r : result (odict (gmap string string)))
    : odict (gmap string string) :=
  match r with
  | Ok d => d
  | Raise _ => []
  end.

(** A directory: a file with drift, a file the script skips, and a file
    that cannot be opened. *)
Definition sample_files : list (string * option (list string)) :=
  [ ("logs/a.deg", Some drift_file);
    ("logs/a_driftadj.deg", Some zero_window_file);
    ("logs/b.lux", None) ].

(** ** Further notions: the states the parser reaches *)

(** The field kinds a column header can select. *)
Definition FIELD_KINDS : list string :=
  [ "temp"; "light"; "wets"; "wet_temp_min"; "wetdry" ].

(** A dict of a per-file timeline: it has [time] and [localtime], and
    every name in it is one of the eleven output fields. *)
Definition file_reading (r : gmap string string) : Prop :=
  is_Some (r !! "time") ∧ is_Some (r !! "localtime") ∧
  ∀ g, is_Some (r !! g) → g ∈ FIELD_NAMES.

(** What holds of every state the parser reaches. *)
Definition state_inv (st : parser_state) : Prop :=
  (in_data st = true → ∃ f, field st = Some f ∧ f ∈ FIELD_KINDS) ∧
  (in_data st = false → data st = []) ∧
  NoDup (od_keys (data st)) ∧
  ∀ k r, od_get (data st) k = Some r → file_reading r.

(** Every name of a dict is one of the eleven output fields. *)
Definition names_ok (r : gmap string string) : Prop :=
  ∀ g, is_Some (r !! g) → g ∈ FIELD_NAMES.


(** The four wet-temperature fields. *)
Definition WET_TEMP : list string :=
  [ "wet_temp_min"; "wet_temp_max"; "wet_temp_mean"; "wet_temp_samples" ].

(** A value that is there and is not [None]. *)
Definition defined (w : option (option string)) : Prop :=
  ∃ x, w = Some (Some x).

Definition is_defined (w : option (option string)) : bool :=
  match w with
  | Some (Some _) => true
  | _ => false
  end.

(** The field [g] is filled with the group whose key field is [gk]:
    [wetdry] on its own, the four wet-temperature fields with
    [wet_temp_min]. *)
Definition fills (gk g : string) : Prop :=
  (gk = "wetdry" ∧ g = "wetdry") ∨ (gk = "wet_temp_min" ∧ g ∈ WET_TEMP).

(** The values of a field a pass leaves. Each item is whether the reading
    defines the key field of the group, and its value of the field; [cur]
    is the value the state holds, [None] before the first reading that
    defines the key field. *)
Fixpoint key_fill (cur : option (option (option string)))
    (ws : list (bool * option (option string)))
    : list (option (option string)) :=
  match ws with
  | [] => []
  | (true, v) :: ws' => v :: key_fill (Some v) ws'
  | (false, v) :: ws' =>
      match cur with
      | Some x => x
      | None => v
      end :: key_fill cur ws'
  end.

(** What the state holds of the field [g] of a group with key field
    [gk]. *)
Definition held (gk g : string) (state : gmap string (option string))
    : option (option (option string)) :=
  match state !! gk with
  | Some _ => Some (state !! g)
  | None => None
  end.

(** ** Further notions: the lines of a file *)

(** The groups of the header patterns that match a line. *)
Definition header_matches (line : string) : list string :=
  omap id [ match_column_header line; match_programmed line;
            match_end line; match_drift line ].

(** The columns a row of the data section must have for the field kind:
    the highest index the branch reads, and one. *)
Definition columns_needed (f : string) : nat :=
  if decide (f = "wetdry") then 3%nat
  else if decide (f = "wet_temp_min") then 5%nat
  else 2%nat.

(** The fields a row of the data section sets for the field kind, each
    with the index of its column. *)
Definition row_fields (f : string) : list (string * nat) :=
  if decide (f = "wetdry") then [ ("wetdry", 2%nat); ("duration", 1%nat) ]
  else if decide (f = "wet_temp_min") then
    [ ("wet_temp_min", 1%nat); ("wet_temp_max", 2%nat);
      ("wet_temp_mean", 3%nat); ("wet_temp_samples", 4%nat) ]
  else [ (f, 1%nat) ].

(** The adjusted time of a row with the time [time]:
    [time + (dps * (time - start))]. *)
Definition adjusted_time (st : parser_state) (time : Z) : result pynum :=
  skew ← py_mul (dps st) (PInt (time - start st));
  py_add (PInt time) skew.

(** ** Further sample data *)

(** The column-header line of a temperature file. *)
Definition temp_header : string :=
  "DD/MM/YYYY HH:MM:SS" +:+ String tab "T('C)".

(** A temperature file without a drift line. *)
Definition temp_file : list string :=
  [ "Intigeo logger"; temp_header; drift_row;
    "01/01/2022 00:00:02" +:+ String tab "20.6" ].

(** A file whose column header is missing. *)
Definition headerless_file : list string := [ "Intigeo logger"; drift_row ].

(** A temperature file with a row that has no value. *)
Definition short_row_file : list string :=
  [ temp_header; "01/01/2022 00:00:01" ].

(** The dict at a key, the empty dict when there is none. *)
Definition reading_at {V} (d : odict (gmap string V)) (k : string)
    : gmap string V :=
  default ∅ (od_get d k).

(** A timeline merged from a temperature file and a light file. *)
Definition temp_light_readings : odict (gmap string (option string)) :=
  foldl merge_file [] [temp_data; light_data].

(** ** Timestamps as the logger writes them *)

(** The fields of a date and time in the format [parse_time] reads,
    ['%d/%m/%Y %H:%M:%S'], each with its leading zeros. *)
Definition logger_stamp (dt : datetime) : string :=
  pad2 (day dt) +:+ "/" +:+ pad2 (month dt) +:+ "/" +:+ pad4 (year dt) +:+ " " +:+
  pad2 (hour dt) +:+ ":" +:+ pad2 (minute dt) +:+ ":" +:+ pad2 (second dt).

(** ** The columns of the table *)

(** The cells of a row after the key: the field each is written from,
    and its index in the row. *)
Definition COLUMNS : list (string * nat) :=
  [ ("localtime", 1%nat); ("time", 2%nat); ("temp", 3%nat); ("light", 4%nat);
    ("wets", 5%nat); ("wetdry", 6%nat); ("duration", 7%nat);
    ("wet_temp_min", 8%nat); ("wet_temp_max", 9%nat);
    ("wet_temp_mean", 10%nat); ("wet_temp_samples", 11%nat) ].

(** The rows of a run, none when it raises. *)
Definition data_of_rows (r : result (list (list (option string))))
    : list (list (option string)) :=
  match r with
  | Ok rows => rows
  | Raise _ => []
  end.

(** ** Zones and the looks back of [fromtimestamp] *)

(** What the C library guarantees of [mktime] for a date and time that
    exists: the result is a [time_t], and when there is an instant at
    which the local time is the one given, the result is such an
    instant. *)
Definition zone_ok (tz : zone) : Prop :=
  ∀ dt, valid_datetime dt = true →
    TIME_T_MIN ≤ mktime tz dt ≤ TIME_T_MAX ∧
    ∀ t, localtime tz t = dt → localtime tz (mktime tz dt) = dt.

(** The looks back of [fromtimestamp] at [t] stay within the years of a
    [datetime]. *)
Definition look_back_ok (tz : zone) (t : Z) : Prop :=
  let transition := utcoffset tz t - utcoffset tz (t - 86400) in
  year_in_range (year (localtime tz (t - 86400))) = true ∧
  (transition < 0 →
   year_in_range (year (localtime tz (t + transition))) = true).

(** A zone with one change of the clock: five hours behind UTC until
    2022-03-13 07:00:00 UTC and four hours behind from then on. [mktime]
    takes a local time that the change skips as a time of the clock
    before the change. *)
Definition DST_START : Z := 1647154800.

Definition EASTERN : zone :=
  mkZone (fun t => if t <? DST_START then -18000 else -14400)
         (fun dt => let c := civil_seconds dt in
                    if DST_START <=? c + 14400 then c + 14400 else c + 18000).

(** The check of [ymd2ord] against [ord2ymd_cycle] on one day of the
    cycle of 400 years: the date of the day [r] of the cycle is a date
    that exists, and its ordinal is [r + 1]. *)
Definition check_ord (r : Z) : bool :=
  let '(y, m, d) := ord2ymd_cycle r in
  (DI400Y <=? r) ||
  ((0 <=? y) && (y <? 400) && (1 <=? m) && (m <=? 12) && (1 <=? d) &&
   (d <=? days_in_month (y + 1) m) && (ymd2ord (y + 1) m d =? r + 1)).

(** The days of the cycle, counted in three digits to the base 60. *)
Definition check_ord60 (a b c : Z) : bool :=
  check_ord (((a - 1) * 60 + (b - 1)) * 60 + (c - 1)).

(** ** A directory of two files that share a time *)

(** A light file with readings at the second and at the fifth second:
    the second is also in [temp_file]. *)
Definition light_file : list string :=
  [ "Intigeo logger";
    "DD/MM/YYYY HH:MM:SS" +:+ String tab "light(lux)";
    "01/01/2022 00:00:02" +:+ String tab "350";
    "01/01/2022 00:00:05" +:+ String tab "360" ].

(** The light file is read before the temperature file, so that the
    merged keys are not in order: 00:00:02, 00:00:05, 00:00:01. *)
Definition shared_files : list (string * option (list string)) :=
  [ ("logs/b.lux", Some light_file); ("logs/a.deg", Some temp_file) ].

(** ** A timeline whose only wet/dry reading is an early one *)

Definition early_wetdry_data : odict (gmap string string) :=
  [ ("2022-01-01 00:00:02",
      {[ "time" := "2022-01-01 00:00:02"; "localtime" := "2021-12-31 20:00:02";
         "wetdry" := "dry"; "duration" := "7" ]}) ].

Definition early_readings : odict (gmap string (option string)) :=
  foldl merge_file [] [temp_data; early_wetdry_data].

(** * Properties *)

(** ** The [result] monad *)

Lemma bind_Ok {A B} (f : A → result B) (r : result A) (b : B) :
  r ≫= f = Ok b → ∃ a, r = Ok a ∧ f a = Ok b.
Proof. destruct r as [a|e]; simpl; [eauto | discriminate]. Qed.

Ltac inv_bind H :=
  let a := fresh "a" in
  let Ha := fresh "Ha" in
  apply bind_Ok in H as (a & Ha & H).

(** ** [OrderedDict] *)

Section OrderedDictFacts.
Context {V : Type}.
Implicit Types (d : odict V) (k : string) (v : V).

Lemma od_get_set_eq d k v : od_get (od_set d k v) k = Some v.
Proof.
  induction d as [|[k' v'] d IH]; simpl; repeat case_decide; simpl;
    repeat case_decide; congruence.
Qed.

Lemma od_get_set_ne d k k' v :
  k ≠ k' → od_get (od_set d k v) k' = od_get d k'.
Proof.
  intros Hne. induction d as [|[k0 v0] d IH]; simpl; repeat case_decide;
    simpl; repeat case_decide; congruence.
Qed.

Lemma od_get_alter_eq (f : V → V) d k :
  od_get (od_alter f k d) k = f <$> od_get d k.
Proof.
  induction d as [|[k0 v0] d IH]; simpl; [done|].
  case_decide; simpl.
  - by rewrite decide_True.
  - by rewrite decide_False.
Qed.

Lemma od_get_alter_ne (f : V → V) d k k' :
  k ≠ k' → od_get (od_alter f k d) k' = od_get d k'.
Proof.
  intros Hne. induction d as [|[k0 v0] d IH]; simpl; [done|];
    repeat case_decide; simpl; repeat case_decide; congruence.
Qed.

Lemma od_keys_cons d k v : od_keys ((k, v) :: d) = k :: od_keys d.
Proof. reflexivity. Qed.

Lemma od_keys_alter (f : V → V) d k : od_keys (od_alter f k d) = od_keys d.
Proof.
  induction d as [|[k0 v0] d IH]; [done|]. simpl.
  case_decide; [done|]. rewrite !od_keys_cons. by f_equal.
Qed.

Lemma od_get_None d k : od_get d k = None ↔ k ∉ od_keys d.
Proof.
  induction d as [|[k0 v0] d IH].
  - split; [intros _; apply not_elem_of_nil | done].
  - rewrite od_keys_cons, not_elem_of_cons. simpl.
    case_decide as Hk.
    + split; [done | intros [Hne _]; congruence].
    + rewrite IH. split; [by split | by intros [_ ?]].
Qed.

Lemma od_get_is_Some d k : is_Some (od_get d k) ↔ k ∈ od_keys d.
Proof.
  destruct (od_get d k) as [v|] eqn:E.
  - split; [intros _|eauto]. destruct (decide (k ∈ od_keys d)) as [|Hn]; [done|].
    apply od_get_None in Hn. congruence.
  - apply od_get_None in E. split; [intros [? ?]; discriminate | done].
Qed.

Lemma od_mem_true d k : od_mem k d = true ↔ k ∈ od_keys d.
Proof.
  rewrite <- od_get_is_Some. unfold od_mem.
  destruct (od_get d k); split; eauto; try discriminate.
  intros [? ?]; discriminate.
Qed.

Lemma od_keys_set_new d k v :
  k ∉ od_keys d → od_keys (od_set d k v) = od_keys d ++ [k].
Proof.
  induction d as [|[k0 v0] d IH]; [done|].
  rewrite od_keys_cons, not_elem_of_cons. intros [Hne Hni]. simpl.
  case_decide; [congruence|]. rewrite od_keys_cons. by rewrite IH.
Qed.

Lemma od_keys_set_old d k v :
  k ∈ od_keys d → od_keys (od_set d k v) = od_keys d.
Proof.
  induction d as [|[k0 v0] d IH].
  - intros H; by apply elem_of_nil in H.
  - rewrite od_keys_cons. intros H. simpl. case_decide; [done|].
    rewrite od_keys_cons. f_equal. apply IH.
    apply elem_of_cons in H as [->|H]; [congruence | done].
Qed.

Lemma od_keys_set_elem d k v k' :
  k' ∈ od_keys (od_set d k v) ↔ k' = k ∨ k' ∈ od_keys d.
Proof.
  destruct (decide (k ∈ od_keys d)) as [Hin|Hni].
  - rewrite od_keys_set_old by done.
    split; [by right | by intros [->|]].
  - rewrite od_keys_set_new by done. rewrite elem_of_app, list_elem_of_singleton.
    tauto.
Qed.

Lemma od_keys_set_NoDup d k v :
  NoDup (od_keys d) → NoDup (od_keys (od_set d k v)).
Proof.
  intros Hnd. destruct (decide (k ∈ od_keys d)) as [Hin|Hni].
  - by rewrite od_keys_set_old.
  - rewrite od_keys_set_new by done. apply NoDup_app. split; [done|].
    split; [|apply NoDup_singleton].
    intros x Hx Hx'. apply list_elem_of_singleton in Hx'. by subst.
Qed.

Lemma od_alter_compose (f g : V → V) d k :
  od_alter g k (od_alter f k d) = od_alter (g ∘ f) k d.
Proof.
  induction d as [|[k0 v0] d IH]; simpl; [done|]; case_decide; simpl;
    case_decide; first [congruence | by rewrite IH].
Qed.

Lemma od_set_same d k v :
  od_get d k = Some v → od_set d k v = d.
Proof.
  induction d as [|[k0 v0] d IH]; simpl; [done|]. case_decide.
  - by intros [= ->].
  - intros H'. by rewrite IH.
Qed.

Lemma od_get_elem d k v : od_get d k = Some v → (k, v) ∈ d.
Proof.
  induction d as [|[k0 v0] d IH]; simpl; [done|]. case_decide.
  - intros [= ->]. subst. apply elem_of_cons; by left.
  - intros H'. apply elem_of_cons; right. by apply IH.
Qed.

Lemma od_elem_get d k v : NoDup (od_keys d) → (k, v) ∈ d → od_get d k = Some v.
Proof.
  induction d as [|[k0 v0] d IH].
  - intros _ H; by apply elem_of_nil in H.
  - rewrite od_keys_cons. intros Hnd H. apply NoDup_cons in Hnd as [Hni Hnd].
    simpl. apply elem_of_cons in H as [[= -> ->]|H].
    + by rewrite decide_True.
    + case_decide; [subst|by apply IH].
      exfalso. apply Hni. apply od_get_is_Some. rewrite (IH Hnd H). eauto.
Qed.
End OrderedDictFacts.

(** ** The merge *)

Lemma merge_field_lookup values f out g :
  merge_field values f out !! g =
  if decide (f = g) then Some (merged_value values out f) else out !! g.
Proof.
  unfold merge_field, merged_value.
  destruct (values !! f) as [v|] eqn:Ev.
  - rewrite lookup_insert. by case_decide.
  - destruct (out !! f) as [x|] eqn:Eo; simpl.
    + case_decide; [by subst|done].
    + rewrite lookup_insert. by case_decide.
Qed.

Lemma merged_value_merge_field values f out g :
  merged_value values (merge_field values f out) g = merged_value values out g.
Proof.
  unfold merged_value. destruct (values !! g) as [v|] eqn:Ev; [done|].
  rewrite merge_field_lookup. case_decide; [subst|done].
  simpl. unfold merged_value. by rewrite Ev.
Qed.

Lemma merge_fields_lookup values fs out g :
  foldl (fun out f => merge_field values f out) out fs !! g =
  if decide (g ∈ fs) then Some (merged_value values out g) else out !! g.
Proof.
  revert out. induction fs as [|f fs IH]; intros out; simpl.
  - done.
  - rewrite IH, merged_value_merge_field, merge_field_lookup.
    destruct (decide (g ∈ fs)) as [Hin|Hni].
    + rewrite decide_True; [done | by apply elem_of_cons; right].
    + destruct (decide (f = g)) as [->|Hne].
      * rewrite decide_True; [done | by apply elem_of_cons; left].
      * rewrite decide_False; [done|].
        intros [?|?]%elem_of_cons; congruence.
Qed.

Lemma merge_reading_lookup values out g :
  merge_reading values out !! g =
  if decide (g ∈ FIELD_NAMES) then Some (merged_value values out g)
  else out !! g.
Proof. apply merge_fields_lookup. Qed.

Lemma merge_reading_complete values out : complete (merge_reading values out).
Proof.
  intros f Hf. rewrite merge_reading_lookup, decide_True by done. eauto.
Qed.

Lemma od_alter_id {V} (d : odict V) k : od_alter (fun r => r) k d = d.
Proof.
  induction d as [|[k0 v0] d IH]; simpl; [done|]. case_decide; [done|].
  by rewrite IH.
Qed.

Lemma od_alter_foldl {V} (g : string → V → V) fs k (d : odict V) :
  foldl (fun d f => od_alter (g f) k d) d fs =
  od_alter (fun r => foldl (fun r f => g f r) r fs) k d.
Proof.
  revert d. induction fs as [|f fs IH]; intros d; simpl.
  - by rewrite od_alter_id.
  - by rewrite IH, od_alter_compose.
Qed.

Lemma merge_item_eq output date values :
  merge_item output (date, values) =
  od_alter (merge_reading values) date
    (if od_mem date output then output else od_set output date ∅).
Proof. unfold merge_item. by rewrite od_alter_foldl. Qed.

Lemma merge_item_get output date values k :
  od_get (merge_item output (date, values)) k =
  if decide (k = date)
  then Some (merge_reading values (default ∅ (od_get output date)))
  else od_get output k.
Proof.
  rewrite merge_item_eq. case_decide as Hk.
  - subst k. rewrite od_get_alter_eq. unfold od_mem.
    destruct (od_get output date) as [r|] eqn:E; simpl.
    + by rewrite E.
    + by rewrite od_get_set_eq.
  - rewrite od_get_alter_ne by done. destruct (od_mem date output); [done|].
    by rewrite od_get_set_ne.
Qed.

Lemma merge_item_keys output date values :
  od_keys (merge_item output (date, values)) =
  if od_mem date output then od_keys output else od_keys output ++ [date].
Proof.
  rewrite merge_item_eq, od_keys_alter.
  destruct (od_mem date output) eqn:E; [done|].
  apply od_keys_set_new. rewrite <- od_mem_true. by rewrite E.
Qed.

Lemma merge_item_keys_elem output date values k :
  k ∈ od_keys (merge_item output (date, values)) ↔ k = date ∨ k ∈ od_keys output.
Proof.
  rewrite merge_item_keys. destruct (od_mem date output) eqn:E.
  - apply od_mem_true in E. split; [by right | by intros [->|]].
  - rewrite elem_of_app, list_elem_of_singleton. tauto.
Qed.

Lemma merge_item_merged output item : merged output → merged (merge_item output item).
Proof.
  destruct item as [date values]. intros [Hnd Hc]. split.
  - rewrite merge_item_keys. destruct (od_mem date output) eqn:E; [done|].
    apply NoDup_app. split; [done|]. split; [|apply NoDup_singleton].
    intros x Hx ->%list_elem_of_singleton.
    apply od_mem_true in Hx. congruence.
  - intros k r. rewrite merge_item_get. case_decide.
    + intros [= <-]. apply merge_reading_complete.
    + apply Hc.
Qed.

Lemma merge_file_cons output item data :
  merge_file output (item :: data) = merge_file (merge_item output item) data.
Proof. reflexivity. Qed.

Lemma merge_file_merged output data : merged output → merged (merge_file output data).
Proof.
  revert output.
  induction data as [|item data IH]; intros output H; [done|].
  rewrite merge_file_cons. apply IH. by apply merge_item_merged.
Qed.

Lemma merge_files_merged output datas :
  merged output → merged (foldl merge_file output datas).
Proof.
  revert output. induction datas as [|data datas IH]; intros output H; simpl;
    [done|]. apply IH. by apply merge_file_merged.
Qed.

Lemma merged_nil : merged [].
Proof. split; [apply NoDup_nil_2 | intros k r; discriminate]. Qed.

Lemma merge_file_get output data k :
  NoDup (od_keys data) →
  od_get (merge_file output data) k =
  match od_get data k with
  | Some values => Some (merge_reading values (default ∅ (od_get output k)))
  | None => od_get output k
  end.
Proof.
  revert output.
  induction data as [|[d0 v0] data IH]; intros output Hnd; [done|].
  rewrite od_keys_cons in Hnd. apply NoDup_cons in Hnd as [Hni Hnd].
  rewrite merge_file_cons, IH by done. cbn [od_get]. case_decide as Hk.
  - subst d0. apply od_get_None in Hni. rewrite Hni.
    by rewrite merge_item_get, decide_True.
  - rewrite !merge_item_get, !decide_False by congruence. done.
Qed.

Lemma merge_file_keys_elem output data k :
  k ∈ od_keys (merge_file output data) ↔ k ∈ od_keys data ∨ k ∈ od_keys output.
Proof.
  revert output.
  induction data as [|[d0 v0] data IH]; intros output.
  - split; [by right | intros [H|H]; [by apply elem_of_nil in H | done]].
  - rewrite merge_file_cons, IH, merge_item_keys_elem, od_keys_cons, elem_of_cons.
    tauto.
Qed.

Lemma merge_files_keys_elem output datas k :
  k ∈ od_keys (foldl merge_file output datas) ↔
  (∃ data, data ∈ datas ∧ k ∈ od_keys data) ∨ k ∈ od_keys output.
Proof.
  revert output. induction datas as [|data datas IH]; intros output; simpl.
  - split; [by right | intros [(d & H & _)|H]; [by apply elem_of_nil in H | done]].
  - rewrite IH, merge_file_keys_elem. split.
    + intros [(d & Hd & Hk)|[Hk|Hk]]; [left; exists d|left; exists data|by right];
        (split; [|done]); apply elem_of_cons; auto.
    + intros [(d & Hd & Hk)|Hk]; [|by right; right].
      apply elem_of_cons in Hd as [->|Hd]; [by right; left|left; eauto].
Qed.

(** C4. Merging the next file [data] into the output of any files merged
    before it: every dict of the output then has all eleven fields; at a
    key of the file, a field the file defines holds the file's value, a
    field it does not define holds explicit [None] when the output had no
    value and keeps its value otherwise; so a [temp] set by an earlier
    file stays when a later file sets [light] at the same key. *)
Theorem merge_overwrites_or_nulls
    (datas : list (odict (gmap string string)))
    (data : odict (gmap string string)) (date f : string)
    (values : gmap string string) :
  NoDup (od_keys data) →
  od_get data date = Some values →
  f ∈ FIELD_NAMES →
  let output := foldl merge_file [] datas in
  let output' := merge_file output data in
  (∀ k r, od_get output' k = Some r → ∀ g, g ∈ FIELD_NAMES → is_Some (r !! g)) ∧
  ∃ r', od_get output' date = Some r' ∧
    (∀ v, values !! f = Some v → r' !! f = Some (Some v)) ∧
    (values !! f = None → od_get output date ≫= (.!! f) = None →
       r' !! f = Some None) ∧
    (∀ x, values !! f = None → od_get output date ≫= (.!! f) = Some x →
       r' !! f = Some x) ∧
    (∀ t l, od_get output date ≫= (.!! "temp") = Some (Some t) →
       values !! "temp" = None → values !! "light" = Some l →
       r' !! "temp" = Some (Some t) ∧ r' !! "light" = Some (Some l)).
Proof.
  intros Hnd Hget Hf output output'. split.
  - assert (Hm : merged output') by
      (apply merge_file_merged, merge_files_merged, merged_nil).
    intros k r Hr. by apply (proj2 Hm k r).
  - subst output'. rewrite merge_file_get, Hget by done.
    eexists; split; [done|].
    assert (Hlk : ∀ g x, od_get output date ≫= (.!! g) = x →
                  default ∅ (od_get output date) !! g = x).
    { intros g x. destruct (od_get output date); simpl; [done|].
      intros <-. apply lookup_empty. }
    split; [|split; [|split]].
    + intros v Hv. rewrite merge_reading_lookup, decide_True by done.
      unfold merged_value. by rewrite Hv.
    + intros Hv Ho. rewrite merge_reading_lookup, decide_True by done.
      unfold merged_value. by rewrite Hv, (Hlk _ _ Ho).
    + intros x Hv Ho. rewrite merge_reading_lookup, decide_True by done.
      unfold merged_value. by rewrite Hv, (Hlk _ _ Ho).
    + intros t l Ht Hvt Hvl. split.
      * rewrite merge_reading_lookup, decide_True
          by (apply (bool_decide_unpack _); vm_compute; exact I).
        unfold merged_value. by rewrite Hvt, (Hlk _ _ Ht).
      * rewrite merge_reading_lookup, decide_True
          by (apply (bool_decide_unpack _); vm_compute; exact I).
        unfold merged_value. by rewrite Hvl.
Qed.

(** ** Sorting and re-ordering *)

#[global] Instance str_ge_total : Total str_ge.
Proof. intros x y. unfold str_ge. destruct (total String.le x y); auto. Qed.

#[global] Instance str_ge_trans : Transitive str_ge.
Proof. intros x y z Hxy Hyz. unfold str_ge in *. by etrans. Qed.

Lemma py_sorted_perm reverse l : py_sorted reverse l ≡ₚ l.
Proof. destruct reverse; apply merge_sort_Permutation. Qed.

Lemma py_sorted_elem reverse l k : k ∈ py_sorted reverse l ↔ k ∈ l.
Proof. by rewrite py_sorted_perm. Qed.

Lemma py_sorted_NoDup reverse l : NoDup l → NoDup (py_sorted reverse l).
Proof. by rewrite py_sorted_perm. Qed.

Lemma py_sorted_ascending l : StronglySorted String.le (py_sorted false l).
Proof. apply StronglySorted_merge_sort; apply _. Qed.

Lemma py_sorted_descending l : StronglySorted str_ge (py_sorted true l).
Proof. apply StronglySorted_merge_sort; apply _. Qed.

Lemma StronglySorted_strict (l : list string) :
  NoDup l → StronglySorted String.le l → StronglySorted str_lt l.
Proof.
  induction 2 as [|x l Hs IH Hall]; [constructor|].
  apply NoDup_cons in H as [Hni Hnd]. constructor; [by apply IH|].
  apply Forall_forall. intros y Hy. split.
  - by eapply Forall_forall in Hall.
  - intros ->. done.
Qed.

Lemma od_set_app_new {V} (pre post : odict V) k v v' :
  k ∉ od_keys pre →
  od_set (pre ++ (k, v) :: post) k v' = pre ++ (k, v') :: post.
Proof.
  induction pre as [|[k0 v0] pre IH]; intros Hni.
  - simpl. by rewrite decide_True.
  - rewrite od_keys_cons in Hni. apply not_elem_of_cons in Hni as [Hne Hni].
    simpl. rewrite decide_False by congruence. by rewrite IH.
Qed.

Lemma od_set_snoc {V} (t : odict V) k v :
  k ∉ od_keys t → od_set t k v = t ++ [(k, v)].
Proof.
  induction t as [|[k0 v0] t IH]; intros Hni; [done|].
  rewrite od_keys_cons in Hni. apply not_elem_of_cons in Hni as [Hne Hni].
  simpl. rewrite decide_False by congruence. by rewrite IH.
Qed.

Lemma od_keys_app {V} (a b : odict V) : od_keys (a ++ b) = od_keys a ++ od_keys b.
Proof. unfold od_keys. apply fmap_app. Qed.

(** Re-ordering by a duplicate-free list of present keys gives the items
    in the order of the list. *)
Lemma reorder_into_ok {V} (t d : odict V) keys :
  NoDup (od_keys t ++ keys) →
  (∀ k, k ∈ keys → is_Some (od_get d k)) →
  ∃ t', reorder_into t keys d = Ok (t ++ t') ∧ od_keys t' = keys ∧
        ∀ k v, (k, v) ∈ t' → od_get d k = Some v.
Proof.
  revert t. induction keys as [|key keys IH]; intros t Hnd Hin.
  - exists []. rewrite app_nil_r. split; [done|]. split; [done|].
    intros k v H; by apply elem_of_nil in H.
  - destruct (Hin key) as [v Hv]; [by apply elem_of_cons; left|].
    simpl. unfold od_getitem. rewrite Hv. simpl.
    apply NoDup_app in Hnd as (Hnt & Hdisj & Hnk).
    apply NoDup_cons in Hnk as [Hni Hnk].
    assert (Hkt : key ∉ od_keys t).
    { intros Hk. apply (Hdisj _ Hk). apply elem_of_cons; by left. }
    rewrite od_set_snoc by done.
    destruct (IH (t ++ [(key, v)])) as (t' & Heq & Hkeys & Hvals).
    + rewrite od_keys_app. rewrite <- app_assoc. simpl.
      apply NoDup_app. split; [done|]. split.
      * intros x Hx Hx'. by apply (Hdisj x).
      * apply NoDup_cons. done.
    + intros k Hk. apply Hin. apply elem_of_cons; by right.
    + exists ((key, v) :: t'). rewrite Heq, <- app_assoc. simpl.
      split; [done|]. split; [by rewrite <- Hkeys|].
      intros k v' [[= -> ->]|H]%elem_of_cons; [done | by apply Hvals].
Qed.

Lemma reorder_ok {V} (d : odict V) keys :
  NoDup keys →
  (∀ k, k ∈ keys → k ∈ od_keys d) →
  ∃ t', reorder keys d = Ok t' ∧ od_keys t' = keys ∧
        ∀ k, k ∈ keys → od_get t' k = od_get d k.
Proof.
  intros Hnd Hin.
  destruct (reorder_into_ok [] d keys) as (t' & Heq & Hkeys & Hvals).
  - done.
  - intros k Hk. apply od_get_is_Some. by apply Hin.
  - exists t'. split; [done|]. split; [done|].
    intros k Hk. pose proof (Hin k Hk) as Hd.
    apply od_get_is_Some in Hd as [v Hv].
    rewrite Hv. apply od_elem_get; [by rewrite Hkeys|].
    rewrite <- Hkeys in Hk. apply od_get_is_Some in Hk as [v' Hv'].
    apply od_get_elem in Hv' as Hel. rewrite (Hvals _ _ Hel) in Hv.
    by injection Hv as ->.
Qed.

(** ** The interpolation loop *)

Lemma getitem_Some {V} (d : gmap string V) k v : d !! k = Some v → getitem d k = Ok v.
Proof. unfold getitem. by intros ->. Qed.

Lemma complete_lookup r f : complete r → f ∈ FIELD_NAMES → ∃ x, r !! f = Some x.
Proof. intros Hc Hf. by apply Hc. Qed.

Ltac field_in := apply (bool_decide_unpack _); vm_compute; exact I.

Lemma complete_insert r f x : complete r → complete (<[f := x]> r).
Proof.
  intros Hc g Hg. rewrite lookup_insert. case_decide; [eauto | by apply Hc].
Qed.

Lemma fill_wet_temp_ok state values :
  complete values → state_ok state →
  ∃ state' values', fill_wet_temp state values = Ok (state', values') ∧
    state_ok state' ∧ complete values' ∧
    (∀ f, f ∉ INTERPOLATED → values' !! f = values !! f) ∧
    values' !! "wetdry" = values !! "wetdry" ∧
    state' !! "wetdry" = state !! "wetdry".
Proof.
  intros Hc Hs.
  destruct (complete_lookup _ "wet_temp_min" Hc ltac:(field_in)) as [a Ea].
  destruct (complete_lookup _ "wet_temp_max" Hc ltac:(field_in)) as [b Eb].
  destruct (complete_lookup _ "wet_temp_mean" Hc ltac:(field_in)) as [c Ec].
  destruct (complete_lookup _ "wet_temp_samples" Hc ltac:(field_in)) as [d Ed].
  unfold fill_wet_temp. rewrite Ea.
  destruct a as [a|].
  - rewrite (getitem_Some _ _ _ Ea), (getitem_Some _ _ _ Eb),
      (getitem_Some _ _ _ Ec), (getitem_Some _ _ _ Ed). simpl.
    unfold getitem. simplify_map_eq. simpl.
    do 2 eexists. split; [reflexivity|].
    split; [intros _; by simplify_map_eq|].
    split; [by repeat apply complete_insert|].
    split; [|by simplify_map_eq].
    intros f Hf. rewrite !lookup_insert_ne; [done|intros <-; apply Hf; field_in..].
  - simpl. destruct (state !! "wet_temp_min") as [sa|] eqn:Esa.
    + destruct Hs as ([sb Esb] & [sc Esc] & [sd Esd]); [by rewrite Esa|].
      rewrite (getitem_Some _ _ _ Esa), (getitem_Some _ _ _ Esb),
        (getitem_Some _ _ _ Esc), (getitem_Some _ _ _ Esd). simpl.
      do 2 eexists. split; [reflexivity|].
      split; [intros _; by rewrite Esb, Esc, Esd|].
      split; [by repeat apply complete_insert|].
      split; [|by simplify_map_eq].
      intros f Hf. rewrite !lookup_insert_ne; [done|intros <-; apply Hf; field_in..].
    + simpl. do 2 eexists. split; [reflexivity|].
      split; [intros [? ?]; congruence|]. done.
Qed.

Lemma fill_wetdry_ok state values :
  complete values →
  ∃ state' values', fill_wetdry state values = Ok (state', values') ∧
    (state_ok state → state_ok state') ∧ complete values' ∧
    (∀ f, f ≠ "wetdry" → values' !! f = values !! f) ∧
    state' !! "wetdry" =
      match values !! "wetdry" with
      | Some (Some w) => Some (Some w)
      | _ => state !! "wetdry"
      end ∧
    values' !! "wetdry" =
      match values !! "wetdry" with
      | Some (Some w) => Some (Some w)
      | v => match state !! "wetdry" with Some x => Some x | None => v end
      end ∧
    state' !! "duration" =
      match values !! "wetdry" with
      | Some (Some w) => values !! "duration"
      | _ => state !! "duration"
      end.
Proof.
  intros Hc.
  destruct (complete_lookup _ "wetdry" Hc ltac:(field_in)) as [w Ew].
  destruct (complete_lookup _ "duration" Hc ltac:(field_in)) as [u Eu].
  unfold fill_wetdry. rewrite Ew. destruct w as [w|].
  - rewrite (getitem_Some _ _ _ Ew), (getitem_Some _ _ _ Eu). simpl.
    unfold getitem. simplify_map_eq. simpl.
    do 2 eexists. split; [reflexivity|].
    split; [intros Hs; unfold state_ok; by rewrite !lookup_insert_ne|].
    split; [by apply complete_insert|].
    split; [intros f Hf; by rewrite lookup_insert_ne|].
    by simplify_map_eq.
  - simpl. destruct (state !! "wetdry") as [x|] eqn:Ex.
    + rewrite (getitem_Some _ _ _ Ex). simpl.
      do 2 eexists. split; [reflexivity|].
      split; [done|]. split; [by apply complete_insert|].
      split; [intros f Hf; by rewrite lookup_insert_ne|].
      by simplify_map_eq.
    + simpl. do 2 eexists. split; [reflexivity|]. by rewrite Ew.
Qed.

Lemma interp_step_ok state values :
  complete values → state_ok state →
  ∃ state' values', interp_step state values = Ok (state', values') ∧
    state_ok state' ∧ complete values' ∧
    (∀ f, f ∉ INTERPOLATED → values' !! f = values !! f) ∧
    state' !! "wetdry" =
      match values !! "wetdry" with
      | Some (Some w) => Some (Some w)
      | _ => state !! "wetdry"
      end ∧
    values' !! "wetdry" =
      match values !! "wetdry" with
      | Some (Some w) => Some (Some w)
      | v => match state !! "wetdry" with Some x => Some x | None => v end
      end.
Proof.
  intros Hc Hs.
  destruct (fill_wet_temp_ok state values Hc Hs)
    as (s1 & v1 & E1 & Hs1 & Hc1 & Hf1 & Hw1 & Hsw1).
  destruct (fill_wetdry_ok s1 v1 Hc1)
    as (s2 & v2 & E2 & Hs2 & Hc2 & Hf2 & Hsw2 & Hw2 & _).
  exists s2, v2. unfold interp_step. rewrite E1. simpl.
  split; [done|]. split; [by apply Hs2|]. split; [done|].
  split; [|by rewrite Hsw2, Hw2, Hw1, Hsw1].
  intros f Hf. rewrite Hf2, Hf1; [done..|].
  intros ->. apply Hf. field_in.
Qed.

Lemma state_ok_empty : state_ok ∅.
Proof. intros [x Hx]. by rewrite lookup_empty in Hx. Qed.

(** A pass over complete dicts succeeds, keeps the keys, and leaves every
    field outside the interpolated ones as it was. *)
Lemma interp_items_ok items state :
  Forall (fun kr => complete kr.2) items → state_ok state →
  ∃ items', interp_items state items = Ok items' ∧
    Forall2 (fun kr kr' => kr'.1 = kr.1 ∧ complete kr'.2 ∧
               ∀ f, f ∉ INTERPOLATED → kr'.2 !! f = kr.2 !! f) items items'.
Proof.
  revert state. induction items as [|[k r] items IH]; intros state Hall Hs.
  - exists []. split; [done | constructor].
  - apply Forall_cons in Hall as [Hc Hall].
    destruct (interp_step_ok state r Hc Hs) as (s' & r' & E & Hs' & Hc' & Hf & _).
    destruct (IH s' Hall Hs') as (items' & E' & HF).
    exists ((k, r') :: items'). simpl. rewrite E. simpl. rewrite E'. simpl.
    split; [done|]. constructor; [done|done].
Qed.

Lemma interp_loop_items state pre items :
  NoDup (od_keys (pre ++ items)) →
  interp_loop state (pre ++ items) items =
  interp_items state items ≫= fun rest => Ok (pre ++ rest).
Proof.
  revert state pre. induction items as [|[k r] items IH]; intros state pre Hnd.
  - simpl. by rewrite app_nil_r.
  - simpl. destruct (interp_step state r) as [[s' r']|e]; simpl; [|done].
    rewrite od_keys_app in Hnd. apply NoDup_app in Hnd as Hnd'.
    destruct Hnd' as (Hnp & Hdisj & Hni).
    rewrite od_set_app_new.
    2:{ intros Hk. apply (Hdisj _ Hk). rewrite od_keys_cons.
        apply elem_of_cons; by left. }
    replace (pre ++ (k, r') :: items) with ((pre ++ [(k, r')]) ++ items)
      by (by rewrite <- app_assoc).
    rewrite IH.
    + destruct (interp_items s' items) as [rest|e]; simpl; [|done].
      by rewrite <- app_assoc.
    + rewrite <- app_assoc. simpl. rewrite od_keys_app, od_keys_cons.
      by rewrite od_keys_cons in Hnd.
Qed.

Lemma Forall2_keys (items items' : odict (gmap string (option string))) P :
  Forall2 (fun kr kr' => kr'.1 = kr.1 ∧ P kr kr') items items' →
  od_keys items' = od_keys items.
Proof.
  induction 1 as [|[k r] [k' r'] l l' [Hk _] _ IH]; [done|].
  rewrite !od_keys_cons. simpl in Hk. by rewrite Hk, IH.
Qed.

Lemma Forall2_get (items items' : odict (gmap string (option string)))
    (P : gmap string (option string) → gmap string (option string) → Prop) k r :
  Forall2 (fun kr kr' => kr'.1 = kr.1 ∧ P kr.2 kr'.2) items items' →
  od_get items k = Some r →
  ∃ r', od_get items' k = Some r' ∧ P r r'.
Proof.
  induction 1 as [|[k0 r0] [k0' r0'] l l' [Hk HP] _ IH]; [done|].
  simpl in Hk, HP. subst k0'. simpl. case_decide.
  - intros [= ->]. eauto.
  - apply IH.
Qed.

(** ** The whole interpolation stage *)

Lemma od_get_keys_ext {V} (a b : odict V) :
  od_keys a = od_keys b → ∀ k, is_Some (od_get a k) ↔ is_Some (od_get b k).
Proof. intros E k. by rewrite !od_get_is_Some, E. Qed.

(** The stage on a merged timeline: [temp] is the timeline in descending
    key order, [temp'] what the loop makes of it, [out] the result in
    ascending key order. *)
Lemma interpolate_stages output :
  merged output →
  ∃ temp temp' out,
    reorder (py_sorted true (od_keys output)) output = Ok temp ∧
    od_keys temp = py_sorted true (od_keys output) ∧
    (∀ k, od_get temp k = od_get output k) ∧
    interp_items ∅ temp = Ok temp' ∧
    interpolate output = Ok out ∧
    od_keys out = py_sorted false (od_keys temp) ∧
    od_keys temp' = od_keys temp ∧
    (∀ k, od_get out k = od_get temp' k).
Proof.
  intros [Hnd Hc].
  destruct (reorder_ok output (py_sorted true (od_keys output)))
    as (temp & Et & Hkt & Hgt).
  { by apply py_sorted_NoDup. }
  { intros k. by rewrite py_sorted_elem. }
  assert (Hgt' : ∀ k, od_get temp k = od_get output k).
  { intros k. destruct (decide (k ∈ od_keys output)) as [Hin|Hni].
    - apply Hgt. by rewrite py_sorted_elem.
    - assert (Hni' : k ∉ od_keys temp) by (by rewrite Hkt, py_sorted_elem).
      apply od_get_None in Hni, Hni'. by rewrite Hni, Hni'. }
  assert (Hndt : NoDup (od_keys temp)) by (rewrite Hkt; by apply py_sorted_NoDup).
  destruct (interp_items_ok temp ∅) as (temp' & Ei & HF).
  { apply Forall_forall. intros [k r] Hel. simpl.
    apply (Hc k). rewrite <- Hgt'. by apply od_elem_get. }
  { apply state_ok_empty. }
  assert (Hkt' : od_keys temp' = od_keys temp).
  { eapply (Forall2_keys _ _ (fun kr kr' => complete kr'.2 ∧
       ∀ f, f ∉ INTERPOLATED → kr'.2 !! f = kr.2 !! f)), HF. }
  destruct (reorder_ok temp' (py_sorted false (od_keys temp')))
    as (out & Eo & Hko & Hgo).
  { apply py_sorted_NoDup. by rewrite Hkt'. }
  { intros k. by rewrite py_sorted_elem. }
  exists temp, temp', out. split; [done|]. split; [done|]. split; [done|].
  split; [done|]. split.
  - unfold interpolate. rewrite Et. simpl.
    rewrite (interp_loop_items ∅ [] temp) by done.
    rewrite Ei. simpl. done.
  - split; [by rewrite Hko, Hkt'|]. split; [done|].
    intros k. destruct (decide (k ∈ od_keys temp')) as [Hin|Hni].
    + apply Hgo. by rewrite py_sorted_elem.
    + assert (Hni' : k ∉ od_keys out) by (by rewrite Hko, py_sorted_elem).
      apply od_get_None in Hni, Hni'. by rewrite Hni, Hni'.
Qed.

(** What the stage keeps, and the order it leaves. *)
Lemma interpolate_frame output :
  merged output →
  ∃ out, interpolate output = Ok out ∧
    StronglySorted str_lt (od_keys out) ∧
    (∀ k, k ∈ od_keys out ↔ k ∈ od_keys output) ∧
    (∀ k r, od_get output k = Some r →
       ∃ r', od_get out k = Some r' ∧ complete r' ∧
             ∀ f, f ∉ INTERPOLATED → r' !! f = r !! f) ∧
    (∀ k r', od_get out k = Some r' → complete r').
Proof.
  intros Hm.
  destruct (interpolate_stages output Hm)
    as (temp & temp' & out & Et & Hkt & Hgt & Ei & Eo & Hko & Hkt' & Hgo).
  destruct (interp_items_ok temp ∅) as (temp'' & Ei' & HF).
  { apply Forall_forall. intros [k r] Hel. simpl.
    apply (proj2 Hm k). rewrite <- Hgt. apply od_elem_get; [|done].
    rewrite Hkt. apply py_sorted_NoDup, Hm. }
  { apply state_ok_empty. }
  rewrite Ei in Ei'. injection Ei' as <-.
  assert (Hval : ∀ k r, od_get output k = Some r →
       ∃ r', od_get out k = Some r' ∧ complete r' ∧
             ∀ f, f ∉ INTERPOLATED → r' !! f = r !! f).
  { intros k r Hr. rewrite <- Hgt in Hr.
    destruct (Forall2_get temp temp'
      (fun r r' => complete r' ∧ ∀ f, f ∉ INTERPOLATED → r' !! f = r !! f)
      k r HF Hr) as (r' & Hr' & HP).
    exists r'. by rewrite Hgo. }
  exists out. split; [done|]. split; [|split; [|split; [done|]]].
  - rewrite Hko. apply StronglySorted_strict, py_sorted_ascending.
    apply py_sorted_NoDup. rewrite Hkt. apply py_sorted_NoDup, Hm.
  - intros k. by rewrite Hko, py_sorted_elem, Hkt, py_sorted_elem.
  - intros k r' Hr'.
    assert (Hin : k ∈ od_keys output).
    { rewrite <- py_sorted_elem, <- Hkt, <- (py_sorted_elem false), <- Hko.
      apply od_get_is_Some. eauto. }
    apply od_get_is_Some in Hin as [r Hr].
    destruct (Hval k r Hr) as (r'' & Hr'' & Hc & _).
    rewrite Hr' in Hr''. by injection Hr'' as <-.
Qed.

Lemma interp_items_wetdry items state items' :
  Forall (fun kr => complete kr.2) items → state_ok state →
  interp_items state items = Ok items' →
  (fun kr => kr.2 !! "wetdry") <$> items' =
  wetdry_fill (state !! "wetdry") ((fun kr => kr.2 !! "wetdry") <$> items).
Proof.
  revert state items'. induction items as [|[k r] items IH];
    intros state items' Hall Hs E.
  - by injection E as <-.
  - apply Forall_cons in Hall as [Hc Hall].
    destruct (interp_step_ok state r Hc Hs)
      as (s' & r' & E1 & Hs' & Hc' & _ & Hsw & Hw).
    simpl in E. rewrite E1 in E. simpl in E.
    destruct (interp_items s' items) as [rest|e] eqn:E2; [|done].
    simpl in E. injection E as <-.
    rewrite !fmap_cons. cbn [wetdry_fill snd].
    rewrite (IH s' rest Hall Hs' E2). simpl. rewrite Hw, Hsw.
    by destruct (r !! "wetdry") as [[w|]|].
Qed.

(** ** The claims about the interpolation *)

Lemma five_readings_merged : merged five_readings.
Proof. apply merge_files_merged, merged_nil. Qed.

(** C10. On the timeline merged from any files, the interpolation
    succeeds, keeps the set of keys, and changes no field of any dict other
    than [wetdry] and the four [wet_temp_*] fields: [time], [localtime],
    [temp], [light], [wets] and [duration] hold what they held. *)
Theorem interpolation_changes_only_five_fields
    (datas : list (odict (gmap string string))) :
  let output := foldl merge_file [] datas in
  ∃ out, interpolate output = Ok out ∧
    (∀ k, k ∈ od_keys out ↔ k ∈ od_keys output) ∧
    ∀ k r, od_get output k = Some r →
      ∃ r', od_get out k = Some r' ∧
        (∀ f, f ∉ INTERPOLATED → r' !! f = r !! f) ∧
        r' !! "time" = r !! "time" ∧
        r' !! "localtime" = r !! "localtime" ∧
        r' !! "temp" = r !! "temp" ∧
        r' !! "light" = r !! "light" ∧
        r' !! "wets" = r !! "wets" ∧
        r' !! "duration" = r !! "duration".
Proof.
  intros output.
  destruct (interpolate_frame output) as (out & E & _ & Hk & Hv & _).
  { apply merge_files_merged, merged_nil. }
  exists out. split; [done|]. split; [done|].
  intros k r Hr. destruct (Hv k r Hr) as (r' & Hr' & _ & Hf).
  exists r'. split; [done|]. split; [done|].
  repeat split; apply Hf; field_in.
Qed.

Lemma interpolation_changes_only_five_fields_witness :
  ∃ out, interpolate five_readings = Ok out ∧
    ∃ r', od_get out "2022-01-01 00:00:01" = Some r' ∧
      r' !! "temp" = Some (Some "20.1") ∧ r' !! "duration" = Some None.
Proof.
  destruct (interpolation_changes_only_five_fields [temp_data; wetdry_data])
    as (out & E & _ & Hv).
  exists out. split; [exact E|].
  destruct (Hv "2022-01-01 00:00:01"
              (merge_reading
                 {[ "time" := "2022-01-01 00:00:01";
                    "localtime" := "2021-12-31 20:00:01"; "temp" := "20.1" ]} ∅))
    as (r' & Hr' & _ & _ & _ & Ht & _ & _ & Hd).
  { vm_compute. reflexivity. }
  exists r'. split; [exact Hr'|]. split.
  - rewrite Ht. vm_compute. reflexivity.
  - rewrite Hd. vm_compute. reflexivity.
Defined.

Lemma od_five_items {V} (t : odict V) k1 k2 k3 k4 k5 :
  od_keys t = [k1; k2; k3; k4; k5] →
  ∃ r1 r2 r3 r4 r5, t = [(k1, r1); (k2, r2); (k3, r3); (k4, r4); (k5, r5)].
Proof.
  destruct t as [|[a1 r1] [|[a2 r2] [|[a3 r3] [|[a4 r4] [|[a5 r5] [|x t]]]]]];
    try discriminate.
  intros [= -> -> -> -> ->]. by exists r1, r2, r3, r4, r5.
Qed.

(** The [wetdry] values after the interpolation of five readings of which
    the first and the fourth, latest first, define it. *)
Lemma five_readings_fill output k1 k2 k3 k4 k5 (a b : string) :
  merged output →
  py_sorted true (od_keys output) = [k1; k2; k3; k4; k5] →
  od_get output k1 ≫= (.!! "wetdry") = Some (Some a) →
  od_get output k2 ≫= (.!! "wetdry") = Some None →
  od_get output k3 ≫= (.!! "wetdry") = Some None →
  od_get output k4 ≫= (.!! "wetdry") = Some (Some b) →
  od_get output k5 ≫= (.!! "wetdry") = Some None →
  ∃ out, interpolate output = Ok out ∧
    od_get out k1 ≫= (.!! "wetdry") = Some (Some a) ∧
    od_get out k2 ≫= (.!! "wetdry") = Some (Some a) ∧
    od_get out k3 ≫= (.!! "wetdry") = Some (Some a) ∧
    od_get out k4 ≫= (.!! "wetdry") = Some (Some b) ∧
    od_get out k5 ≫= (.!! "wetdry") = Some (Some b).
Proof.
  intros Hm Hkeys H1 H2 H3 H4 H5.
  destruct (interpolate_stages output Hm)
    as (temp & temp' & out & Et & Hkt & Hgt & Ei & Eo & Hko & Hkt' & Hgo).
  rewrite Hkeys in Hkt. rewrite Hkt in Hkt'.
  assert (Hnd : NoDup [k1; k2; k3; k4; k5]).
  { rewrite <- Hkeys. apply py_sorted_NoDup, Hm. }
  destruct (od_five_items temp _ _ _ _ _ Hkt) as (r1 & r2 & r3 & r4 & r5 & ->).
  destruct (od_five_items temp' _ _ _ _ _ Hkt')
    as (r1' & r2' & r3' & r4' & r5' & ->).
  assert (Hlk : ∀ (t : odict (gmap string (option string))) x1 x2 x3 x4 x5,
    t = [(k1, x1); (k2, x2); (k3, x3); (k4, x4); (k5, x5)] →
    od_get t k1 = Some x1 ∧ od_get t k2 = Some x2 ∧ od_get t k3 = Some x3 ∧
    od_get t k4 = Some x4 ∧ od_get t k5 = Some x5).
  { intros t x1 x2 x3 x4 x5 ->.
    repeat split; apply od_elem_get; try done; set_solver. }
  destruct (Hlk _ r1 r2 r3 r4 r5 eq_refl) as (G1 & G2 & G3 & G4 & G5).
  destruct (Hlk _ r1' r2' r3' r4' r5' eq_refl) as (G1' & G2' & G3' & G4' & G5').
  rewrite <- Hgt, G1 in H1. rewrite <- Hgt, G2 in H2. rewrite <- Hgt, G3 in H3.
  rewrite <- Hgt, G4 in H4. rewrite <- Hgt, G5 in H5.
  simpl in H1, H2, H3, H4, H5.
  apply interp_items_wetdry in Ei.
  - rewrite !fmap_cons, fmap_nil in Ei. cbn [snd] in Ei.
    rewrite H1, H2, H3, H4, H5, lookup_empty in Ei. cbn [wetdry_fill] in Ei.
    injection Ei as W1 W2 W3 W4 W5.
    exists out. split; [done|].
    rewrite !Hgo, G1', G2', G3', G4', G5'. simpl. done.
  - apply Forall_forall. intros [k r] Hel. simpl. apply (proj2 Hm k).
    rewrite <- Hgt. apply od_elem_get; [|done]. by rewrite Hkt.
  - apply state_ok_empty.
Qed.

(** C3, as the code has it. For a merged timeline of five readings of
    which, taken latest first, only the first and the fourth define
    [wetdry]: after the interpolation the second and the third carry the
    value of the first, and the fifth, the oldest, carries the value of
    the fourth. *)
Theorem five_readings_forward_fill output k1 k2 k3 k4 k5 (a b : string) :
  merged output →
  py_sorted true (od_keys output) = [k1; k2; k3; k4; k5] →
  od_get output k1 ≫= (.!! "wetdry") = Some (Some a) →
  od_get output k2 ≫= (.!! "wetdry") = Some None →
  od_get output k3 ≫= (.!! "wetdry") = Some None →
  od_get output k4 ≫= (.!! "wetdry") = Some (Some b) →
  od_get output k5 ≫= (.!! "wetdry") = Some None →
  ∃ out, interpolate output = Ok out ∧
    od_get out k2 ≫= (.!! "wetdry") = Some (Some a) ∧
    od_get out k3 ≫= (.!! "wetdry") = Some (Some a) ∧
    od_get out k5 ≫= (.!! "wetdry") = Some (Some b).
Proof.
  intros Hm Hkeys H1 H2 H3 H4 H5.
  destruct (five_readings_fill output k1 k2 k3 k4 k5 a b Hm Hkeys H1 H2 H3 H4 H5)
    as (out & E & _ & W2 & W3 & _ & W5).
  by exists out.
Qed.

Lemma five_readings_forward_fill_witness :
  ∃ out, interpolate five_readings = Ok out ∧
    od_get out "2022-01-01 00:00:04" ≫= (.!! "wetdry") = Some (Some "wet") ∧
    od_get out "2022-01-01 00:00:03" ≫= (.!! "wetdry") = Some (Some "wet") ∧
    od_get out "2022-01-01 00:00:01" ≫= (.!! "wetdry") = Some (Some "dry").
Proof.
  apply (five_readings_forward_fill five_readings
           "2022-01-01 00:00:05" "2022-01-01 00:00:04" "2022-01-01 00:00:03"
           "2022-01-01 00:00:02" "2022-01-01 00:00:01" "wet" "dry").
  - exact five_readings_merged.
  - vm_compute. reflexivity.
  - vm_compute. reflexivity.
  - vm_compute. reflexivity.
  - vm_compute. reflexivity.
  - vm_compute. reflexivity.
  - vm_compute. reflexivity.
Defined.

(** C3, as the specification words it, fails: the oldest of the five
    readings does not stay without a [wetdry] value. *)
Lemma five_readings_oldest_not_absent :
  ¬ (∀ output k1 k2 k3 k4 k5 (a b : string),
       merged output →
       py_sorted true (od_keys output) = [k1; k2; k3; k4; k5] →
       od_get output k1 ≫= (.!! "wetdry") = Some (Some a) →
       od_get output k2 ≫= (.!! "wetdry") = Some None →
       od_get output k3 ≫= (.!! "wetdry") = Some None →
       od_get output k4 ≫= (.!! "wetdry") = Some (Some b) →
       od_get output k5 ≫= (.!! "wetdry") = Some None →
       ∃ out, interpolate output = Ok out ∧
         od_get out k2 ≫= (.!! "wetdry") = Some (Some a) ∧
         od_get out k3 ≫= (.!! "wetdry") = Some (Some a) ∧
         od_get out k5 ≫= (.!! "wetdry") = Some None).
Proof.
  intros H.
  destruct (H five_readings
              "2022-01-01 00:00:05" "2022-01-01 00:00:04" "2022-01-01 00:00:03"
              "2022-01-01 00:00:02" "2022-01-01 00:00:01" "wet" "dry")
    as (out & E & _ & _ & W5);
    [exact five_readings_merged | vm_compute; reflexivity ..|].
  assert (Hc : field_after five_readings "2022-01-01 00:00:01" "wetdry"
               = Some (Some "dry")) by (vm_compute; reflexivity).
  unfold field_after in Hc. rewrite E, W5 in Hc. discriminate.
Qed.

(** C1, at a failing input. The reading at 00:00:05 defines [wetdry] and
    [duration]; the interpolation hands its [wetdry] down to the reading
    at 00:00:04, whose [duration] it leaves at [None]. *)
Lemma duration_not_forward_filled :
  od_get five_readings "2022-01-01 00:00:05" ≫= (.!! "wetdry")
    = Some (Some "wet") ∧
  od_get five_readings "2022-01-01 00:00:05" ≫= (.!! "duration")
    = Some (Some "12") ∧
  od_get five_readings "2022-01-01 00:00:04" ≫= (.!! "wetdry") = Some None ∧
  field_after five_readings "2022-01-01 00:00:04" "wetdry" = Some (Some "wet") ∧
  field_after five_readings "2022-01-01 00:00:04" "duration" = Some None.
Proof. repeat split; vm_compute; reflexivity. Qed.

(** ** Emission and the script as a whole *)

Lemma emit_row_ok k r :
  complete r → ∃ row, emit_row (k, r) = Ok row ∧ row_key row = Some k.
Proof.
  intros Hc. unfold emit_row.
  destruct (complete_lookup _ "localtime" Hc ltac:(field_in)) as [c1 E1].
  destruct (complete_lookup _ "time" Hc ltac:(field_in)) as [c2 E2].
  destruct (complete_lookup _ "temp" Hc ltac:(field_in)) as [c3 E3].
  destruct (complete_lookup _ "light" Hc ltac:(field_in)) as [c4 E4].
  destruct (complete_lookup _ "wets" Hc ltac:(field_in)) as [c5 E5].
  destruct (complete_lookup _ "wetdry" Hc ltac:(field_in)) as [c6 E6].
  destruct (complete_lookup _ "duration" Hc ltac:(field_in)) as [c7 E7].
  destruct (complete_lookup _ "wet_temp_min" Hc ltac:(field_in)) as [c8 E8].
  destruct (complete_lookup _ "wet_temp_max" Hc ltac:(field_in)) as [c9 E9].
  destruct (complete_lookup _ "wet_temp_mean" Hc ltac:(field_in)) as [c10 E10].
  destruct (complete_lookup _ "wet_temp_samples" Hc ltac:(field_in)) as [c11 E11].
  rewrite (getitem_Some _ _ _ E1), (getitem_Some _ _ _ E2),
    (getitem_Some _ _ _ E3), (getitem_Some _ _ _ E4), (getitem_Some _ _ _ E5),
    (getitem_Some _ _ _ E6), (getitem_Some _ _ _ E7), (getitem_Some _ _ _ E8),
    (getitem_Some _ _ _ E9), (getitem_Some _ _ _ E10), (getitem_Some _ _ _ E11).
  eexists. split; reflexivity.
Qed.

Lemma emit_rows_ok (out : odict (gmap string (option string))) :
  Forall (fun kr => complete kr.2) out →
  ∃ rows, mapM emit_row out = Ok rows ∧ row_key <$> rows = Some <$> od_keys out.
Proof.
  induction out as [|[k r] out IH]; intros Hall.
  - exists []. done.
  - apply Forall_cons in Hall as [Hc Hall].
    destruct (emit_row_ok k r Hc) as (row & Er & Hk).
    destruct (IH Hall) as (rows & Erows & Hks).
    exists (row :: rows). split.
    + cbn [mapM]. rewrite Er. cbn [mbind result_bind]. rewrite Erows. done.
    + rewrite od_keys_cons, !fmap_cons. by rewrite Hk, Hks.
Qed.

Section ScriptFacts.
Variable tz : zone.

Lemma read_files_ok files output :
  merged output →
  (∀ file contents, (file, contents) ∈ files →
     contains "driftadj" file = false →
     ∃ data, read_data_file tz contents = Ok data) →
  ∃ out, read_files tz output files = Ok out ∧ merged out ∧
    ∀ k, k ∈ od_keys out ↔
         k ∈ od_keys output ∨ ∃ data, read_by tz files data ∧ k ∈ od_keys data.
Proof.
  revert output. induction files as [|[file contents] files IH];
    intros output Hm Hread.
  - exists output. split; [done|]. split; [done|].
    intros k. split; [by left|]. intros [H|(d & (f & c & H & _) & _)]; [done|].
    by apply elem_of_nil in H.
  - cbn [read_files].
    assert (Hrest : ∀ file contents, (file, contents) ∈ files →
       contains "driftadj" file = false →
       ∃ data, read_data_file tz contents = Ok data).
    { intros f c Hin. apply Hread. apply elem_of_cons; by right. }
    destruct (contains "driftadj" file) eqn:Edrift.
    + destruct (IH output Hm Hrest) as (out & E & Hmo & Hk).
      exists out. split; [done|]. split; [done|].
      intros k. rewrite Hk. split; (intros [H|(d & (f & c & Hin & Hd & Hr) & Hkd)];
        [by left|right; exists d; split; [|done]; exists f, c; split; [|done]]).
      * apply elem_of_cons; by right.
      * apply elem_of_cons in Hin as [[= -> ->]|Hin]; [congruence | done].
    + destruct (Hread file contents) as [data Edata];
        [apply elem_of_cons; by left | done |].
      rewrite Edata. cbn [mbind result_bind].
      destruct (IH (merge_file output data)) as (out & E & Hmo & Hk);
        [by apply merge_file_merged | done |].
      exists out. split; [done|]. split; [done|].
      intros k. rewrite Hk, merge_file_keys_elem. split.
      * intros [[H|H]|(d & (f & c & Hin & Hd & Hr) & Hkd)].
        -- right. exists data. split; [|done]. exists file, contents.
           split; [apply elem_of_cons; by left | done].
        -- by left.
        -- right. exists d. split; [|done]. exists f, c.
           split; [apply elem_of_cons; by right | done].
      * intros [H|(d & (f & c & Hin & Hd & Hr) & Hkd)]; [by left; right|].
        apply elem_of_cons in Hin as [[= -> ->]|Hin].
        -- left; left. rewrite Edata in Hr. by injection Hr as ->.
        -- right. exists d. split; [|done]. by exists f, c.
Qed.

(** C9. When no file that is read raises, the script writes a table whose
    rows are keyed by the adjusted-UTC keys of the files read: the keys
    of the rows are strictly ascending, so each key has one row, and
    they are exactly the keys that occur in some file. *)
Theorem rows_unique_and_ascending
    (files : list (string * option (list string))) :
  reads_cleanly tz files →
  ∃ rows keys, main tz files = Ok rows ∧
    row_key <$> rows = Some <$> keys ∧
    StronglySorted str_lt keys ∧ NoDup keys ∧
    ∀ k, k ∈ keys ↔ ∃ data, read_by tz files data ∧ k ∈ od_keys data.
Proof.
  intros Hread.
  destruct (read_files_ok files [] merged_nil Hread) as (output & E & Hm & Hk).
  destruct (interpolate_frame output Hm) as (out & Ei & Hs & Hko & _ & Hc).
  assert (Hnd : NoDup (od_keys out)).
  { clear -Hs. induction Hs as [|x l Hs IH Hall]; [apply NoDup_nil_2|].
    apply NoDup_cons. split; [|done].
    intros Hx. eapply Forall_forall in Hall; [|done]. by destruct Hall. }
  destruct (emit_rows_ok out) as (rows & Er & Hrk).
  { apply Forall_forall. intros [k r] Hel. simpl. apply (Hc k).
    by apply od_elem_get. }
  exists rows, (od_keys out). unfold main. rewrite E. cbn [mbind result_bind].
  rewrite Ei. cbn [mbind result_bind].
  split; [done|]. split; [done|]. split; [done|]. split; [done|].
  intros k. rewrite Hko, Hk. split; [|by right].
  intros [H|H]; [by apply elem_of_nil in H | done].
Qed.
End ScriptFacts.

(** ** The calendar: [ord2ymd] inverts [ymd2ord] *)

Lemma forallb_seqZ (f : Z → bool) m n x :
  forallb f (seqZ m n) = true → m ≤ x < m + n → f x = true.
Proof.
  intros H Hx. rewrite forallb_forall in H. apply H.
  apply list_elem_of_In, elem_of_seqZ. lia.
Qed.

Lemma forall3b_spec f a b c y m d :
  forall3b f a b c = true →
  1 ≤ y ≤ a → 1 ≤ m ≤ b → 1 ≤ d ≤ c → f y m d = true.
Proof.
  unfold forall3b. intros H Hy Hm Hd.
  apply (forallb_seqZ _ _ _ y) in H; [|lia].
  apply (forallb_seqZ _ _ _ m) in H; [|lia].
  apply (forallb_seqZ _ _ _ d) in H; [|lia]. done.
Qed.

Lemma check_cycle_true : forall3b check_day 400 12 31 = true.
Proof. vm_compute. reflexivity. Qed.

Ltac month_cases m :=
  let H := fresh "Hcase" in
  assert (H : m = 1 ∨ m = 2 ∨ m = 3 ∨ m = 4 ∨ m = 5 ∨ m = 6 ∨ m = 7 ∨ m = 8 ∨
              m = 9 ∨ m = 10 ∨ m = 11 ∨ m = 12) by lia;
  destruct H as [H|[H|[H|[H|[H|[H|[H|[H|[H|[H|[H|H]]]]]]]]]]]; subst m.

Lemma days_in_month_bound y m : 1 ≤ m ≤ 12 → 28 ≤ days_in_month y m ≤ 31.
Proof.
  intros Hm. unfold days_in_month. destruct ((m =? 2) && is_leap y); [lia|].
  month_cases m; simpl; lia.
Qed.

Lemma cycle_day y m d :
  1 ≤ y ≤ 400 → 1 ≤ m ≤ 12 → 1 ≤ d ≤ days_in_month y m →
  let n := days_before_year y + days_before_month y m + d - 1 in
  0 ≤ n < DI400Y ∧ ord2ymd_cycle n = (y - 1, m, d).
Proof.
  intros Hy Hm Hd n.
  pose proof (days_in_month_bound y m Hm) as Hd31.
  pose proof (forall3b_spec check_day 400 12 31 y m d check_cycle_true) as H.
  specialize (H ltac:(lia) ltac:(lia) ltac:(lia)).
  unfold check_day in H. fold n in H.
  destruct (ord2ymd_cycle n) as [[y' m'] d'].
  apply orb_true_iff in H as [H|H].
  - apply negb_true_iff, Z.leb_gt in H. lia.
  - repeat (apply andb_true_iff in H as [H ?]).
    split; [lia|]. f_equal; [f_equal|]; lia.
Qed.

Lemma days_before_year_period q y :
  days_before_year (400 * q + y) = DI400Y * q + days_before_year y.
Proof. unfold days_before_year, DI400Y. Z.div_mod_to_equations. lia. Qed.

Lemma is_leap_period q y : is_leap (400 * q + y) = is_leap y.
Proof.
  unfold is_leap.
  replace ((400 * q + y) mod 4) with (y mod 4)
    by (Z.div_mod_to_equations; lia).
  replace ((400 * q + y) mod 100) with (y mod 100)
    by (Z.div_mod_to_equations; lia).
  replace ((400 * q + y) mod 400) with (y mod 400)
    by (Z.div_mod_to_equations; lia).
  done.
Qed.

Lemma ord2ymd_ymd2ord y m d :
  1 ≤ m ≤ 12 → 1 ≤ d ≤ days_in_month y m →
  ord2ymd (ymd2ord y m d) = (y, m, d).
Proof.
  intros Hm Hd.
  set (q := (y - 1) / 400). set (y0 := (y - 1) mod 400 + 1).
  assert (Hy : y = 400 * q + y0)
    by (unfold q, y0; Z.div_mod_to_equations; lia).
  assert (Hy0 : 1 ≤ y0 ≤ 400) by (unfold y0; Z.div_mod_to_equations; lia).
  assert (Hdim : days_in_month y m = days_in_month y0 m).
  { unfold days_in_month. by rewrite Hy, is_leap_period. }
  assert (Hdbm : days_before_month y m = days_before_month y0 m).
  { unfold days_before_month. by rewrite Hy, is_leap_period. }
  rewrite Hdim in Hd.
  destruct (cycle_day y0 m d Hy0 Hm Hd) as [Hn Hc].
  unfold ord2ymd, ymd2ord. rewrite Hdbm.
  replace (days_before_year y) with (DI400Y * q + days_before_year y0)
    by (by rewrite Hy, days_before_year_period).
  set (n := days_before_year y0 + days_before_month y0 m + d - 1) in *.
  replace (DI400Y * q + days_before_year y0 + days_before_month y0 m + d - 1)
    with (DI400Y * q + n) by (unfold n; lia).
  replace ((DI400Y * q + n) mod DI400Y) with n
    by (unfold DI400Y in *; Z.div_mod_to_equations; lia).
  replace ((DI400Y * q + n) / DI400Y) with q
    by (unfold DI400Y in *; Z.div_mod_to_equations; lia).
  rewrite Hc. repeat f_equal. lia.
Qed.

Lemma valid_datetime_spec dt :
  valid_datetime dt = true →
  1 ≤ year dt ≤ 9999 ∧ 1 ≤ month dt ≤ 12 ∧
  1 ≤ day dt ≤ days_in_month (year dt) (month dt) ∧
  0 ≤ hour dt ≤ 23 ∧ 0 ≤ minute dt ≤ 59 ∧ 0 ≤ second dt ≤ 59.
Proof.
  unfold valid_datetime. intros H.
  repeat (apply andb_true_iff in H as [H ?]). lia.
Qed.

Lemma strptime_valid s dt : strptime s = Some dt → valid_datetime dt = true.
Proof.
  unfold strptime. destruct (strptime_match s) as [[dt' [|c r]]|]; [|done..].
  destruct (valid_datetime dt') eqn:E; [|done]. by intros [= <-].
Qed.

(** The date and time a number of seconds after the epoch, counted on the
    clock of that date and time, is that date and time. *)
Lemma civil_civil_seconds dt :
  valid_datetime dt = true → civil (civil_seconds dt) = dt.
Proof.
  intros Hv. apply valid_datetime_spec in Hv as (Hy & Hm & Hd & HH & HM & HS).
  destruct dt as [y m d H M S].
  cbn [year month day hour minute second] in *.
  unfold civil, civil_seconds. cbn [year month day hour minute second].
  set (D := ymd2ord y m d - EPOCH_ORD).
  replace (D * 86400 + H * 3600 + M * 60 + S)
    with (D * 86400 + (H * 3600 + M * 60 + S)) by lia.
  set (sod := H * 3600 + M * 60 + S).
  assert (Hsod : 0 ≤ sod < 86400) by (unfold sod; lia).
  replace ((D * 86400 + sod) / 86400) with D
    by (Z.div_mod_to_equations; lia).
  replace ((D * 86400 + sod) mod 86400) with sod
    by (Z.div_mod_to_equations; lia).
  replace (D + EPOCH_ORD) with (ymd2ord y m d) by (unfold D; lia).
  rewrite ord2ymd_ymd2ord by done.
  f_equal; unfold sod; Z.div_mod_to_equations; lia.
Qed.

(** ** [strptime] accepts only strings of the timestamp shape *)

Section RegexFacts.
Context {A : Type}.
Implicit Types (k : Z → string → option A) (x : A).

Lemma re_digit_inv lo hi k s x :
  re_digit lo hi k s = Some x →
  ∃ c r v, s = String c r ∧ is_digit c = true ∧ k v r = Some x.
Proof.
  destruct s as [|c r]; simpl; [done|].
  destruct (digit_val c) as [v|] eqn:Ed; [|done].
  destruct ((lo <=? v) && (v <=? hi)); [|done]. intros Hk.
  exists c, r, v. split; [done|]. split; [|done].
  unfold is_digit. by rewrite Ed.
Qed.

Lemma re_char_inv c (k' : string → option A) s x :
  re_char c k' s = Some x → ∃ r, s = String c r ∧ k' r = Some x.
Proof.
  destruct s as [|c' r]; simpl; [done|].
  destruct (Ascii.eqb_spec c' c) as [->|]; [eauto|done].
Qed.

Lemma re_alt_inv (p q : string → option A) s x :
  re_alt p q s = Some x → p s = Some x ∨ q s = Some x.
Proof. unfold re_alt. destruct (p s); [intros [= ->]; by left | by right]. Qed.

Lemma re_2digits_inv lo1 hi1 lo2 hi2 k s x :
  re_2digits lo1 hi1 lo2 hi2 k s = Some x →
  ∃ c1 c2 r v, s = String c1 (String c2 r) ∧
    is_digit c1 = true ∧ is_digit c2 = true ∧ k v r = Some x.
Proof.
  unfold re_2digits. intros H.
  apply re_digit_inv in H as (c1 & r1 & v1 & -> & H1 & H).
  apply re_digit_inv in H as (c2 & r2 & v2 & -> & H2 & H).
  eauto 10.
Qed.

Lemma re_spaces_inv (k' : string → option A) s x :
  re_spaces k' s = Some x →
  ∃ ws r, s = ws +:+ r ∧ ws ≠ "" ∧ all_chars is_space ws = true ∧
          k' r = Some x.
Proof.
  revert x. induction s as [|c s IH]; intros x; simpl; [done|].
  destruct (is_space c) eqn:Ec; [|done].
  destruct (re_spaces k' s) as [y|] eqn:E.
  - intros [= <-]. destruct (IH y eq_refl) as (ws & r & -> & _ & Hws & Hk).
    exists (String c ws), r. split; [done|]. split; [done|].
    split; [|done]. simpl. by rewrite Ec.
  - intros Hk. exists (String c ""), s. split; [done|]. split; [done|].
    split; [|done]. simpl. by rewrite Ec.
Qed.

Lemma field_2digits lo1 hi1 lo2 hi2 : field_1_2 (A:=A) (re_2digits lo1 hi1 lo2 hi2).
Proof.
  intros k s x H.
  apply re_2digits_inv in H as (c1 & c2 & r & v & -> & H1 & H2 & H).
  exists (String c1 (String c2 "")), r, v. split; [done|]. split; [|done].
  split; [by right|]. simpl. by rewrite H1, H2.
Qed.

Lemma field_digit lo hi : field_1_2 (A:=A) (re_digit lo hi).
Proof.
  intros k s x H. apply re_digit_inv in H as (c & r & v & -> & H1 & H).
  exists (String c ""), r, v. split; [done|]. split; [|done].
  split; [by left|]. simpl. by rewrite H1.
Qed.

Lemma field_alt p q :
  field_1_2 p → field_1_2 q → field_1_2 (fun k => re_alt (p k) (q k)).
Proof. intros Hp Hq k s x [H|H]%re_alt_inv; [by apply Hp | by apply Hq]. Qed.

Lemma field_m : field_1_2 (A:=A) re_m.
Proof.
  unfold re_m. repeat apply field_alt;
    first [apply field_2digits | apply field_digit].
Qed.

Lemma field_H : field_1_2 (A:=A) re_H.
Proof.
  unfold re_H. repeat apply field_alt;
    first [apply field_2digits | apply field_digit].
Qed.

Lemma field_M : field_1_2 (A:=A) re_M.
Proof.
  unfold re_M. repeat apply field_alt;
    first [apply field_2digits | apply field_digit].
Qed.

Lemma field_S : field_1_2 (A:=A) re_S.
Proof.
  unfold re_S. repeat apply field_alt;
    first [apply field_2digits | apply field_digit].
Qed.

Lemma re_d_inv k s x :
  re_d k s = Some x → ∃ f r v, s = f +:+ r ∧ day_field f ∧ k v r = Some x.
Proof.
  unfold re_d. intros H.
  repeat (apply re_alt_inv in H as [H|H]).
  - apply field_2digits in H as (f & r & v & ? & ? & ?).
    exists f, r, v. split; [done|]. split; [by left|done].
  - apply field_2digits in H as (f & r & v & ? & ? & ?).
    exists f, r, v. split; [done|]. split; [by left|done].
  - apply field_2digits in H as (f & r & v & ? & ? & ?).
    exists f, r, v. split; [done|]. split; [by left|done].
  - apply field_digit in H as (f & r & v & ? & ? & ?).
    exists f, r, v. split; [done|]. split; [by left|done].
  - apply re_char_inv in H as (r1 & -> & H).
    apply re_digit_inv in H as (c & r & v & -> & H1 & H).
    exists (String " " (String c "")), r, v. split; [done|].
    split; [right; eauto|done].
Qed.

Lemma re_Y_inv k s x :
  re_Y k s = Some x →
  ∃ f r v, s = f +:+ r ∧
    (String.length f = 4%nat ∧ all_chars is_digit f = true) ∧
    k v r = Some x.
Proof.
  unfold re_Y. intros H.
  apply re_digit_inv in H as (c1 & r1 & v1 & -> & H1 & H).
  apply re_digit_inv in H as (c2 & r2 & v2 & -> & H2 & H).
  apply re_digit_inv in H as (c3 & r3 & v3 & -> & H3 & H).
  apply re_digit_inv in H as (c4 & r4 & v4 & -> & H4 & H).
  exists (String c1 (String c2 (String c3 (String c4 "")))), r4.
  eexists. split; [done|]. split; [|exact H].
  split; [done|]. simpl. by rewrite H1, H2, H3, H4.
Qed.
End RegexFacts.

Lemma append_nil_r (s : string) : s +:+ "" = s.
Proof.
  induction s as [|c s IH]; [done|].
  change (String c (s +:+ "") = String c s). by rewrite IH.
Qed.

Lemma append_assoc (a b c : string) : (a +:+ b) +:+ c = a +:+ b +:+ c.
Proof.
  induction a as [|x a IH]; [done|].
  change (String x ((a +:+ b) +:+ c) = String x (a +:+ b +:+ c)).
  by rewrite IH.
Qed.

Lemma strptime_shape s dt : strptime s = Some dt → timestamp_shape s.
Proof.
  unfold strptime. destruct (strptime_match s) as [[dt' [|c r]]|] eqn:E;
    [|done..]. intros _. unfold strptime_match in E.
  apply re_d_inv in E as (d & r1 & vd & -> & Hd & E).
  apply re_char_inv in E as (r2 & -> & E).
  apply field_m in E as (m & r3 & vm & -> & Hm & E).
  apply re_char_inv in E as (r4 & -> & E).
  apply re_Y_inv in E as (y & r5 & vy & -> & Hy & E).
  apply re_spaces_inv in E as (ws & r6 & -> & Hw1 & Hw2 & E).
  apply field_H in E as (H & r7 & vH & -> & HH & E).
  apply re_char_inv in E as (r8 & -> & E).
  apply field_M in E as (M & r9 & vM & -> & HM & E).
  apply re_char_inv in E as (r10 & -> & E).
  apply field_S in E as (S & r11 & vS & -> & HS & E).
  injection E as _ ->.
  exists d, m, y, ws, H, M, S. rewrite append_nil_r. done.
Qed.

(** ** The file parser *)

Section ParserFacts.
Variable tz : zone.

Lemma process_lines_app st pre post :
  process_lines tz st (pre ++ post) =
  process_lines tz st pre ≫= fun st' => process_lines tz st' post.
Proof.
  revert st. induction pre as [|l pre IH]; intros st; [done|].
  cbn [app process_lines].
  destruct (process_line tz st l) as [st'|e]; [|done].
  cbn [mbind result_bind]. apply IH.
Qed.

(** The lines before the one that raises are read as the loop reads
    them. *)
Lemma read_lines_app st pre post st' :
  process_lines tz st pre = Ok st' →
  read_lines tz st (pre ++ post) = read_lines tz st' post.
Proof.
  revert st. induction pre as [|l pre IH]; intros st Hpre.
  - by injection Hpre as <-.
  - cbn [app process_lines read_lines] in *.
    destruct (process_line tz st l) as [st1|e]; [|done].
    cbn [mbind result_bind] in Hpre. by apply IH.
Qed.

(** What [read_data_file] returns is the data of a state that the loop
    reaches on the first lines of the file: on all of them, or on those
    before the line whose [OSError] is caught. *)
Lemma read_lines_Ok st lines d :
  read_lines tz st lines = Ok d →
  ∃ pre post st', lines = pre ++ post ∧
    process_lines tz st pre = Ok st' ∧ d = data st'.
Proof.
  revert st. induction lines as [|l lines IH]; intros st Hr.
  - injection Hr as <-. by exists [], [], st.
  - cbn [read_lines] in Hr.
    destruct (process_line tz st l) as [st1|e] eqn:El.
    + destruct (IH st1 Hr) as (pre & post & st' & -> & Hp & ->).
      exists (l :: pre), post, st'. split; [done|].
      cbn [process_lines]. by rewrite El.
    + destruct e; try done. injection Hr as <-. by exists [], (l :: lines), st.
Qed.

(** An exception on a line, other than the [OSError] that is caught, is
    the outcome of [read_data_file]. *)
Lemma read_data_file_raises st pre raw post e :
  e ≠ OSError →
  process_lines tz initial_state pre = Ok st →
  process_line tz st raw = Raise e →
  read_data_file tz (Some (pre ++ raw :: post)) = Raise e.
Proof.
  intros He Hpre Hraw. unfold read_data_file.
  rewrite (read_lines_app _ _ _ _ Hpre). cbn [read_lines].
  rewrite Hraw. by destruct e.
Qed.

Lemma read_files_raises output before file contents after e :
  reads_cleanly tz before →
  contains "driftadj" file = false →
  read_data_file tz contents = Raise e →
  read_files tz output (before ++ (file, contents) :: after) = Raise e.
Proof.
  revert output. induction before as [|[f c] before IH]; intros output Hc Hd Hr.
  - cbn [app read_files]. by rewrite Hd, Hr.
  - cbn [app read_files].
    assert (Hc' : reads_cleanly tz before).
    { intros f' c' Hin. apply Hc. apply elem_of_cons; by right. }
    destruct (contains "driftadj" f) eqn:Ef; [by apply IH|].
    destruct (Hc f c) as [data Edata]; [apply elem_of_cons; by left|done|].
    rewrite Edata. cbn [mbind result_bind]. by apply IH.
Qed.

(** ... and of the whole run. *)
Lemma main_raises before file contents after e :
  reads_cleanly tz before →
  contains "driftadj" file = false →
  read_data_file tz contents = Raise e →
  main tz (before ++ (file, contents) :: after) = Raise e.
Proof.
  intros Hc Hd Hr. unfold main.
  by rewrite (read_files_raises [] before file contents after e).
Qed.

Lemma not_shape_strptime s : ¬ timestamp_shape s → strptime s = None.
Proof.
  intros Hn. destruct (strptime s) as [dt|] eqn:E; [|done].
  exfalso. apply Hn. by eapply strptime_shape.
Qed.

(** C7. [parse_time] is a total function to the integers. On a string
    that has not the shape of a timestamp, or that [strptime] rejects for
    another reason, it returns 0; and a line of the data section whose
    first column parses to a timestamp of 0 or less leaves the state of
    the parser as it was. *)
Theorem parse_time_sentinel (s : string) (st : parser_state)
    (raw row0 : string) (rest : list string) :
  ¬ timestamp_shape s ∨ strptime s = None →
  in_data st = true →
  split tab (strip raw) = row0 :: rest →
  parse_time tz row0 ≤ 0 →
  parse_time tz s = 0 ∧ process_line tz st raw = Ok st.
Proof.
  intros Hs Hin Hrow Ht. split.
  - unfold parse_time.
    destruct Hs as [Hs|Hs]; [apply not_shape_strptime in Hs|]; by rewrite Hs.
  - unfold process_line. rewrite Hin. unfold data_line. rewrite Hrow.
    cbn [getindex lookup list_lookup mbind result_bind].
    case_decide; [done|].
    destruct (parse_time tz row0 <? 1) eqn:E; [done|lia].
Qed.

(** C6. A line of the header section that the column-header pattern
    matches with the label [label]: a label outside the vocabulary
    raises [KeyError], which [read_data_file] and the run pass on; a
    label of the vocabulary sets the field, [duration] standing for
    [wetdry], and starts the data section. *)
Theorem column_header_label (st : parser_state) (raw label : string) :
  in_data st = false →
  match_column_header (strip raw) = Some label →
  (label ∉ od_keys fields →
     process_line tz st raw = Raise (KeyError label) ∧
     ∀ pre post, process_lines tz initial_state pre = Ok st →
       read_data_file tz (Some (pre ++ raw :: post))
         = Raise (KeyError label) ∧
       ∀ before file after,
         reads_cleanly tz before →
         contains "driftadj" file = false →
         main tz
           (before ++ (file, Some (pre ++ raw :: post)) :: after)
           = Raise (KeyError label)) ∧
  (∀ f, od_get fields label = Some f →
     ∃ st', process_line tz st raw = Ok st' ∧
       st' = set_field st (if decide (f = "duration") then "wetdry" else f) ∧
       in_data st' = true ∧
       field st' = Some (if decide (f = "duration") then "wetdry" else f)).
Proof.
  intros Hin Hm. split.
  - intros Hl.
    assert (Hp : process_line tz st raw = Raise (KeyError label)).
    { unfold process_line. rewrite Hin. unfold header_line. rewrite Hm.
      unfold fields_lookup. apply od_get_None in Hl. by rewrite Hl. }
    split; [done|]. intros pre post Hpre.
    assert (Hr : read_data_file tz (Some (pre ++ raw :: post))
                 = Raise (KeyError label))
      by (by eapply read_data_file_raises).
    split; [done|]. intros before file after Hc Hd. by apply main_raises.
  - intros f Hf. eexists. split.
    + unfold process_line. rewrite Hin. unfold header_line. rewrite Hm.
      unfold fields_lookup. rewrite Hf. reflexivity.
    + done.
Qed.
End ParserFacts.

(** ** Drift: the rate and the adjusted time *)

Lemma strip_prefix_Some p s r : strip_prefix p s = Some r → s = p +:+ r.
Proof.
  revert s. induction p as [|a p IH]; intros s; simpl.
  - by intros [= ->].
  - destruct s as [|b s]; [done|].
    destruct (Ascii.eqb_spec a b) as [->|]; [|done].
    intros H. apply IH in H. by subst.
Qed.

(** A line that the drift pattern matches is matched by none of the three
    patterns tried before it. *)
Lemma match_drift_only line g :
  match_drift line = Some g →
  match_column_header line = None ∧ match_programmed line = None ∧
  match_end line = None.
Proof.
  unfold match_drift. destruct (strip_prefix _ line) as [rest|] eqn:E; [|done].
  intros _. apply strip_prefix_Some in E as ->. done.
Qed.

Section DriftFacts.
Variable tz : zone.

Lemma drift_line st raw g d :
  in_data st = false → match_drift (strip raw) = Some g → py_int g = Ok d →
  process_line tz st raw =
  py_truediv d (end_ st - start st) ≫= fun r => Ok (set_drift st d r).
Proof.
  intros Hin Hm Hd. unfold process_line. rewrite Hin. unfold header_line.
  destruct (match_drift_only _ _ Hm) as (-> & -> & ->).
  by rewrite Hm, Hd.
Qed.

(** C5. A line of the header section that the drift pattern matches with
    an integer [d]: when the end of the drift window equals its start the
    division raises [ZeroDivisionError], which [read_data_file] does not
    catch and which ends the run; when they differ there is no
    [ZeroDivisionError], and the rate kept is the float quotient of [d]
    by [end - start]. *)
Theorem drift_rate_division (st : parser_state) (raw g : string) (d : Z) :
  in_data st = false →
  match_drift (strip raw) = Some g →
  py_int g = Ok d →
  (end_ st = start st →
     process_line tz st raw = Raise ZeroDivisionError ∧
     ∀ pre post, process_lines tz initial_state pre = Ok st →
       read_data_file tz (Some (pre ++ raw :: post))
         = Raise ZeroDivisionError ∧
       ∀ before file after,
         reads_cleanly tz before →
         contains "driftadj" file = false →
         main tz
           (before ++ (file, Some (pre ++ raw :: post)) :: after)
           = Raise ZeroDivisionError) ∧
  (end_ st ≠ start st →
     let q := SFdiv prec emax (raw_int d) (raw_int (end_ st - start st)) in
     process_line tz st raw =
       match q with
       | S754_infinity _ => Raise OverflowError
       | _ => Ok (set_drift st d (PFloat q))
       end ∧
     process_line tz st raw ≠ Raise ZeroDivisionError ∧
     ∀ st', process_line tz st raw = Ok st' →
       dps st' = PFloat q ∧ drift st' = d).
Proof.
  intros Hin Hm Hd. rewrite (drift_line st raw g d Hin Hm Hd). split.
  - intros He.
    assert (Hp : py_truediv d (end_ st - start st)
                   ≫= (fun r => Ok (set_drift st d r))
                 = Raise ZeroDivisionError).
    { unfold py_truediv. by rewrite He, Z.sub_diag. }
    split; [done|]. intros pre post Hpre.
    assert (Hr : read_data_file tz (Some (pre ++ raw :: post))
                 = Raise ZeroDivisionError).
    { eapply read_data_file_raises; [done|done|].
      by rewrite (drift_line st raw g d Hin Hm Hd). }
    split; [done|]. intros before file after Hc Hf. by apply main_raises.
  - intros He q. unfold py_truediv.
    destruct (end_ st - start st =? 0) eqn:E; [lia|]. fold q.
    destruct q as [s|s| |s m e] eqn:Eq; cbn [mbind result_bind];
      (split; [done|]); (split; [done|]); intros st' [= <-]; done.
Qed.

(** C2, as the code has it. For a line of the data section whose first
    column parses to a timestamp [time] of 1 or more: the reading is
    stored under the key that formats [time + dps * (time - start)],
    the product and the sum being those of Python's numbers with nothing
    rounded to whole seconds; with the initial integer [dps] of 0 this
    is [time] itself, and for a float the key shows the whole seconds
    that [fromtimestamp] takes from it. *)
Theorem adjusted_time_unrounded (st st' : parser_state)
    (raw row0 : string) (rest : list string) :
  in_data st = true →
  split tab (strip raw) = row0 :: rest →
  row0 ≠ "" →
  1 ≤ parse_time tz row0 →
  process_line tz st raw = Ok st' →
  let time := parse_time tz row0 in
  ∃ skew adjtime atime,
    py_mul (dps st) (PInt (time - start st)) = Ok skew ∧
    py_add (PInt time) skew = Ok adjtime ∧
    time_to_string tz adjtime = Ok atime ∧
    is_Some (od_get (data st') atime) ∧
    (∀ k, k ∈ od_keys (data st') ↔ k = atime ∨ k ∈ od_keys (data st)) ∧
    (dps st = PInt 0 → adjtime = PInt time) ∧
    (∀ f, adjtime = PFloat f →
       ∃ sec, timestamp_seconds f = Ok sec ∧
              format_seconds tz sec = Ok atime).
Proof.
  intros Hin Hrow Hne Ht Hp time.
  unfold process_line in Hp. rewrite Hin in Hp. unfold data_line in Hp.
  rewrite Hrow in Hp.
  cbn [getindex lookup list_lookup mbind result_bind] in Hp.
  rewrite decide_False in Hp by done. fold time in Hp.
  destruct (time <? 1) eqn:E; [lia|].
  destruct (py_mul (dps st) (PInt (time - start st))) as [skew|] eqn:Es;
    [|done]. cbn [mbind result_bind] in Hp.
  destruct (py_add (PInt time) skew) as [adjtime|] eqn:Ea; [|done].
  cbn [mbind result_bind] in Hp.
  destruct (py_sub adjtime _) as [loctime|] eqn:El; [|done].
  cbn [mbind result_bind] in Hp.
  destruct (time_to_string tz adjtime) as [atime|] eqn:Ek; [|done].
  cbn [mbind result_bind] in Hp.
  destruct (time_to_string tz (PInt time)) as [ts|] eqn:Ets; [|done].
  cbn [mbind result_bind] in Hp.
  destruct (time_to_string tz loctime) as [ls|] eqn:Els; [|done].
  cbn [mbind result_bind] in Hp.
  set (data1 := if od_mem atime (data st) then data st
                else od_set (data st) atime ∅) in Hp.
  assert (Hk1 : ∀ k, k ∈ od_keys data1 ↔ k = atime ∨ k ∈ od_keys (data st)).
  { intros k. unfold data1. destruct (od_mem atime (data st)) eqn:Em.
    - apply od_mem_true in Em. split; [by right | by intros [->|]].
    - apply od_keys_set_elem. }
  exists skew, adjtime, atime.
  assert (Hkeys : ∀ k, k ∈ od_keys (data st') ↔ k = atime ∨ k ∈ od_keys (data st)).
  { intros k. rewrite <- Hk1. clear -Hp.
    repeat case_decide;
      repeat (match type of Hp with
              | context [getindex ?r ?i] =>
                  destruct (getindex r i); cbn [mbind result_bind] in Hp;
                  [|discriminate]
              end);
      try (destruct (field st)); injection Hp as <-; cbn [data set_data];
      by rewrite !od_keys_alter. }
  split; [done|]. split; [done|]. split; [done|]. split.
  { apply od_get_is_Some, Hkeys. by left. }
  split; [done|]. split.
  - intros Hd. rewrite Hd in Es. injection Es as <-.
    injection Ea as <-. f_equal. lia.
  - intros f ->. unfold time_to_string in Ek.
    destruct (timestamp_seconds f) as [sec|]; [|done]. eauto.
Qed.
End DriftFacts.

(** ** The claims at concrete inputs *)

Lemma merge_overwrites_or_nulls_witness :
  ∃ r', od_get (merge_file (foldl merge_file [] [temp_data]) light_data)
          "2022-01-01 00:00:01" = Some r' ∧
    r' !! "temp" = Some (Some "20.1") ∧ r' !! "light" = Some (Some "350").
Proof.
  destruct (merge_overwrites_or_nulls [temp_data] light_data
              "2022-01-01 00:00:01" "light"
              {[ "time" := "2022-01-01 00:00:01";
                 "localtime" := "2021-12-31 20:00:01"; "light" := "350" ]})
    as (_ & r' & Hr' & _ & _ & _ & Hboth).
  - apply NoDup_singleton.
  - vm_compute. reflexivity.
  - apply (bool_decide_unpack _). vm_compute. exact I.
  - exists r'. split; [exact Hr'|].
    apply (Hboth "20.1" "350"); vm_compute; reflexivity.
Defined.

Lemma parse_time_sentinel_witness :
  parse_time UTC "" = 0 ∧
  process_line UTC temp_state ("not-a-date" +:+ String tab "20.5") = Ok temp_state.
Proof.
  apply (parse_time_sentinel UTC "" temp_state
           ("not-a-date" +:+ String tab "20.5") "not-a-date" ["20.5"]).
  - right. vm_compute. reflexivity.
  - reflexivity.
  - vm_compute. reflexivity.
  - vm_compute. discriminate.
Defined.

Lemma column_header_label_witness :
  read_data_file UTC (Some unknown_label_file) = Raise (KeyError "pressure") ∧
  ∃ st', process_line UTC initial_state wetdry_header = Ok st' ∧
    in_data st' = true ∧ field st' = Some "wetdry".
Proof.
  split.
  - destruct (column_header_label UTC initial_state
                ("DD/MM/YYYY HH:MM:SS" +:+ String tab "pressure" +:+ String tab "x")
                "pressure") as [Hout _].
    + reflexivity.
    + vm_compute. reflexivity.
    + destruct Hout as [_ Hfile].
      * apply od_get_None. vm_compute. reflexivity.
      * destruct (Hfile ["Intigeo logger"] [drift_row]) as [Hr _].
        -- vm_compute. reflexivity.
        -- exact Hr.
  - destruct (column_header_label UTC initial_state wetdry_header "duration")
      as [_ Hin].
    + reflexivity.
    + vm_compute. reflexivity.
    + destruct (Hin "duration") as (st' & Hp & _ & Hd & Hf).
      * vm_compute. reflexivity.
      * exists st'. split; [exact Hp|]. split; [exact Hd|exact Hf].
Defined.

Lemma drift_rate_division_witness :
  read_data_file UTC (Some zero_window_file) = Raise ZeroDivisionError ∧
  main UTC [("logs/a.deg", Some zero_window_file)] = Raise ZeroDivisionError ∧
  ∃ st', process_line UTC window_state "Drift (secs): 3." = Ok st' ∧
    dps st' = PFloat (S754_finite false 6755399441055744 (-53)).
Proof.
  assert (Hz : read_data_file UTC (Some zero_window_file) = Raise ZeroDivisionError
               ∧ main UTC [("logs/a.deg", Some zero_window_file)]
                 = Raise ZeroDivisionError).
  { destruct (drift_rate_division UTC initial_state "Drift (secs): 3." "3" 3)
      as [Hzero _].
    - reflexivity.
    - vm_compute. reflexivity.
    - vm_compute. reflexivity.
    - destruct Hzero as [_ Hfile]; [reflexivity|].
      destruct (Hfile ["Intigeo logger"]
                  ["DD/MM/YYYY HH:MM:SS" +:+ String tab "T('C)"])
        as [Hr Hmain]; [vm_compute; reflexivity|].
      split; [exact Hr|].
      apply (Hmain [] "logs/a.deg" []).
      + intros f c Hin. by apply elem_of_nil in Hin.
      + vm_compute. reflexivity. }
  destruct Hz as [Hz1 Hz2]. split; [exact Hz1|]. split; [exact Hz2|].
  destruct (drift_rate_division UTC window_state "Drift (secs): 3." "3" 3)
    as [_ Hne].
  - vm_compute. reflexivity.
  - vm_compute. reflexivity.
  - vm_compute. reflexivity.
  - destruct Hne as (Hp & _ & Hd).
    + vm_compute. discriminate.
    + eexists. split; [exact Hp|]. vm_compute. reflexivity.
Defined.

Lemma adjusted_time_unrounded_witness :
  ∃ skew adjtime atime,
    py_mul (dps drift_state)
      (PInt (parse_time UTC "01/01/2022 00:00:01" - start drift_state)) = Ok skew ∧
    py_add (PInt (parse_time UTC "01/01/2022 00:00:01")) skew = Ok adjtime ∧
    time_to_string UTC adjtime = Ok atime ∧
    is_Some (od_get (data drift_state') atime) ∧
    od_get (data drift_state') "2022-01-01 00:00:01" ≠ None.
Proof.
  destruct (adjusted_time_unrounded UTC drift_state drift_state' drift_row
              "01/01/2022 00:00:01" ["20.5"])
    as (skew & adjtime & atime & Hs & Ha & Hk & Hd & _).
  - vm_compute. reflexivity.
  - vm_compute. reflexivity.
  - discriminate.
  - vm_compute. discriminate.
  - vm_compute. reflexivity.
  - exists skew, adjtime, atime.
    split; [exact Hs|]. split; [exact Ha|]. split; [exact Hk|].
    split; [exact Hd|]. vm_compute. discriminate.
Defined.

(** C2, as the specification words it, fails: with a drift of 3 seconds
    over a window of 4 and a row one second after the start, the
    correction is 0.75 s; the row is stored under 00:00:01, and nothing is
    stored under 00:00:02, the key of the rounded correction. *)
Lemma adjusted_time_rounding_fails :
  ¬ (∀ tz (st st' : parser_state) (raw row0 : string)
       (rest : list string),
       in_data st = true →
       split tab (strip raw) = row0 :: rest →
       row0 ≠ "" →
       1 ≤ parse_time tz row0 →
       process_line tz st raw = Ok st' →
       ∃ adjusted atime,
         adjusted_time_spec (parse_time tz row0) (start st) (dps st)
           = Ok adjusted ∧
         time_to_string tz (PInt adjusted) = Ok atime ∧
         is_Some (od_get (data st') atime)).
Proof.
  intros H.
  destruct (H UTC drift_state drift_state' drift_row
              "01/01/2022 00:00:01" ["20.5"])
    as (adjusted & atime & Ha & Hk & Hs).
  - vm_compute. reflexivity.
  - vm_compute. reflexivity.
  - discriminate.
  - vm_compute. discriminate.
  - vm_compute. reflexivity.
  - assert (Ha' : adjusted_time_spec (parse_time UTC "01/01/2022 00:00:01")
                    (start drift_state) (dps drift_state) = Ok 1640995202)
      by (vm_compute; reflexivity).
    rewrite Ha' in Ha. injection Ha as <-.
    assert (Hk' : time_to_string UTC (PInt 1640995202) = Ok "2022-01-01 00:00:02")
      by (vm_compute; reflexivity).
    rewrite Hk' in Hk. injection Hk as <-.
    assert (Hn : od_get (data drift_state') "2022-01-01 00:00:02" = None)
      by (vm_compute; reflexivity).
    rewrite Hn in Hs. destruct Hs as [x Hx]. discriminate Hx.
Qed.

Lemma shared_files_read_cleanly : reads_cleanly UTC shared_files.
Proof.
  intros file contents Hin Hd.
  apply list_elem_of_In in Hin. cbn [In shared_files] in Hin.
  destruct Hin as [Hin|[Hin|[]]]; injection Hin as <- <-.
  - exists (data_of (read_data_file UTC (Some light_file))).
    vm_compute. reflexivity.
  - exists (data_of (read_data_file UTC (Some temp_file))).
    vm_compute. reflexivity.
Defined.

(** What the script writes for the two files: three rows for the four
    readings, the one of 00:00:02 with the values of both files. *)
Example main_shared_files :
  main UTC shared_files =
  Ok [ [ Some "2022-01-01 00:00:01"; Some "2021-12-31 20:00:01";
         Some "2022-01-01 00:00:01"; Some "20.5"; None; None; None; None;
         None; None; None; None ];
       [ Some "2022-01-01 00:00:02"; Some "2021-12-31 20:00:02";
         Some "2022-01-01 00:00:02"; Some "20.6"; Some "350"; None; None;
         None; None; None; None; None ];
       [ Some "2022-01-01 00:00:05"; Some "2021-12-31 20:00:05";
         Some "2022-01-01 00:00:05"; None; Some "360"; None; None; None;
         None; None; None; None ] ].
Proof. vm_compute. reflexivity. Qed.

Lemma rows_unique_and_ascending_witness :
  ∃ rows keys, main UTC shared_files = Ok rows ∧
    row_key <$> rows = Some <$> keys ∧
    StronglySorted str_lt keys ∧ NoDup keys ∧
    (∀ k, k ∈ keys ↔
          ∃ data, read_by UTC shared_files data ∧ k ∈ od_keys data) ∧
    keys = [ "2022-01-01 00:00:01"; "2022-01-01 00:00:02";
             "2022-01-01 00:00:05" ].
Proof.
  destruct (rows_unique_and_ascending UTC shared_files
              shared_files_read_cleanly)
    as (rows & keys & E & Hk & Hs & Hn & Hiff).
  exists rows, keys. split; [exact E|]. split; [exact Hk|].
  split; [exact Hs|]. split; [exact Hn|]. split; [exact Hiff|].
  rewrite main_shared_files in E. injection E as <-.
  destruct keys as [|k1 [|k2 [|k3 [|k4 keys]]]]; try discriminate Hk.
  injection Hk as <- <- <-. reflexivity.
Defined.

(** What the script writes for the sample directory. *)
Example main_sample_files :
  main UTC sample_files =
  Ok [ [ Some "2022-01-01 00:00:01"; Some "2021-12-31 20:00:01";
         Some "2022-01-01 00:00:01"; Some "20.5"; None; None; None; None;
         None; None; None; None ] ].
Proof. vm_compute. reflexivity. Qed.

Example parse_time_malformed :
  parse_time UTC "" = 0 ∧ parse_time UTC "not-a-date" = 0 ∧
  parse_time UTC "31/02/2022 00:00:00" = 0 ∧
  parse_time UTC "01/01/2022 00:00:60" = 0 ∧
  parse_time UTC "1/1/2022 0:0:7" = 1640995207.
Proof. repeat split; vm_compute; reflexivity. Qed.

(** ** Invariants of the file parser *)

Lemma file_reading_insert r g v :
  g ∈ FIELD_NAMES → file_reading r → file_reading (<[g := v]> r).
Proof.
  intros Hg (Ht & Hl & Hn). split; [|split].
  - rewrite lookup_insert. case_decide; [eauto | done].
  - rewrite lookup_insert. case_decide; [eauto | done].
  - intros g'. rewrite lookup_insert. case_decide; [by subst | apply Hn].
Qed.

Lemma od_alter_preserves {V} (P : V → Prop) (f : V → V) k (d : odict V) :
  (∀ v, P v → P (f v)) →
  (∀ k' v, od_get d k' = Some v → P v) →
  ∀ k' v, od_get (od_alter f k d) k' = Some v → P v.
Proof.
  intros Hf Hd k' v. destruct (decide (k = k')) as [<-|Hne].
  - rewrite od_get_alter_eq. destruct (od_get d k) as [v0|] eqn:E; [|done].
    intros [= <-]. apply Hf. by apply (Hd k).
  - rewrite od_get_alter_ne by done. apply Hd.
Qed.

Lemma FIELD_KINDS_names f : f ∈ FIELD_KINDS → f ∈ FIELD_NAMES.
Proof.
  intros H. apply list_elem_of_In in H. cbn [In FIELD_KINDS] in H.
  destruct H as [<-|[<-|[<-|[<-|[<-|[]]]]]]; field_in.
Qed.

Section ParserInvariants.
Variable tz : zone.

(** A line of the data section leaves everything but [data] as it is. *)
Lemma data_line_frame st raw st' :
  in_data st = true → process_line tz st raw = Ok st' →
  ∃ d, st' = set_data st d.
Proof.
  intros Hin Hp. unfold process_line in Hp. rewrite Hin in Hp.
  unfold data_line in Hp.
  destruct (getindex _ 0) as [row0|]; cbn [mbind result_bind] in Hp; [|done].
  case_decide; [injection Hp as <-; exists (data st); by destruct st|].
  destruct (_ <? 1); [injection Hp as <-; exists (data st); by destruct st|].
  repeat (match type of Hp with
          | (?r ≫= _) = _ =>
              destruct r; cbn [mbind result_bind] in Hp; [|discriminate]
          end).
  injection Hp as <-. eauto.
Qed.
End ParserInvariants.

Lemma names_ok_empty : names_ok ∅.
Proof. intros g [x Hx]. by rewrite lookup_empty in Hx. Qed.

Lemma file_reading_stamp r ts ls :
  names_ok r → file_reading (<["localtime" := ls]> (<["time" := ts]> r)).
Proof.
  intros Hn. split; [|split].
  - rewrite lookup_insert_ne by done. rewrite lookup_insert_eq. eauto.
  - rewrite lookup_insert_eq. eauto.
  - intros g. rewrite !lookup_insert. repeat case_decide; subst;
      [field_in | field_in | apply Hn].
Qed.

Section ParserInvariants2.
Variable tz : zone.

Lemma header_line_inv st raw st' :
  state_inv st → in_data st = false →
  process_line tz st raw = Ok st' → state_inv st'.
Proof.
  intros (Hf & Hd & Hnd & Hr) Hin Hp.
  unfold process_line in Hp. rewrite Hin in Hp. unfold header_line in Hp.
  specialize (Hd Hin).
  assert (Hdata : ∀ s, data s = data st → in_data s = false → field s = field st →
            state_inv s).
  { intros s Es Ei Ef. split; [intros ?; congruence|].
    split; [intros _; congruence|]. rewrite Es. by split. }
  destruct (match_column_header (strip raw)) as [label|].
  - unfold fields_lookup in Hp.
    destruct (od_get fields label) as [f|] eqn:El; [|done].
    cbn [mbind result_bind] in Hp. injection Hp as <-.
    split; [|split; [done|]].
    + intros _. eexists. split; [reflexivity|].
      apply od_get_elem, list_elem_of_In in El. cbn [In fields] in El.
      destruct El as [E|[E|[E|[E|[E|[E|[]]]]]]]; injection E as <- <-;
        field_in.
    + cbn [data set_field]. rewrite Hd. split; [apply NoDup_nil_2|].
      intros k r; discriminate.
  - destruct (match_programmed (strip raw)).
    { injection Hp as <-. by apply Hdata. }
    destruct (match_end (strip raw)).
    { injection Hp as <-. by apply Hdata. }
    destruct (match_drift (strip raw)); [|injection Hp as <-; by apply Hdata].
    destruct (py_int _); cbn [mbind result_bind] in Hp; [|done].
    destruct (py_truediv _ _); cbn [mbind result_bind] in Hp; [|done].
    injection Hp as <-. by apply Hdata.
Qed.

Lemma data_line_inv st raw st' :
  state_inv st → in_data st = true →
  process_line tz st raw = Ok st' → state_inv st'.
Proof.
  intros Hinv Hin Hp. pose proof Hinv as (Hf & Hd & Hnd & Hr).
  destruct (Hf Hin) as (f & Ef & Hfk).
  unfold process_line in Hp. rewrite Hin in Hp. unfold data_line in Hp.
  destruct (getindex _ 0) as [row0|]; cbn [mbind result_bind] in Hp; [|done].
  case_decide; [by injection Hp as <-|].
  destruct (_ <? 1); [by injection Hp as <-|].
  destruct (py_mul _ _) as [skew|]; cbn [mbind result_bind] in Hp; [|done].
  destruct (py_add _ _) as [adjtime|]; cbn [mbind result_bind] in Hp; [|done].
  destruct (py_sub _ _) as [loctime|]; cbn [mbind result_bind] in Hp; [|done].
  destruct (time_to_string _ adjtime) as [atime|];
    cbn [mbind result_bind] in Hp; [|done].
  destruct (time_to_string _ (PInt _)) as [ts|];
    cbn [mbind result_bind] in Hp; [|done].
  destruct (time_to_string _ loctime) as [ls|];
    cbn [mbind result_bind] in Hp; [|done].
  set (data1 := if od_mem atime (data st) then data st
                else od_set (data st) atime ∅) in Hp.
  assert (Hnd1 : NoDup (od_keys data1)).
  { unfold data1. destruct (od_mem atime (data st)); [done|].
    by apply od_keys_set_NoDup. }
  assert (H1 : ∀ k r, od_get data1 k = Some r →
            names_ok r ∧ (k ≠ atime → file_reading r)).
  { intros k r. unfold data1. destruct (od_mem atime (data st)) eqn:Em.
    - intros Hk. pose proof (Hr k r Hk) as Hfr. split; [by destruct Hfr as (_ & _ & ?) | done].
    - destruct (decide (atime = k)) as [<-|Hne].
      + rewrite od_get_set_eq. intros [= <-]. split; [apply names_ok_empty|done].
      + rewrite od_get_set_ne by done. intros Hk.
        pose proof (Hr k r Hk) as Hfr. split; [by destruct Hfr as (_ & _ & ?) | done]. }
  set (data3 := od_alter (insert "localtime" ls) atime
                  (od_alter (insert "time" ts) atime data1)) in Hp.
  assert (H3 : ∀ k r, od_get data3 k = Some r → file_reading r).
  { intros k r. unfold data3. destruct (decide (atime = k)) as [<-|Hne].
    - rewrite !od_get_alter_eq.
      destruct (od_get data1 atime) as [r0|] eqn:E0; [|done].
      intros [= <-]. apply file_reading_stamp. by apply (H1 atime).
    - rewrite !od_get_alter_ne by done. intros Hk.
      apply (H1 k r Hk). congruence. }
  assert (Hnd3 : NoDup (od_keys data3))
    by (unfold data3; by rewrite !od_keys_alter).
  clearbody data3.
  assert (Hfin : ∀ d, NoDup (od_keys d) →
            (∀ k r, od_get d k = Some r → file_reading r) →
            state_inv (set_data st d)).
  { intros d Hn Hd'. split; [by cbn [in_data field set_data]|].
    split; [cbn [in_data set_data]; congruence|]. by split. }
  assert (Halt : ∀ g v d, g ∈ FIELD_NAMES →
            (∀ k r, od_get d k = Some r → file_reading r) →
            ∀ k r, od_get (od_alter (insert g v) atime d) k = Some r →
                   file_reading r).
  { intros g v d Hg Hd'. apply od_alter_preserves; [|done].
    intros r. by apply file_reading_insert. }
  rewrite Ef in Hp.
  repeat case_decide;
    repeat (match type of Hp with
            | context [getindex ?r ?i] =>
                destruct (getindex r i); cbn [mbind result_bind] in Hp;
                [|discriminate]
            end);
    cbv beta iota in Hp; injection Hp as <-; apply Hfin;
    rewrite ?od_keys_alter; try done;
    repeat (apply Halt; [first [field_in | by apply FIELD_KINDS_names]|]);
    done.
Qed.

Lemma process_line_inv st raw st' :
  state_inv st → process_line tz st raw = Ok st' → state_inv st'.
Proof.
  intros Hinv Hp. destruct (in_data st) eqn:Hin.
  - by eapply data_line_inv.
  - by eapply header_line_inv.
Qed.

Lemma process_lines_inv st lines st' :
  state_inv st → process_lines tz st lines = Ok st' → state_inv st'.
Proof.
  revert st. induction lines as [|l lines IH]; intros st Hinv Hp.
  - by injection Hp as <-.
  - cbn [process_lines] in Hp.
    destruct (process_line tz st l) as [st1|] eqn:E;
      cbn [mbind result_bind] in Hp; [|done].
    eapply IH; [|done]. by eapply process_line_inv.
Qed.

Lemma initial_state_inv : state_inv initial_state.
Proof.
  split; [done|]. split; [done|]. split; [apply NoDup_nil_2|].
  intros k r; discriminate.
Qed.
End ParserInvariants2.

Section ParserProperties.
Variable tz : zone.

(** X1. The timeline [read_data_file] returns is a proper [OrderedDict]:
    its keys are distinct; every reading in it has a [time] and a
    [localtime], and holds nothing but output fields. *)
Theorem read_data_file_readings (contents : option (list string))
    (data : odict (gmap string string)) :
  read_data_file tz contents = Ok data →
  NoDup (od_keys data) ∧
  ∀ k r, od_get data k = Some r →
    is_Some (r !! "time") ∧ is_Some (r !! "localtime") ∧
    ∀ g, is_Some (r !! g) → g ∈ FIELD_NAMES.
Proof.
  destruct contents as [lines|]; cbn [read_data_file].
  - intros Hrl.
    destruct (read_lines_Ok tz _ _ _ Hrl) as (pre & post & st & _ & E & ->).
    destruct (process_lines_inv tz _ _ _ initial_state_inv E)
      as (_ & _ & Hnd & Hr).
    split; [done|]. intros k r Hk. apply (Hr k r Hk).
  - intros [= <-]. split; [apply NoDup_nil_2|]. intros k r; discriminate.
Qed.

Lemma data_lines_frame st lines st' :
  in_data st = true → process_lines tz st lines = Ok st' →
  ∃ d, st' = set_data st d.
Proof.
  revert st. induction lines as [|l lines IH]; intros st Hin Hp.
  - injection Hp as <-. exists (data st). by destruct st.
  - cbn [process_lines] in Hp.
    destruct (process_line tz st l) as [st1|] eqn:E;
      cbn [mbind result_bind] in Hp; [|done].
    destruct (data_line_frame tz st l st1 Hin E) as [d1 ->].
    destruct (IH (set_data st d1) Hin Hp) as [d ->]. by exists d.
Qed.

(** X2. Once the column header has been read, no later line changes the
    drift window, the drift rate or the field, and the parser stays in
    the data section: a header-like line that follows is a data row. *)
Theorem data_section_is_final (st st' : parser_state) (lines : list string) :
  in_data st = true →
  process_lines tz st lines = Ok st' →
  in_data st' = true ∧ field st' = field st ∧ start st' = start st ∧
  end_ st' = end_ st ∧ drift st' = drift st ∧ dps st' = dps st.
Proof.
  intros Hin Hp. destruct (data_lines_frame st lines st' Hin Hp) as [d ->].
  by cbn.
Qed.

(** X3. In every state the parser reaches from the start of a file, the
    data section has one of the five field kinds: [duration] is never the
    active field, and the field is never unset there. *)
Theorem data_section_field (lines : list string) (st : parser_state) :
  process_lines tz initial_state lines = Ok st →
  in_data st = true →
  ∃ f, field st = Some f ∧ f ∈ FIELD_KINDS.
Proof.
  intros Hp Hin.
  destruct (process_lines_inv tz _ _ _ initial_state_inv Hp) as (Hf & _).
  by apply Hf.
Qed.

Lemma no_header_stays st lines st' :
  (∀ l, l ∈ lines → match_column_header (strip l) = None) →
  in_data st = false → process_lines tz st lines = Ok st' →
  in_data st' = false.
Proof.
  revert st. induction lines as [|l lines IH]; intros st Hno Hin Hp.
  - by injection Hp as <-.
  - cbn [process_lines] in Hp.
    destruct (process_line tz st l) as [st1|] eqn:E;
      cbn [mbind result_bind] in Hp; [|done].
    apply (IH st1); [intros l' Hl'; apply Hno; by apply elem_of_cons; right| |done].
    unfold process_line in E. rewrite Hin in E. unfold header_line in E.
    rewrite (Hno l) in E by (apply elem_of_cons; by left).
    destruct (match_programmed _); [by injection E as <-|].
    destruct (match_end _); [by injection E as <-|].
    destruct (match_drift _); [|by injection E as <-].
    destruct (py_int _); cbn [mbind result_bind] in E; [|done].
    destruct (py_truediv _ _); cbn [mbind result_bind] in E; [|done].
    by injection E as <-.
Qed.

(** X4. A file in which no line is a column header gives the empty
    timeline, whatever rows it holds. *)
Theorem no_column_header_no_data (lines : list string)
    (data : odict (gmap string string)) :
  (∀ l, l ∈ lines → match_column_header (strip l) = None) →
  read_data_file tz (Some lines) = Ok data →
  data = [].
Proof.
  intros Hno. cbn [read_data_file]. intros Hrl.
  destruct (read_lines_Ok tz _ _ _ Hrl) as (pre & post & st & Hl & E & ->).
  destruct (process_lines_inv tz _ _ _ initial_state_inv E)
    as (_ & Hd & _).
  apply Hd. apply (no_header_stays initial_state pre st); [|done|done].
  intros l Hin. apply Hno. rewrite Hl. apply elem_of_app. by left.
Qed.
End ParserProperties.

Lemma od_alter_keyed {V} (P : string → V → Prop) (f : V → V) k (d : odict V) :
  (∀ v, P k v → P k (f v)) →
  (∀ k' v, od_get d k' = Some v → P k' v) →
  ∀ k' v, od_get (od_alter f k d) k' = Some v → P k' v.
Proof.
  intros Hf Hd k' v. destruct (decide (k = k')) as [<-|Hne].
  - rewrite od_get_alter_eq. destruct (od_get d k) as [v0|] eqn:E; [|done].
    intros [= <-]. apply Hf. by apply Hd.
  - rewrite od_get_alter_ne by done. apply Hd.
Qed.

Lemma FIELD_KINDS_not_time f : f ∈ FIELD_KINDS → f ≠ "time".
Proof.
  intros H ->. apply list_elem_of_In in H. cbn [In FIELD_KINDS] in H.
  destruct H as [H|[H|[H|[H|[H|[]]]]]]; discriminate H.
Qed.

Section NoDrift.
Variable tz : zone.

(** Without drift the adjusted time is the raw time: every reading a data
    line stores has its own key as [time]. *)
Lemma data_line_time_is_key st raw st' :
  state_inv st → in_data st = true → dps st = PInt 0 →
  (∀ k r, od_get (data st) k = Some r → r !! "time" = Some k) →
  process_line tz st raw = Ok st' →
  ∀ k r, od_get (data st') k = Some r → r !! "time" = Some k.
Proof.
  intros Hinv Hin Hdps Hkey Hp. destruct Hinv as (Hf & _).
  destruct (Hf Hin) as (f & Ef & Hfk).
  pose proof (FIELD_KINDS_not_time f Hfk) as Hft.
  unfold process_line in Hp. rewrite Hin in Hp. unfold data_line in Hp.
  destruct (getindex _ 0) as [row0|]; cbn [mbind result_bind] in Hp; [|done].
  case_decide; [by injection Hp as <-|].
  destruct (_ <? 1); [by injection Hp as <-|].
  rewrite Hdps in Hp.
  cbn [py_mul py_add py_sub py_arith mbind result_bind] in Hp.
  rewrite Z.mul_0_l, Z.add_0_r in Hp.
  destruct (time_to_string _ (PInt (parse_time _ _))) as [atime|];
    cbn [mbind result_bind] in Hp; [|done].
  destruct (time_to_string _ (PInt (_ - _))) as [ls|];
    cbn [mbind result_bind] in Hp; [|done].
  set (data1 := if od_mem atime (data st) then data st
                else od_set (data st) atime ∅) in Hp.
  set (data3 := od_alter (insert "localtime" ls) atime
                  (od_alter (insert "time" atime) atime data1)) in Hp.
  assert (H3 : ∀ k r, od_get data3 k = Some r → r !! "time" = Some k).
  { intros k r. unfold data3. destruct (decide (atime = k)) as [<-|Hne].
    - rewrite !od_get_alter_eq.
      destruct (od_get data1 atime) as [r0|]; [|done]. intros [= <-].
      rewrite lookup_insert_ne by done. by rewrite lookup_insert_eq.
    - rewrite !od_get_alter_ne by done. unfold data1.
      destruct (od_mem atime (data st)); [apply Hkey|].
      rewrite od_get_set_ne by done. apply Hkey. }
  clearbody data3.
  assert (Halt : ∀ g (v : string) (d : odict (gmap string string)), g ≠ "time" →
            (∀ k r, od_get d k = Some r → r !! "time" = Some k) →
            ∀ k r, od_get (od_alter (insert g v) atime d) k = Some r →
                   r !! "time" = Some k).
  { intros g v d Hg Hd'.
    apply (od_alter_keyed (fun k r => r !! "time" = Some k)); [|done].
    intros r Hr. by rewrite lookup_insert_ne. }
  rewrite Ef in Hp.
  repeat case_decide;
    repeat (match type of Hp with
            | context [getindex ?r ?i] =>
                destruct (getindex r i); cbn [mbind result_bind] in Hp;
                [|discriminate]
            end);
    cbv beta iota in Hp; injection Hp as <-; cbn [data set_data];
    repeat (apply Halt; [done|]); done.
Qed.

Lemma no_drift_lines st lines st' :
  (∀ l, l ∈ lines → match_drift (strip l) = None) →
  state_inv st → dps st = PInt 0 →
  (∀ k r, od_get (data st) k = Some r → r !! "time" = Some k) →
  process_lines tz st lines = Ok st' →
  ∀ k r, od_get (data st') k = Some r → r !! "time" = Some k.
Proof.
  revert st. induction lines as [|l lines IH]; intros st Hno Hinv Hd Hkey Hp.
  - by injection Hp as <-.
  - cbn [process_lines] in Hp.
    destruct (process_line tz st l) as [st1|] eqn:E;
      cbn [mbind result_bind] in Hp; [|done].
    assert (Hno' : ∀ l', l' ∈ lines → match_drift (strip l') = None)
      by (intros l' Hl'; apply Hno; by apply elem_of_cons; right).
    pose proof (process_line_inv tz st l st1 Hinv E) as Hinv1.
    destruct (in_data st) eqn:Hin.
    + apply (IH st1 Hno' Hinv1); [| |done].
      * destruct (data_line_frame tz st l st1 Hin E) as [d ->]. done.
      * exact (data_line_time_is_key st l st1 Hinv Hin Hd Hkey E).
    + assert (Hsame : dps st1 = PInt 0 ∧ data st1 = data st).
      { unfold process_line in E. rewrite Hin in E. unfold header_line in E.
        rewrite (Hno l) in E by (apply elem_of_cons; by left).
        destruct (match_column_header _).
        { destruct (fields_lookup _); cbn [mbind result_bind] in E; [|done].
          by injection E as <-. }
        destruct (match_programmed _); [by injection E as <-|].
        destruct (match_end _); by injection E as <-. }
      destruct Hsame as [Hd1 Hdata1].
      apply (IH st1 Hno' Hinv1 Hd1); [by rewrite Hdata1 | done].
Qed.

(** X5. In the timeline of a file that has no drift line, every reading
    has its own key as its [time]: without a drift rate the adjusted time
    is the time the logger wrote. *)
Theorem no_drift_key_is_time (lines : list string)
    (data : odict (gmap string string)) (k : string) (r : gmap string string) :
  (∀ l, l ∈ lines → match_drift (strip l) = None) →
  read_data_file tz (Some lines) = Ok data →
  od_get data k = Some r →
  r !! "time" = Some k.
Proof.
  intros Hno. cbn [read_data_file]. intros Hrl.
  destruct (read_lines_Ok tz _ _ _ Hrl) as (pre & post & st & Hl & E & ->).
  apply (no_drift_lines initial_state pre st); [|apply initial_state_inv|done| |done].
  - intros l Hin. apply Hno. rewrite Hl. apply elem_of_app. by left.
  - intros k' r'; discriminate.
Qed.
End NoDrift.

(** ** Properties of the merge *)

Lemma merge_item_NoDup output item :
  NoDup (od_keys output) → NoDup (od_keys (merge_item output item)).
Proof.
  destruct item as [date values]. intros Hnd. rewrite merge_item_keys.
  destruct (od_mem date output) eqn:E; [done|].
  apply NoDup_app. split; [done|]. split; [|apply NoDup_singleton].
  intros x Hx ->%list_elem_of_singleton. apply od_mem_true in Hx. congruence.
Qed.

Lemma merge_file_NoDup output data :
  NoDup (od_keys output) → NoDup (od_keys (merge_file output data)).
Proof.
  revert output. induction data as [|item data IH]; intros output H; [done|].
  rewrite merge_file_cons. apply IH. by apply merge_item_NoDup.
Qed.

Lemma merge_file_keys_prefix output data :
  ∃ new, od_keys (merge_file output data) = od_keys output ++ new.
Proof.
  revert output. induction data as [|[date values] data IH]; intros output.
  - exists []. by rewrite app_nil_r.
  - rewrite merge_file_cons.
    destruct (IH (merge_item output (date, values))) as [new ->].
    rewrite merge_item_keys. destruct (od_mem date output).
    + by exists new.
    + exists (date :: new). by rewrite <- app_assoc.
Qed.

Lemma merge_file_untouched output data k :
  k ∉ od_keys data → od_get (merge_file output data) k = od_get output k.
Proof.
  revert output. induction data as [|[date values] data IH]; intros output Hk;
    [done|].
  rewrite od_keys_cons in Hk. apply not_elem_of_cons in Hk as [Hne Hk].
  rewrite merge_file_cons, IH by done.
  rewrite merge_item_get. by rewrite decide_False.
Qed.

(** X6. Merging a file adds its keys to those of the output: the keys the
    output had keep their places, in order, and the new ones follow them;
    a reading at a key the file does not have is left as it was. *)
Theorem merge_file_extends (output : odict (gmap string (option string)))
    (data : odict (gmap string string)) :
  (∃ new, od_keys (merge_file output data) = od_keys output ++ new) ∧
  (∀ k, k ∈ od_keys (merge_file output data) ↔
        k ∈ od_keys output ∨ k ∈ od_keys data) ∧
  (∀ k, k ∉ od_keys data →
        od_get (merge_file output data) k = od_get output k).
Proof.
  split; [apply merge_file_keys_prefix|]. split.
  - intros k. rewrite merge_file_keys_elem. tauto.
  - apply merge_file_untouched.
Qed.

Lemma od_ext {V} (a b : odict V) :
  od_keys a = od_keys b → NoDup (od_keys a) →
  (∀ k, od_get a k = od_get b k) → a = b.
Proof.
  revert b. induction a as [|[k v] a IH]; intros [|[k' v'] b] Hk Hnd Hg;
    try done.
  rewrite !od_keys_cons in Hk. injection Hk as <- Hk.
  rewrite od_keys_cons in Hnd. apply NoDup_cons in Hnd as [Hni Hnd].
  pose proof (Hg k) as Hgk. cbn [od_get] in Hgk.
  rewrite !decide_True in Hgk by done. injection Hgk as <-.
  f_equal. apply IH; [done..|].
  intros k0. destruct (decide (k = k0)) as [<-|Hne].
  - assert (Hni' : k ∉ od_keys b) by (by rewrite <- Hk).
    apply od_get_None in Hni, Hni'. by rewrite Hni, Hni'.
  - pose proof (Hg k0) as Hg0. cbn [od_get] in Hg0.
    by rewrite !decide_False in Hg0 by done.
Qed.

Lemma merge_file_keys_same output data :
  (∀ k, k ∈ od_keys data → k ∈ od_keys output) →
  od_keys (merge_file output data) = od_keys output.
Proof.
  revert output. induction data as [|[date values] data IH]; intros output H;
    [done|].
  assert (Hm : od_mem date output = true).
  { apply od_mem_true, H. rewrite od_keys_cons. apply elem_of_cons; by left. }
  rewrite merge_file_cons, IH.
  - by rewrite merge_item_keys, Hm.
  - intros k Hk. rewrite merge_item_keys, Hm. apply H.
    rewrite od_keys_cons. apply elem_of_cons; by right.
Qed.

Lemma merge_reading_idem values out :
  merge_reading values (merge_reading values out) = merge_reading values out.
Proof.
  apply map_eq. intros g. rewrite !merge_reading_lookup.
  case_decide as Hg; [|done]. f_equal. unfold merged_value.
  destruct (values !! g) as [v|] eqn:Ev; [done|].
  rewrite merge_reading_lookup, decide_True by done. simpl.
  unfold merged_value. by rewrite Ev.
Qed.

(** X7. Reading the same file twice in a row changes nothing: merging a
    timeline a second time gives the output of the first merge. *)
Theorem merge_file_twice (output : odict (gmap string (option string)))
    (data : odict (gmap string string)) :
  NoDup (od_keys output) → NoDup (od_keys data) →
  merge_file (merge_file output data) data = merge_file output data.
Proof.
  intros Hno Hnd. apply od_ext.
  - apply merge_file_keys_same. intros k Hk.
    apply merge_file_keys_elem. by left.
  - by do 2 apply merge_file_NoDup.
  - intros k. rewrite (merge_file_get (merge_file output data)) by done.
    destruct (od_get data k) as [values|] eqn:E; [|done].
    rewrite merge_file_get, E by done. simpl. by rewrite merge_reading_idem.
Qed.

(** ** Properties of the run *)

Section RunProperties.
Variable tz : zone.

Lemma merge_file_nil output : merge_file output [] = output.
Proof. reflexivity. Qed.

Lemma read_files_skip output before file contents after :
  contents = None ∨ contains "driftadj" file = true →
  read_files tz output (before ++ (file, contents) :: after) =
  read_files tz output (before ++ after).
Proof.
  intros Hskip. revert output.
  induction before as [|[f c] before IH]; intros output.
  - cbn [app read_files]. destruct (contains "driftadj" file) eqn:E; [done|].
    destruct Hskip as [->|]; [|done]. reflexivity.
  - cbn [app read_files]. destruct (contains "driftadj" f); [apply IH|].
    destruct (read_data_file tz c); cbn [mbind result_bind]; [|done].
    apply IH.
Qed.

(** X8. A file that cannot be opened does not count: the run is the run
    without it. *)
Theorem unreadable_file_ignored
    (before after : list (string * option (list string))) (file : string) :
  main tz (before ++ (file, None) :: after) =
  main tz (before ++ after).
Proof. unfold main. rewrite read_files_skip; [done | by left]. Qed.

(** X9. A file whose path contains [driftadj] does not count, whatever it
    contains: it is not parsed, so nothing in it can stop the run. *)
Theorem driftadj_file_ignored
    (before after : list (string * option (list string))) (file : string)
    (contents : option (list string)) :
  contains "driftadj" file = true →
  main tz (before ++ (file, contents) :: after) =
  main tz (before ++ after).
Proof. intros H. unfold main. rewrite read_files_skip; [done | by right]. Qed.

Lemma read_files_raise_origin output files e :
  read_files tz output files = Raise e →
  ∃ file contents, (file, contents) ∈ files ∧
    contains "driftadj" file = false ∧
    read_data_file tz contents = Raise e.
Proof.
  revert output. induction files as [|[f c] files IH]; intros output Hr; [done|].
  cbn [read_files] in Hr. destruct (contains "driftadj" f) eqn:Ef.
  - destruct (IH _ Hr) as (file & contents & Hin & Hd & He).
    exists file, contents. split; [apply elem_of_cons; by right | done].
  - destruct (read_data_file tz c) as [data|e'] eqn:Ec;
      cbn [mbind result_bind] in Hr.
    + destruct (IH _ Hr) as (file & contents & Hin & Hd & He).
      exists file, contents. split; [apply elem_of_cons; by right | done].
    + injection Hr as <-. exists f, c.
      split; [apply elem_of_cons; by left | done].
Qed.

Lemma read_files_merged output files out :
  merged output → read_files tz output files = Ok out → merged out.
Proof.
  revert output. induction files as [|[f c] files IH]; intros output Hm Hr.
  - by injection Hr as <-.
  - cbn [read_files] in Hr. destruct (contains "driftadj" f); [by eapply IH|].
    destruct (read_data_file tz c) as [data|];
      cbn [mbind result_bind] in Hr; [|done].
    eapply IH; [|done]. by apply merge_file_merged.
Qed.

(** X10. The run fails only in the parsing of a file: an exception of the
    run is the exception [read_data_file] raised on some file that was
    read; the interpolation and the emission never raise. *)
Theorem run_fails_only_in_a_file
    (files : list (string * option (list string))) (e : exn) :
  main tz files = Raise e →
  ∃ file contents, (file, contents) ∈ files ∧
    contains "driftadj" file = false ∧
    read_data_file tz contents = Raise e.
Proof.
  unfold main. intros Hm.
  destruct (read_files tz [] files) as [output|e'] eqn:Er;
    cbn [mbind result_bind] in Hm.
  - exfalso.
    pose proof (read_files_merged [] files output merged_nil Er) as Hmo.
    destruct (interpolate_frame output Hmo) as (out & Ei & Hs & _ & _ & Hc).
    rewrite Ei in Hm. cbn [mbind result_bind] in Hm.
    destruct (emit_rows_ok out) as (rows & Erows & _).
    { apply Forall_forall. intros [k r] Hel. simpl. apply (Hc k).
      apply od_elem_get; [|done].
      clear -Hs. induction Hs as [|x l Hs IH Hall]; [apply NoDup_nil_2|].
      apply NoDup_cons. split; [|done].
      intros Hx. eapply Forall_forall in Hall; [|done]. by destruct Hall. }
    rewrite Erows in Hm. discriminate.
  - injection Hm as <-. by eapply read_files_raise_origin.
Qed.
End RunProperties.

(** ** Properties of the interpolation *)

(** A reading that defines a group is not changed in it. *)
Lemma fill_wet_temp_defined state values a :
  complete values → values !! "wet_temp_min" = Some (Some a) →
  ∃ state', fill_wet_temp state values = Ok (state', values).
Proof.
  intros Hc Ea.
  destruct (complete_lookup _ "wet_temp_max" Hc ltac:(field_in)) as [b Eb].
  destruct (complete_lookup _ "wet_temp_mean" Hc ltac:(field_in)) as [c Ec].
  destruct (complete_lookup _ "wet_temp_samples" Hc ltac:(field_in)) as [d Ed].
  unfold fill_wet_temp. rewrite Ea.
  rewrite (getitem_Some _ _ _ Ea), (getitem_Some _ _ _ Eb),
    (getitem_Some _ _ _ Ec), (getitem_Some _ _ _ Ed). simpl.
  unfold getitem. simplify_map_eq. simpl. eexists. do 2 f_equal.
  rewrite (insert_id values "wet_temp_min") by done.
  rewrite (insert_id values "wet_temp_max") by done.
  rewrite (insert_id values "wet_temp_mean") by done.
  by rewrite (insert_id values "wet_temp_samples") by done.
Qed.

Lemma fill_wetdry_defined state values w :
  complete values → values !! "wetdry" = Some (Some w) →
  ∃ state', fill_wetdry state values = Ok (state', values).
Proof.
  intros Hc Ew.
  destruct (complete_lookup _ "duration" Hc ltac:(field_in)) as [u Eu].
  unfold fill_wetdry. rewrite Ew.
  rewrite (getitem_Some _ _ _ Ew), (getitem_Some _ _ _ Eu). simpl.
  unfold getitem. simplify_map_eq. simpl. eexists. do 2 f_equal.
  by rewrite insert_id.
Qed.

Lemma fill_wetdry_frame state values state' values' :
  fill_wetdry state values = Ok (state', values') →
  (∀ g, g ≠ "wetdry" → values' !! g = values !! g) ∧
  (∀ g, g ≠ "wetdry" → g ≠ "duration" → state' !! g = state !! g).
Proof.
  unfold fill_wetdry. intros H.
  destruct (values !! "wetdry") as [[w|]|] eqn:Ew.
  - destruct (getitem values "wetdry") as [a|]; cbn [mbind result_bind] in H;
      [|done].
    destruct (getitem values "duration") as [b|]; cbn [mbind result_bind] in H;
      [|done].
    rewrite lookup_insert_ne, lookup_insert_eq in H by done.
    unfold getitem in H.
    rewrite lookup_insert_ne, lookup_insert_eq in H by done.
    cbn [mbind result_bind] in H. injection H as <- <-.
    split; intros g ?; [by rewrite lookup_insert_ne|].
    intros ?. by rewrite !lookup_insert_ne.
  - cbn [mbind result_bind] in H.
    destruct (state !! "wetdry") as [x|] eqn:Ex.
    + rewrite (getitem_Some _ _ _ Ex) in H. cbn [mbind result_bind] in H.
      injection H as <- <-. split; [|done]. intros g ?.
      by rewrite lookup_insert_ne.
    + cbn [mbind result_bind] in H. by injection H as <- <-.
  - cbn [mbind result_bind] in H.
    destruct (state !! "wetdry") as [x|] eqn:Ex.
    + rewrite (getitem_Some _ _ _ Ex) in H. cbn [mbind result_bind] in H.
      injection H as <- <-. split; [|done]. intros g ?.
      by rewrite lookup_insert_ne.
    + cbn [mbind result_bind] in H. by injection H as <- <-.
Qed.

Lemma fill_wet_temp_min state values state' values' :
  complete values → state_ok state →
  fill_wet_temp state values = Ok (state', values') →
  state' !! "wet_temp_min" =
    match values !! "wet_temp_min" with
    | Some (Some w) => Some (Some w)
    | _ => state !! "wet_temp_min"
    end ∧
  values' !! "wet_temp_min" =
    match values !! "wet_temp_min" with
    | Some (Some w) => Some (Some w)
    | v => match state !! "wet_temp_min" with Some x => Some x | None => v end
    end.
Proof.
  intros Hc Hs.
  destruct (complete_lookup _ "wet_temp_min" Hc ltac:(field_in)) as [a Ea].
  destruct a as [a|].
  - destruct (fill_wet_temp_defined state values a Hc Ea) as [s1 E1].
    rewrite E1. intros [= <- <-]. rewrite Ea. split; [|done].
    clear -E1 Ea Hc. unfold fill_wet_temp in E1. rewrite Ea in E1.
    destruct (complete_lookup _ "wet_temp_max" Hc ltac:(field_in)) as [b Eb].
    destruct (complete_lookup _ "wet_temp_mean" Hc ltac:(field_in)) as [c Ec].
    destruct (complete_lookup _ "wet_temp_samples" Hc ltac:(field_in)) as [d Ed].
    rewrite (getitem_Some _ _ _ Ea), (getitem_Some _ _ _ Eb),
      (getitem_Some _ _ _ Ec), (getitem_Some _ _ _ Ed) in E1. simpl in E1.
    unfold getitem in E1. simplify_map_eq. by simplify_map_eq.
  - unfold fill_wet_temp. rewrite Ea. cbn [mbind result_bind].
    destruct (state !! "wet_temp_min") as [sa|] eqn:Esa.
    + destruct Hs as ([sb Esb] & [sc Esc] & [sd Esd]); [by rewrite Esa|].
      rewrite (getitem_Some _ _ _ Esa), (getitem_Some _ _ _ Esb),
        (getitem_Some _ _ _ Esc), (getitem_Some _ _ _ Esd).
      cbn [mbind result_bind]. intros [= <- <-]. split; [done|].
      by simplify_map_eq.
    + cbn [mbind result_bind]. by intros [= <- <-].
Qed.

Lemma interp_step_field g state values state' values' :
  g = "wetdry" ∨ g = "wet_temp_min" →
  complete values → state_ok state →
  interp_step state values = Ok (state', values') →
  state' !! g =
    match values !! g with
    | Some (Some w) => Some (Some w)
    | _ => state !! g
    end ∧
  values' !! g =
    match values !! g with
    | Some (Some w) => Some (Some w)
    | v => match state !! g with Some x => Some x | None => v end
    end.
Proof.
  intros Hg Hc Hs E. destruct Hg as [-> | ->].
  - destruct (interp_step_ok state values Hc Hs)
      as (s2 & v2 & E2 & _ & _ & _ & Hsw & Hw).
    rewrite E in E2. by injection E2 as <- <-.
  - unfold interp_step in E.
    destruct (fill_wet_temp state values) as [[s1 v1]|] eqn:E1;
      cbn [mbind result_bind] in E; [|done].
    destruct (fill_wet_temp_min state values s1 v1 Hc Hs E1) as [Hs1 Hv1].
    destruct (fill_wetdry_frame s1 v1 state' values' E) as [Hfv Hfs].
    by rewrite Hfv, Hfs.
Qed.

Lemma interp_step_state_ok state values state' values' :
  complete values → state_ok state →
  interp_step state values = Ok (state', values') →
  state_ok state' ∧ complete values'.
Proof.
  intros Hc Hs E.
  destruct (interp_step_ok state values Hc Hs) as (s2 & v2 & E2 & Hs2 & Hc2 & _).
  rewrite E in E2. by injection E2 as <- <-.
Qed.

Lemma interp_items_fill g items state items' :
  g = "wetdry" ∨ g = "wet_temp_min" →
  Forall (fun kr => complete kr.2) items → state_ok state →
  interp_items state items = Ok items' →
  (fun kr => kr.2 !! g) <$> items' =
  wetdry_fill (state !! g) ((fun kr => kr.2 !! g) <$> items).
Proof.
  intros Hg. revert state items'. induction items as [|[k r] items IH];
    intros state items' Hall Hs E.
  - by injection E as <-.
  - apply Forall_cons in Hall as [Hc Hall]. cbn [interp_items] in E.
    destruct (interp_step state r) as [[s' r']|] eqn:E1;
      cbn [mbind result_bind] in E; [|done].
    destruct (interp_items s' items) as [rest|] eqn:E2;
      cbn [mbind result_bind] in E; [|done].
    injection E as <-.
    destruct (interp_step_field g state r s' r' Hg Hc Hs E1) as [Hsw Hw].
    destruct (interp_step_state_ok state r s' r' Hc Hs E1) as [Hs' _].
    rewrite !fmap_cons. cbn [snd wetdry_fill].
    rewrite (IH s' rest Hall Hs' E2), Hw, Hsw.
    by destruct (r !! g) as [[w|]|].
Qed.

(** A relation between a dict and what a pass makes of it, from a property
    of one step under an invariant [I] of the state. *)
Lemma interp_items_rel
    (I : gmap string (option string) → Prop)
    (Q : gmap string (option string) → Prop)
    (R : gmap string (option string) → gmap string (option string) → Prop)
    items state items' :
  (∀ state values state' values',
     I state → Q values → interp_step state values = Ok (state', values') →
     I state' ∧ R values values') →
  Forall (fun kr => Q kr.2) items → I state →
  interp_items state items = Ok items' →
  Forall2 (fun kr kr' => kr'.1 = kr.1 ∧ R kr.2 kr'.2) items items'.
Proof.
  intros Hstep. revert state items'. induction items as [|[k r] items IH];
    intros state items' Hall Hs E.
  - injection E as <-. constructor.
  - apply Forall_cons in Hall as [Hq Hall]. cbn [interp_items] in E.
    destruct (interp_step state r) as [[s' r']|] eqn:E1;
      cbn [mbind result_bind] in E; [|done].
    destruct (interp_items s' items) as [rest|] eqn:E2;
      cbn [mbind result_bind] in E; [|done].
    injection E as <-.
    destruct (Hstep state r s' r' Hs Hq E1) as [Hs' Hr].
    constructor; [done|]. by apply (IH s').
Qed.

(** The same, for the whole stage. *)
Lemma interpolate_rel
    (I : gmap string (option string) → Prop)
    (Q : gmap string (option string) → Prop)
    (R : gmap string (option string) → gmap string (option string) → Prop)
    output :
  (∀ state values state' values',
     I state → Q values → interp_step state values = Ok (state', values') →
     I state' ∧ R values values') →
  I ∅ → merged output →
  (∀ k r, od_get output k = Some r → Q r) →
  ∃ out, interpolate output = Ok out ∧
    ∀ k r, od_get output k = Some r → ∃ r', od_get out k = Some r' ∧ R r r'.
Proof.
  intros Hstep HI Hm HQ.
  destruct (interpolate_stages output Hm)
    as (temp & temp' & out & Et & Hkt & Hgt & Ei & Eo & Hko & Hkt' & Hgo).
  exists out. split; [done|]. intros k r Hr. rewrite <- Hgt in Hr.
  assert (HF : Forall2 (fun kr kr' => kr'.1 = kr.1 ∧ R kr.2 kr'.2) temp temp').
  { apply (interp_items_rel I Q R temp ∅ temp' Hstep); [|done..].
    apply Forall_forall. intros [k0 r0] Hel. simpl. apply (HQ k0).
    rewrite <- Hgt. apply od_elem_get; [|done].
    rewrite Hkt. apply py_sorted_NoDup, Hm. }
  destruct (Forall2_get temp temp' R k r HF Hr) as (r' & Hr' & HR).
  exists r'. by rewrite Hgo.
Qed.

(** X11. The interpolation never changes what a reading defines itself: a
    reading with a [wetdry] keeps it, and a reading with a [wet_temp_min]
    keeps its four wet-temperature fields. *)
Theorem interpolation_keeps_defined
    (output : odict (gmap string (option string))) (k : string)
    (r : gmap string (option string)) :
  merged output →
  od_get output k = Some r →
  ∃ out r', interpolate output = Ok out ∧ od_get out k = Some r' ∧
    (defined (r !! "wetdry") → r' !! "wetdry" = r !! "wetdry") ∧
    (defined (r !! "wet_temp_min") →
       ∀ g, g ∈ WET_TEMP → r' !! g = r !! g).
Proof.
  intros Hm Hr.
  destruct (interpolate_rel state_ok complete
    (fun r r' => (defined (r !! "wetdry") → r' !! "wetdry" = r !! "wetdry") ∧
                 (defined (r !! "wet_temp_min") →
                    ∀ g, g ∈ WET_TEMP → r' !! g = r !! g)) output)
    as (out & Eo & Hout); [|apply state_ok_empty|done|apply Hm|].
  - intros state values state' values' Hs Hc E.
    destruct (interp_step_state_ok _ _ _ _ Hc Hs E) as [Hs' _].
    split; [done|]. split.
    + intros [w Hw].
      destruct (interp_step_field "wetdry" _ _ _ _ (or_introl eq_refl) Hc Hs E)
        as [_ Hv]. by rewrite Hv, Hw.
    + intros [a Ha] g Hg. unfold interp_step in E.
      destruct (fill_wet_temp_defined state values a Hc Ha) as [s1 E1].
      rewrite E1 in E. cbn [mbind result_bind] in E.
      destruct (fill_wetdry_frame s1 values state' values' E) as [Hfv _].
      apply Hfv. intros ->. apply list_elem_of_In in Hg. cbn [In WET_TEMP] in Hg.
      destruct Hg as [H|[H|[H|[H|[]]]]]; discriminate H.
  - destruct (Hout k r Hr) as (r' & Hr' & HR). by exists out, r'.
Qed.

(** X12. A timeline in which no reading has a [wetdry] or a
    [wet_temp_min] is only put in ascending order: the interpolation
    changes no dict of it. *)
Theorem nothing_to_interpolate
    (output : odict (gmap string (option string))) :
  merged output →
  (∀ k r, od_get output k = Some r →
     r !! "wetdry" = Some None ∧ r !! "wet_temp_min" = Some None) →
  ∃ out, interpolate output = Ok out ∧
    od_keys out = py_sorted false (od_keys output) ∧
    ∀ k, od_get out k = od_get output k.
Proof.
  intros Hm Hnone.
  destruct (interpolate_rel (fun s => s = ∅)
    (fun r => r !! "wetdry" = Some None ∧ r !! "wet_temp_min" = Some None)
    (fun r r' => r' = r) output) as (out & Eo & Hout); [|done..|].
  - intros state values state' values' -> [Hw Ha] E.
    unfold interp_step, fill_wet_temp, fill_wetdry in E.
    rewrite Ha in E. cbn [mbind result_bind] in E.
    rewrite lookup_empty in E. cbn [mbind result_bind] in E.
    rewrite Hw in E. cbn [mbind result_bind] in E.
    rewrite lookup_empty in E. cbn [mbind result_bind] in E.
    by injection E as <- <-.
  - exists out. split; [done|].
    destruct (interpolate_stages output Hm)
      as (temp & temp' & out' & Et & Hkt & Hgt & Ei & Eo' & Hko & Hkt' & Hgo).
    rewrite Eo in Eo'. injection Eo' as <-. split.
    + rewrite Hko, Hkt. apply (StronglySorted_unique String.le).
      * apply py_sorted_ascending.
      * apply py_sorted_ascending.
      * by rewrite !py_sorted_perm.
    + intros k. destruct (od_get output k) as [r|] eqn:Er.
      * destruct (Hout k r Er) as (r' & Hr' & ->). done.
      * apply od_get_None. apply od_get_None in Er.
        rewrite Hko, py_sorted_elem, Hkt, py_sorted_elem. done.
Qed.

(** *** The forward fill, field by field *)

Lemma is_defined_true w : is_defined w = true ↔ defined w.
Proof.
  unfold defined. destruct w as [[x|]|]; simpl; split; try done; eauto;
    intros [y Hy]; discriminate.
Qed.

Lemma WET_TEMP_cases g :
  g ∈ WET_TEMP →
  g = "wet_temp_min" ∨ g = "wet_temp_max" ∨ g = "wet_temp_mean" ∨
  g = "wet_temp_samples".
Proof.
  intros H. apply list_elem_of_In in H. cbn [In WET_TEMP] in H.
  destruct H as [<-|[<-|[<-|[<-|[]]]]]; tauto.
Qed.

(** The wet-temperature block, on each of its four fields. *)
Lemma fill_wet_temp_group state values state' values' g :
  g ∈ WET_TEMP → complete values → state_ok state →
  fill_wet_temp state values = Ok (state', values') →
  state_ok state' ∧
  (if is_defined (values !! "wet_temp_min")
   then is_Some (state' !! "wet_temp_min") ∧ state' !! g = values !! g ∧
        values' !! g = values !! g
   else state' = state ∧
        values' !! g = match state !! "wet_temp_min" with
                       | Some _ => state !! g
                       | None => values !! g
                       end).
Proof.
  intros Hg Hc Hs E.
  destruct (fill_wet_temp_ok state values Hc Hs)
    as (s1 & v1 & E1 & Hs1 & _). rewrite E in E1. injection E1 as <- <-.
  split; [done|].
  destruct (complete_lookup _ "wet_temp_min" Hc ltac:(field_in)) as [a Ea].
  destruct (complete_lookup _ "wet_temp_max" Hc ltac:(field_in)) as [b Eb].
  destruct (complete_lookup _ "wet_temp_mean" Hc ltac:(field_in)) as [c Ec].
  destruct (complete_lookup _ "wet_temp_samples" Hc ltac:(field_in)) as [d Ed].
  unfold fill_wet_temp in E. rewrite Ea in E. rewrite Ea. destruct a as [a|]; simpl.
  - rewrite (getitem_Some _ _ _ Ea), (getitem_Some _ _ _ Eb),
      (getitem_Some _ _ _ Ec), (getitem_Some _ _ _ Ed) in E. simpl in E.
    unfold getitem in E. simplify_map_eq.
    split; [by simplify_map_eq|].
    destruct (WET_TEMP_cases g Hg) as [-> | [-> | [-> | ->]]]; by simplify_map_eq.
  - cbn [mbind result_bind] in E.
    destruct (state !! "wet_temp_min") as [sa|] eqn:Esa.
    + destruct Hs as ([sb Esb] & [sc Esc] & [sd Esd]); [by rewrite Esa|].
      rewrite (getitem_Some _ _ _ Esa), (getitem_Some _ _ _ Esb),
        (getitem_Some _ _ _ Esc), (getitem_Some _ _ _ Esd) in E.
      cbn [mbind result_bind] in E. injection E as <- <-. split; [done|].
      destruct (WET_TEMP_cases g Hg) as [-> | [-> | [-> | ->]]]; by simplify_map_eq.
    + cbn [mbind result_bind] in E. by injection E as <- <-.
Qed.

(** One step, on a field [g] of the group with key field [gk]. *)
Lemma interp_step_group gk g state values state' values' :
  fills gk g → complete values → state_ok state →
  interp_step state values = Ok (state', values') →
  values' !! g =
    (if is_defined (values !! gk) then values !! g
     else match held gk g state with Some x => x | None => values !! g end) ∧
  held gk g state' =
    (if is_defined (values !! gk) then Some (values !! g)
     else held gk g state).
Proof.
  intros Hf Hc Hs E. destruct Hf as [[-> ->]|[-> Hg]].
  - destruct (interp_step_field "wetdry" _ _ _ _ (or_introl eq_refl) Hc Hs E)
      as [Hsw Hv]. unfold held. rewrite Hv, Hsw.
    destruct (values !! "wetdry") as [[w|]|]; simpl; [done|..];
      by destruct (state !! "wetdry").
  - unfold interp_step in E.
    destruct (fill_wet_temp state values) as [[s1 v1]|] eqn:E1;
      cbn [mbind result_bind] in E; [|done].
    destruct (fill_wet_temp_group _ _ _ _ g Hg Hc Hs E1) as [_ H1].
    destruct (fill_wetdry_frame s1 v1 state' values' E) as [Hfv Hfs].
    assert (Hgw : g ≠ "wetdry" ∧ g ≠ "duration").
    { destruct (WET_TEMP_cases g Hg) as [-> | [-> | [-> | ->]]]; by split. }
    destruct Hgw as [Hgw Hgd]. unfold held.
    rewrite Hfv, !Hfs by done.
    destruct (is_defined (values !! "wet_temp_min")).
    + destruct H1 as ([x Hx] & Hsg & Hvg). by rewrite Hx, Hsg, Hvg.
    + destruct H1 as [-> Hvg]. rewrite Hvg.
      by destruct (state !! "wet_temp_min").
Qed.

Lemma interp_items_group gk g items state items' :
  fills gk g →
  Forall (fun kr => complete kr.2) items → state_ok state →
  interp_items state items = Ok items' →
  (fun kr => kr.2 !! g) <$> items' =
  key_fill (held gk g state)
    ((fun kr => (is_defined (kr.2 !! gk), kr.2 !! g)) <$> items).
Proof.
  intros Hf. revert state items'. induction items as [|[k r] items IH];
    intros state items' Hall Hs E.
  - by injection E as <-.
  - apply Forall_cons in Hall as [Hc Hall]. cbn [interp_items] in E.
    destruct (interp_step state r) as [[s' r']|] eqn:E1;
      cbn [mbind result_bind] in E; [|done].
    destruct (interp_items s' items) as [rest|] eqn:E2;
      cbn [mbind result_bind] in E; [|done].
    injection E as <-.
    destruct (interp_step_group gk g state r s' r' Hf Hc Hs E1) as [Hv Hh].
    destruct (interp_step_state_ok state r s' r' Hc Hs E1) as [Hs' _].
    rewrite !fmap_cons. cbn [snd key_fill].
    rewrite (IH s' rest Hall Hs' E2), Hv, Hh.
    by destruct (is_defined (r !! gk)).
Qed.

(** Where no reading up to position [i] defines the key field, the pass
    leaves the value at [i], or puts the value held before the pass. *)
Lemma key_fill_carry cur ws (i : nat) v :
  (∀ j b w, (j ≤ i)%nat → ws !! j = Some (b, w) → b = false) →
  ws !! i = Some (false, v) →
  key_fill cur ws !! i = Some (match cur with Some x => x | None => v end).
Proof.
  revert i. induction ws as [|[b w] ws IH]; intros i Hno Hi; [done|].
  assert (Hb : b = false) by (apply (Hno 0%nat b w); [lia|done]). subst b.
  cbn [key_fill]. destruct i as [|i]; [by injection Hi as ->|].
  cbn [lookup list_lookup]. apply IH; [|done].
  intros j b w' Hj Hw. apply (Hno (S j) b w'); [lia|done].
Qed.

(** After a reading that defines the key field, and up to the next one
    that does, the pass puts the value of that reading. *)
Lemma key_fill_nearest cur ws (i0 i : nat) v :
  ws !! i0 = Some (true, v) → (i0 ≤ i)%nat → (i < length ws)%nat →
  (∀ j b w, (i0 < j ≤ i)%nat → ws !! j = Some (b, w) → b = false) →
  key_fill cur ws !! i = Some v.
Proof.
  revert cur i0 i. induction ws as [|[b w] ws IH]; intros cur i0 i H0 Hle Hlen Hno;
    [done|].
  destruct i0 as [|i0].
  - injection H0 as -> ->. cbn [key_fill]. destruct i as [|i]; [done|].
    cbn [lookup list_lookup]. cbn [length] in Hlen.
    destruct (ws !! i) as [[b' w']|] eqn:Ei.
    2:{ apply lookup_ge_None in Ei. lia. }
    assert (b' = false) as -> by (apply (Hno (S i) b' w'); [lia|done]).
    apply (key_fill_carry (Some v) ws i w'); [|done].
    intros j b'' w'' Hj Hw. apply (Hno (S j) b'' w''); [lia|done].
  - destruct i as [|i]; [lia|]. cbn [length] in Hlen.
    assert (Hrec : ∀ c, key_fill c ws !! i = Some v).
    { intros c. apply (IH c i0 i); [done|lia|lia|].
      intros j b' w' Hj Hw. apply (Hno (S j) b' w'); [lia|done]. }
    cbn [key_fill]. destruct b; cbn [lookup list_lookup]; apply Hrec.
Qed.

Lemma StronglySorted_lookup_lt {A} (R : relation A) (l : list A) (i j : nat) x y :
  StronglySorted R l → l !! i = Some x → l !! j = Some y → (i < j)%nat → R x y.
Proof.
  intros Hs. revert i j. induction Hs as [|z l Hs IH Hall]; intros i j Hi Hj Hlt;
    [done|].
  destruct j as [|j]; [lia|]. cbn [lookup list_lookup] in Hj.
  destruct i as [|i].
  - injection Hi as ->. eapply Forall_forall in Hall; [done|].
    by eapply list_elem_of_lookup_2.
  - cbn [lookup list_lookup] in Hi. apply (IH i j); [done..|lia].
Qed.

Lemma od_get_lookup {V} (d : odict V) k v (i : nat) :
  NoDup (od_keys d) → d !! i = Some (k, v) → od_get d k = Some v.
Proof.
  intros Hnd Hi. apply od_elem_get; [done|]. by eapply list_elem_of_lookup_2.
Qed.

Lemma od_lookup_get {V} (d : odict V) k v :
  od_get d k = Some v → ∃ i : nat, d !! i = Some (k, v).
Proof. intros H. apply od_get_elem in H. by apply list_elem_of_lookup_1. Qed.

Lemma od_keys_lookup {V} (d : odict V) (i : nat) :
  od_keys d !! i = fst <$> d !! i.
Proof. unfold od_keys. apply list_lookup_fmap. Qed.

(** The stage, seen through one field: [temp] is the timeline latest
    first, and [out] holds at each key what the pass over [temp] leaves
    at the position of the key. *)
Lemma interpolate_positions gk g output :
  fills gk g → merged output →
  ∃ temp out,
    interpolate output = Ok out ∧
    NoDup (od_keys temp) ∧ StronglySorted str_ge (od_keys temp) ∧
    (∀ k, od_get temp k = od_get output k) ∧
    ∀ (i : nat) k r, temp !! i = Some (k, r) →
      ∃ r', od_get out k = Some r' ∧
        Some (r' !! g) =
        key_fill None ((fun kr => (is_defined (kr.2 !! gk), kr.2 !! g)) <$> temp)
          !! i.
Proof.
  intros Hf Hm.
  destruct (interpolate_stages output Hm)
    as (temp & temp' & out & Et & Hkt & Hgt & Ei & Eo & Hko & Hkt' & Hgo).
  assert (Hnd : NoDup (od_keys temp))
    by (rewrite Hkt; apply py_sorted_NoDup, Hm).
  assert (Hall : Forall (fun kr => complete kr.2) temp).
  { apply Forall_forall. intros [k0 r0] Hel. simpl. apply (proj2 Hm k0).
    rewrite <- Hgt. by apply od_elem_get. }
  pose proof (interp_items_group gk g temp ∅ temp' Hf Hall state_ok_empty Ei)
    as Hfill.
  assert (Hheld : held gk g ∅ = None) by (unfold held; by rewrite lookup_empty).
  rewrite Hheld in Hfill.
  exists temp, out. split; [done|]. split; [done|]. split.
  { rewrite Hkt. apply py_sorted_descending. }
  split; [done|]. intros i k r Hi.
  assert (Hki : od_keys temp' !! i = Some k).
  { rewrite Hkt', od_keys_lookup, Hi. done. }
  unfold od_keys in Hki.
  apply list_lookup_fmap_Some_1 in Hki as ([k' r'] & Hk' & Ei').
  cbn in Hk'. subst k'. exists r'. split.
  - rewrite Hgo. apply (od_get_lookup temp' k r' i); [by rewrite Hkt'|done].
  - rewrite <- Hfill. symmetry.
    exact (list_lookup_fmap_Some_2 (fun kr => kr.2 !! g) temp' i (k, r') Ei').
Qed.

(** X13. The forward fill, as the loop does it: a reading takes the
    fields of a group from the nearest reading at or after its own time
    that defines the key field of the group ([wetdry] for [wetdry],
    [wet_temp_min] for the four wet-temperature fields). *)
Theorem forward_fill_from_nearest (gk g : string)
    (output : odict (gmap string (option string))) (k k0 : string)
    (r0 : gmap string (option string)) :
  fills gk g →
  merged output →
  k ∈ od_keys output →
  od_get output k0 = Some r0 →
  defined (r0 !! gk) →
  String.le k k0 →
  (∀ j rj, od_get output j = Some rj →
     String.le k j → String.le j k0 → j ≠ k0 → ¬ defined (rj !! gk)) →
  ∃ out r', interpolate output = Ok out ∧ od_get out k = Some r' ∧
    r' !! g = r0 !! g.
Proof.
  intros Hf Hm Hk Hr0 Hd0 Hle Hbetween.
  destruct (interpolate_positions gk g output Hf Hm)
    as (temp & out & Eo & Hnd & Hs & Hgt & Hpos).
  apply od_get_is_Some in Hk as [r Hr].
  rewrite <- Hgt in Hr, Hr0.
  destruct (od_lookup_get temp k r Hr) as [i Hi].
  destruct (od_lookup_get temp k0 r0 Hr0) as [i0 Hi0].
  assert (Hki : ∀ (j : nat) kj rj, temp !! j = Some (kj, rj) →
            od_keys temp !! j = Some kj).
  { intros j kj rj Hj. by rewrite od_keys_lookup, Hj. }
  assert (Hi0i : (i0 ≤ i)%nat).
  { destruct (decide (i0 ≤ i)%nat) as [|Hgt']; [done|]. exfalso.
    assert (Hge : str_ge k k0).
    { apply (StronglySorted_lookup_lt str_ge (od_keys temp) i i0);
        [done|by eapply Hki..|lia]. }
    assert (k = k0) by (by apply (anti_symm String.le)). subst k0.
    pose proof (NoDup_lookup _ i i0 k Hnd (Hki _ _ _ Hi) (Hki _ _ _ Hi0)). lia. }
  destruct (Hpos i k r Hi) as (r' & Hr' & Hfill).
  exists out, r'. split; [done|]. split; [done|].
  rewrite (key_fill_nearest None _ i0 i (r0 !! g)) in Hfill.
  - by injection Hfill.
  - apply is_defined_true in Hd0. rewrite <- Hd0.
    exact (list_lookup_fmap_Some_2
             (fun kr => (is_defined (kr.2 !! gk), kr.2 !! g)) temp i0 (k0, r0) Hi0).
  - done.
  - rewrite length_fmap. by eapply lookup_lt_Some.
  - intros j b w Hj Hw.
    apply list_lookup_fmap_Some_1 in Hw as ([kj rj] & Hbw & Ej).
    cbn in Hbw. injection Hbw as -> ->.
    destruct (is_defined (rj !! gk)) eqn:Ed; [|done]. exfalso.
    apply is_defined_true in Ed.
    apply (Hbetween kj rj); [| | | |done].
    + rewrite <- Hgt. by eapply od_get_lookup.
    + destruct (decide (j = i)) as [->|Hne].
      * pose proof (eq_trans (eq_sym Hi) Ej) as Heq.
        injection Heq as <- <-. done.
      * apply (StronglySorted_lookup_lt str_ge (od_keys temp) j i kj k);
          [done|by eapply Hki..|lia].
    + apply (StronglySorted_lookup_lt str_ge (od_keys temp) i0 j k0 kj);
        [done|by eapply Hki..|lia].
    + intros ->.
      pose proof (NoDup_lookup _ j i0 k0 Hnd (Hki _ _ _ Ej) (Hki _ _ _ Hi0)).
      lia.
Qed.

(** X14. A reading that no reading at or after its own time covers keeps
    its fields of the group: the fill never goes from an older reading to
    a newer one. *)
Theorem forward_fill_nothing_newer (gk g : string)
    (output : odict (gmap string (option string))) (k : string)
    (r : gmap string (option string)) :
  fills gk g →
  merged output →
  od_get output k = Some r →
  (∀ j rj, od_get output j = Some rj → String.le k j → ¬ defined (rj !! gk)) →
  ∃ out r', interpolate output = Ok out ∧ od_get out k = Some r' ∧
    r' !! g = r !! g.
Proof.
  intros Hf Hm Hr Hnone.
  destruct (interpolate_positions gk g output Hf Hm)
    as (temp & out & Eo & Hnd & Hs & Hgt & Hpos).
  rewrite <- Hgt in Hr.
  destruct (od_lookup_get temp k r Hr) as [i Hi].
  assert (Hki : ∀ (j : nat) kj rj, temp !! j = Some (kj, rj) →
            od_keys temp !! j = Some kj).
  { intros j kj rj Hj. by rewrite od_keys_lookup, Hj. }
  destruct (Hpos i k r Hi) as (r' & Hr' & Hfill).
  exists out, r'. split; [done|]. split; [done|].
  assert (Hundef : ∀ (j : nat) kj rj, (j ≤ i)%nat → temp !! j = Some (kj, rj) →
            is_defined (rj !! gk) = false).
  { intros j kj rj Hj Ej.
    destruct (is_defined (rj !! gk)) eqn:Ed; [|done]. exfalso.
    apply is_defined_true in Ed. apply (Hnone kj rj); [| |done].
    - rewrite <- Hgt. by eapply od_get_lookup.
    - destruct (decide (j = i)) as [->|Hne].
      + pose proof (eq_trans (eq_sym Hi) Ej) as Heq.
        injection Heq as <- <-. done.
      + apply (StronglySorted_lookup_lt str_ge (od_keys temp) j i kj k);
          [done|by eapply Hki..|lia]. }
  rewrite (key_fill_carry None _ i (r !! g)) in Hfill.
  - by injection Hfill.
  - intros j b w Hj Hw.
    apply list_lookup_fmap_Some_1 in Hw as ([kj rj] & Hbw & Ej).
    cbn in Hbw. injection Hbw as -> ->. by eapply Hundef.
  - rewrite <- (Hundef i k r (le_n i) Hi).
    exact (list_lookup_fmap_Some_2
             (fun kr => (is_defined (kr.2 !! gk), kr.2 !! g)) temp i (k, r) Hi).
Qed.

(** ** Lines the parser ignores, and the header patterns *)

Lemma lstrip_spaces s : all_chars is_space s = true → lstrip s = "".
Proof.
  induction s as [|c s IH]; [done|]. cbn [all_chars lstrip].
  intros [Hc Hs]%andb_true_iff. rewrite Hc. by apply IH.
Qed.

Lemma column_header_only line g :
  match_column_header line = Some g →
  match_programmed line = None ∧ match_end line = None ∧
  match_drift line = None.
Proof.
  unfold match_column_header.
  destruct (strip_prefix _ line) as [rest|] eqn:E; [|done].
  intros _. apply strip_prefix_Some in E as ->. done.
Qed.

Lemma programmed_only line g :
  match_programmed line = Some g →
  match_end line = None ∧ match_drift line = None.
Proof.
  unfold match_programmed.
  destruct (strip_prefix _ line) as [rest|] eqn:E; [|done].
  intros _. apply strip_prefix_Some in E as ->. done.
Qed.

Lemma end_only line g : match_end line = Some g → match_drift line = None.
Proof.
  unfold match_end.
  destruct (strip_prefix _ line) as [rest|] eqn:E; [|done].
  intros _. apply strip_prefix_Some in E as ->. done.
Qed.

(** X15. No line matches two of the four header patterns: the order of
    the branches that test them does not matter. *)
Theorem header_patterns_exclusive (line : string) :
  (length (header_matches line) ≤ 1)%nat.
Proof.
  unfold header_matches.
  destruct (match_column_header line) as [g|] eqn:E1.
  { destruct (column_header_only line g E1) as (-> & -> & ->). cbn. lia. }
  destruct (match_programmed line) as [g|] eqn:E2.
  { destruct (programmed_only line g E2) as (-> & ->). cbn. lia. }
  destruct (match_end line) as [g|] eqn:E3.
  { rewrite (end_only line g E3). cbn. lia. }
  destruct (match_drift line); cbn; lia.
Qed.

Section Lines.
Variable tz : zone.

(** X16. A line of white space only is ignored, in the header and in the
    data section alike. *)
Theorem blank_line_ignored (st : parser_state) (raw : string) :
  all_chars is_space raw = true →
  process_line tz st raw = Ok st.
Proof.
  intros Hs. unfold process_line, strip. rewrite (lstrip_spaces raw Hs).
  cbn [rstrip]. by destruct (in_data st).
Qed.
End Lines.

(** ** Rows of the data section *)

Lemma getindex_Ok row i x : getindex row i = Ok x → row !! i = Some x.
Proof. unfold getindex. destruct (row !! i); [by intros [= ->]|done]. Qed.

Lemma getindex_short row i : (length row ≤ i)%nat → getindex row i = Raise IndexError.
Proof.
  intros H. unfold getindex. by rewrite (lookup_ge_None_2 row i H).
Qed.

Lemma getindex_raise row i e : getindex row i = Raise e → e = IndexError.
Proof. unfold getindex. destruct (row !! i); [done|by intros [= <-]]. Qed.

Lemma FIELD_KINDS_cases f :
  f ∈ FIELD_KINDS →
  f = "temp" ∨ f = "light" ∨ f = "wets" ∨ f = "wet_temp_min" ∨ f = "wetdry".
Proof.
  intros H. apply list_elem_of_In in H. cbn [In FIELD_KINDS] in H.
  destruct H as [<-|[<-|[<-|[<-|[<-|[]]]]]]; tauto.
Qed.

Section Rows.
Variable tz : zone.

Lemma parse_time_empty : parse_time tz "" = 0.
Proof. reflexivity. Qed.

(** X17. A row of the data section that has a time, whose three times
    format, and that has fewer columns than the field kind reads stops
    the parsing of the file with an [IndexError]: it is not skipped as a
    row without a time is, and the handler of the loop, which catches
    [IOError] only, lets the exception pass. *)
Theorem short_row_is_fatal (pre post : list string) (raw row0 f : string)
    (rest : list string) (st : parser_state) (adjtime loctime : pynum)
    (atime ts ls : string) :
  process_lines tz initial_state pre = Ok st →
  in_data st = true →
  field st = Some f →
  split tab (strip raw) = row0 :: rest →
  1 ≤ parse_time tz row0 →
  adjusted_time st (parse_time tz row0) = Ok adjtime →
  py_sub adjtime (PInt (3600 * timezone_offset)) = Ok loctime →
  time_to_string tz adjtime = Ok atime →
  time_to_string tz (PInt (parse_time tz row0)) = Ok ts →
  time_to_string tz loctime = Ok ls →
  (length (row0 :: rest) < columns_needed f)%nat →
  process_line tz st raw = Raise IndexError ∧
  read_data_file tz (Some (pre ++ raw :: post)) = Raise IndexError.
Proof.
  intros Hpre Hin Ef Hrow Ht Ha Hl Hat Hts Hls Hlen.
  enough (process_line tz st raw = Raise IndexError) as He.
  { split; [done|]. by apply (read_data_file_raises tz st). }
  unfold process_line. rewrite Hin. unfold data_line. rewrite Hrow.
  cbn [getindex lookup list_lookup mbind result_bind].
  rewrite decide_False
    by (intros ->; rewrite parse_time_empty in Ht; lia).
  destruct (parse_time tz row0 <? 1) eqn:E; [lia|].
  unfold adjusted_time in Ha.
  destruct (py_mul _ _) as [skew|]; cbn [mbind result_bind] in Ha |- *;
    [|done].
  rewrite Ha. cbn [mbind result_bind]. rewrite Hl. cbn [mbind result_bind].
  rewrite Hat. cbn [mbind result_bind]. rewrite Hts.
  cbn [mbind result_bind]. rewrite Hls. cbn [mbind result_bind].
  rewrite Ef. unfold columns_needed in Hlen.
  destruct (decide (f = "wetdry")) as [->|Hn1].
  { rewrite decide_True by done. rewrite (getindex_short _ 2) by lia.
    done. }
  rewrite decide_False by congruence.
  destruct (decide (f = "wet_temp_min")) as [->|Hn2].
  { rewrite decide_True by done.
    destruct (getindex _ 1) as [r1|e1] eqn:E1; cbn [mbind result_bind];
      [|by rewrite (getindex_raise _ _ _ E1)].
    destruct (getindex _ 2) as [r2|e2] eqn:E2; cbn [mbind result_bind];
      [|by rewrite (getindex_raise _ _ _ E2)].
    destruct (getindex _ 3) as [r3|e3] eqn:E3; cbn [mbind result_bind];
      [|by rewrite (getindex_raise _ _ _ E3)].
    rewrite (getindex_short _ 4) by lia. done. }
  rewrite decide_False by congruence.
  rewrite (getindex_short _ 1) by lia. done.
Qed.

(** X18. What a row of the data section stores. The reading at the key of
    the adjusted time gets the formatted time of the row as [time], the
    formatted adjusted time less four hours as [localtime], and the
    columns of the field kind: [wetdry] from the third column and
    [duration] from the second, the four wet-temperature fields from the
    second to the fifth column, any other field from the second. The
    other fields of that reading and all other readings stay as they
    were. *)
Theorem data_row_columns (st st' : parser_state) (raw row0 f : string)
    (rest : list string) :
  in_data st = true →
  field st = Some f →
  f ∈ FIELD_KINDS →
  split tab (strip raw) = row0 :: rest →
  1 ≤ parse_time tz row0 →
  process_line tz st raw = Ok st' →
  ∃ adjtime loctime atime ts ls r,
    adjusted_time st (parse_time tz row0) = Ok adjtime ∧
    time_to_string tz adjtime = Ok atime ∧
    time_to_string tz (PInt (parse_time tz row0)) = Ok ts ∧
    py_sub adjtime (PInt (3600 * timezone_offset)) = Ok loctime ∧
    time_to_string tz loctime = Ok ls ∧
    od_get (data st') atime = Some r ∧
    r !! "time" = Some ts ∧
    r !! "localtime" = Some ls ∧
    (∀ g i, (g, i) ∈ row_fields f →
       is_Some (r !! g) ∧ r !! g = (row0 :: rest) !! i) ∧
    (∀ g, g ∉ "time" :: "localtime" :: (row_fields f).*1 →
       r !! g = od_get (data st) atime ≫= (.!! g)) ∧
    (∀ k, k ≠ atime → od_get (data st') k = od_get (data st) k).
Proof.
  intros Hin Ef Hfk Hrow Ht Hp.
  unfold process_line in Hp. rewrite Hin in Hp. unfold data_line in Hp.
  rewrite Hrow in Hp.
  cbn [getindex lookup list_lookup mbind result_bind] in Hp.
  rewrite decide_False in Hp
    by (intros ->; rewrite parse_time_empty in Ht; lia).
  set (time := parse_time tz row0) in *.
  destruct (time <? 1) eqn:E; [lia|]. unfold adjusted_time.
  destruct (py_mul _ _) as [skew|] eqn:Es;
    cbn [mbind result_bind] in Hp |- *; [|done].
  destruct (py_add _ _) as [adjtime|] eqn:Ea;
    cbn [mbind result_bind] in Hp; [|done].
  destruct (py_sub _ _) as [loctime|] eqn:El;
    cbn [mbind result_bind] in Hp; [|done].
  destruct (time_to_string _ adjtime) as [atime|] eqn:Eat;
    cbn [mbind result_bind] in Hp; [|done].
  destruct (time_to_string _ (PInt _)) as [ts|] eqn:Ets;
    cbn [mbind result_bind] in Hp; [|done].
  destruct (time_to_string _ loctime) as [ls|] eqn:Els;
    cbn [mbind result_bind] in Hp; [|done].
  exists adjtime, loctime, atime, ts, ls.
  set (data1 := if od_mem atime (data st) then data st
                else od_set (data st) atime ∅) in Hp.
  set (r0 := default ∅ (od_get (data st) atime)).
  assert (H1 : od_get data1 atime = Some r0).
  { unfold data1, r0, od_mem.
    destruct (od_get (data st) atime) as [x|] eqn:Ex; [done|].
    by rewrite od_get_set_eq. }
  assert (H1' : ∀ k, k ≠ atime → od_get data1 k = od_get (data st) k).
  { intros k Hk. unfold data1. destruct (od_mem atime (data st)); [done|].
    by rewrite od_get_set_ne. }
  assert (Hr0 : ∀ g, r0 !! g = od_get (data st) atime ≫= (.!! g)).
  { intros g. unfold r0. destruct (od_get (data st) atime); [done|].
    apply lookup_empty. }
  clearbody data1 r0. rewrite Ef in Hp.
  assert (Hft : f ≠ "time" ∧ f ≠ "localtime").
  { destruct (FIELD_KINDS_cases f Hfk) as [-> | [-> | [-> | [-> | ->]]]];
      by split. }
  unfold row_fields.
  destruct (decide (f = "wetdry")) as [->|Hn1].
  { rewrite decide_True in Hp by done.
    destruct (getindex _ 2) as [r2|] eqn:E2;
      cbn [mbind result_bind] in Hp; [|done].
    destruct (getindex _ 1) as [r1|] eqn:E1;
      cbn [mbind result_bind] in Hp; [|done].
    apply getindex_Ok in E1, E2. injection Hp as <-. cbn [data set_data].
    eexists. do 5 (split; [done|]).
    split; [rewrite !od_get_alter_eq, H1; reflexivity|].
    split; [by rewrite !lookup_insert_ne, lookup_insert_eq by done|].
    split; [by rewrite !lookup_insert_ne, lookup_insert_eq by done|].
    split; [|split].
    - intros g i Hgi. apply list_elem_of_In in Hgi. cbn [In] in Hgi.
      destruct Hgi as [[= <- <-]|[[= <- <-]|[]]].
      + rewrite lookup_insert_ne, lookup_insert_eq by done. eauto.
      + rewrite lookup_insert_eq. eauto.
    - intros g Hg. cbn in Hg. rewrite !not_elem_of_cons in Hg.
      rewrite <- Hr0.
      by rewrite !lookup_insert_ne by (intros <-; intuition).
    - intros k Hk. rewrite !od_get_alter_ne by done. by apply H1'. }
  rewrite decide_False in Hp by congruence.
  destruct (decide (f = "wet_temp_min")) as [->|Hn2].
  { rewrite decide_True in Hp by done.
    destruct (getindex _ 1) as [r1|] eqn:E1;
      cbn [mbind result_bind] in Hp; [|done].
    destruct (getindex _ 2) as [r2|] eqn:E2;
      cbn [mbind result_bind] in Hp; [|done].
    destruct (getindex _ 3) as [r3|] eqn:E3;
      cbn [mbind result_bind] in Hp; [|done].
    destruct (getindex _ 4) as [r4|] eqn:E4;
      cbn [mbind result_bind] in Hp; [|done].
    apply getindex_Ok in E1, E2, E3, E4. injection Hp as <-.
    cbn [data set_data].
    eexists. do 5 (split; [done|]).
    split; [rewrite !od_get_alter_eq, H1; reflexivity|].
    split; [by rewrite !lookup_insert_ne, lookup_insert_eq by done|].
    split; [by rewrite !lookup_insert_ne, lookup_insert_eq by done|].
    split; [|split].
    - intros g i Hgi. apply list_elem_of_In in Hgi. cbn [In] in Hgi.
      destruct Hgi as [[= <- <-]|[[= <- <-]|[[= <- <-]|[[= <- <-]|[]]]]].
      + rewrite !lookup_insert_ne, lookup_insert_eq by done. eauto.
      + rewrite !lookup_insert_ne, lookup_insert_eq by done. eauto.
      + rewrite lookup_insert_ne, lookup_insert_eq by done. eauto.
      + rewrite lookup_insert_eq. eauto.
    - intros g Hg. cbn in Hg. rewrite !not_elem_of_cons in Hg.
      rewrite <- Hr0.
      by rewrite !lookup_insert_ne by (intros <-; intuition).
    - intros k Hk. rewrite !od_get_alter_ne by done. by apply H1'. }
  rewrite decide_False in Hp by congruence.
  destruct (getindex _ 1) as [r1|] eqn:E1;
    cbn [mbind result_bind] in Hp; [|done].
  apply getindex_Ok in E1. injection Hp as <-. cbn [data set_data].
  destruct Hft as [Hft1 Hft2].
  eexists. do 5 (split; [done|]).
  split; [rewrite !od_get_alter_eq, H1; reflexivity|].
  split; [by rewrite !lookup_insert_ne, lookup_insert_eq by done|].
  split; [by rewrite !lookup_insert_ne, lookup_insert_eq by done|].
  split; [|split].
  - intros g i Hgi. apply list_elem_of_In in Hgi. cbn [In] in Hgi.
    destruct Hgi as [[= <- <-]|[]]. rewrite lookup_insert_eq. eauto.
  - intros g Hg. cbn in Hg. rewrite !not_elem_of_cons in Hg.
    rewrite <- Hr0.
    by rewrite !lookup_insert_ne by (intros <-; intuition).
  - intros k Hk. rewrite !od_get_alter_ne by done. by apply H1'.
Qed.
End Rows.

(** ** Instances on the sample data *)

Lemma read_data_file_readings_witness :
  NoDup (od_keys (data_of (read_data_file UTC (Some drift_file)))) ∧
  ∀ k r, od_get (data_of (read_data_file UTC (Some drift_file))) k = Some r →
    is_Some (r !! "time") ∧ is_Some (r !! "localtime") ∧
    ∀ g, is_Some (r !! g) → g ∈ FIELD_NAMES.
Proof.
  apply (read_data_file_readings UTC (Some drift_file)).
  vm_compute. reflexivity.
Defined.

Lemma data_section_is_final_witness :
  let st' := state_of (process_lines UTC temp_state
                         ["Drift (secs): 3."; temp_header; drift_row]) in
  in_data st' = true ∧ field st' = field temp_state ∧
  start st' = start temp_state ∧ end_ st' = end_ temp_state ∧
  drift st' = drift temp_state ∧ dps st' = dps temp_state.
Proof.
  apply (data_section_is_final UTC temp_state _
           ["Drift (secs): 3."; temp_header; drift_row]).
  - reflexivity.
  - vm_compute. reflexivity.
Defined.

Lemma data_section_field_witness :
  ∃ f, field drift_state = Some f ∧ f ∈ FIELD_KINDS.
Proof.
  apply (data_section_field UTC drift_header drift_state).
  - vm_compute. reflexivity.
  - vm_compute. reflexivity.
Defined.

Lemma no_column_header_no_data_witness :
  data_of (read_data_file UTC (Some headerless_file)) = [].
Proof.
  apply (no_column_header_no_data UTC headerless_file).
  - intros l Hl. apply list_elem_of_In in Hl. cbn [In headerless_file] in Hl.
    destruct Hl as [<-|[<-|[]]]; vm_compute; reflexivity.
  - vm_compute. reflexivity.
Defined.

Lemma no_drift_key_is_time_witness :
  reading_at (data_of (read_data_file UTC (Some temp_file)))
    "2022-01-01 00:00:02" !! "time" = Some "2022-01-01 00:00:02".
Proof.
  apply (no_drift_key_is_time UTC temp_file
           (data_of (read_data_file UTC (Some temp_file)))).
  - intros l Hl. apply list_elem_of_In in Hl. cbn [In temp_file] in Hl.
    destruct Hl as [<-|[<-|[<-|[<-|[]]]]]; vm_compute; reflexivity.
  - vm_compute. reflexivity.
  - vm_compute. reflexivity.
Defined.

Lemma merge_file_twice_witness :
  merge_file (merge_file (foldl merge_file [] [temp_data]) wetdry_data)
    wetdry_data =
  merge_file (foldl merge_file [] [temp_data]) wetdry_data.
Proof.
  apply (merge_file_twice (foldl merge_file [] [temp_data]) wetdry_data).
  - apply (bool_decide_unpack _). vm_compute. exact I.
  - apply (bool_decide_unpack _). vm_compute. exact I.
Defined.

Lemma driftadj_file_ignored_witness :
  main UTC sample_files =
  main UTC [("logs/a.deg", Some drift_file); ("logs/b.lux", None)].
Proof.
  apply (driftadj_file_ignored UTC [("logs/a.deg", Some drift_file)]
           [("logs/b.lux", None)] "logs/a_driftadj.deg" (Some zero_window_file)).
  vm_compute. reflexivity.
Defined.

Lemma run_fails_only_in_a_file_witness :
  ∃ file contents,
    (file, contents) ∈ [("logs/a.deg", Some zero_window_file)] ∧
    contains "driftadj" file = false ∧
    read_data_file UTC contents = Raise ZeroDivisionError.
Proof.
  apply (run_fails_only_in_a_file UTC [("logs/a.deg", Some zero_window_file)]).
  vm_compute. reflexivity.
Defined.

Lemma interpolation_keeps_defined_witness :
  ∃ out r', interpolate five_readings = Ok out ∧
    od_get out "2022-01-01 00:00:02" = Some r' ∧
    r' !! "wetdry" = Some (Some "dry").
Proof.
  destruct (interpolation_keeps_defined five_readings "2022-01-01 00:00:02"
              (reading_at five_readings "2022-01-01 00:00:02"))
    as (out & r' & Eo & Hr' & Hw & _).
  - exact five_readings_merged.
  - vm_compute. reflexivity.
  - exists out, r'. split; [exact Eo|]. split; [exact Hr'|].
    rewrite Hw; [vm_compute; reflexivity|].
    exists "dry". vm_compute. reflexivity.
Defined.

Lemma nothing_to_interpolate_witness :
  ∃ out, interpolate temp_light_readings = Ok out ∧
    od_keys out = py_sorted false (od_keys temp_light_readings) ∧
    ∀ k, od_get out k = od_get temp_light_readings k.
Proof.
  apply (nothing_to_interpolate temp_light_readings).
  - apply merge_files_merged, merged_nil.
  - assert (HF : Forall (fun kr : string * gmap string (option string) =>
                           kr.2 !! "wetdry" = Some None ∧
                           kr.2 !! "wet_temp_min" = Some None)
                   temp_light_readings)
      by (apply (bool_decide_unpack _); vm_compute; exact I).
    intros k r Hk. apply od_get_elem in Hk.
    exact (proj1 (Forall_forall _ _) HF (k, r) Hk).
Defined.

Lemma forward_fill_from_nearest_witness :
  ∃ out r', interpolate five_readings = Ok out ∧
    od_get out "2022-01-01 00:00:03" = Some r' ∧
    r' !! "wetdry" = Some (Some "wet").
Proof.
  destruct (forward_fill_from_nearest "wetdry" "wetdry" five_readings
              "2022-01-01 00:00:03" "2022-01-01 00:00:05"
              (reading_at five_readings "2022-01-01 00:00:05"))
    as (out & r' & Eo & Hr' & Hw).
  - left. split; reflexivity.
  - exact five_readings_merged.
  - apply (bool_decide_unpack _). vm_compute. exact I.
  - vm_compute. reflexivity.
  - exists "wet". vm_compute. reflexivity.
  - apply (bool_decide_unpack _). vm_compute. exact I.
  - assert (HF : Forall (fun kr : string * gmap string (option string) =>
                           String.le "2022-01-01 00:00:03" kr.1 →
                           String.le kr.1 "2022-01-01 00:00:05" →
                           kr.1 ≠ "2022-01-01 00:00:05" →
                           is_defined (kr.2 !! "wetdry") = false)
                   five_readings)
      by (apply (bool_decide_unpack _); vm_compute; exact I).
    intros j rj Hj H1 H2 H3 Hd. apply od_get_elem in Hj.
    pose proof (proj1 (Forall_forall _ _) HF (j, rj) Hj H1 H2 H3) as Hn.
    apply is_defined_true in Hd. cbn [snd] in Hn. congruence.
  - exists out, r'. split; [exact Eo|]. split; [exact Hr'|].
    rewrite Hw. vm_compute. reflexivity.
Defined.

Lemma forward_fill_nothing_newer_witness :
  ∃ out r', interpolate early_readings = Ok out ∧
    od_get out "2022-01-01 00:00:04" = Some r' ∧
    r' !! "wetdry" = Some None.
Proof.
  destruct (forward_fill_nothing_newer "wetdry" "wetdry"
              early_readings "2022-01-01 00:00:04"
              (reading_at early_readings "2022-01-01 00:00:04"))
    as (out & r' & Eo & Hr' & Hw).
  - left. split; reflexivity.
  - apply merge_files_merged, merged_nil.
  - vm_compute. reflexivity.
  - assert (HF : Forall (fun kr : string * gmap string (option string) =>
                           String.le "2022-01-01 00:00:04" kr.1 →
                           is_defined (kr.2 !! "wetdry") = false)
                   early_readings)
      by (apply (bool_decide_unpack _); vm_compute; exact I).
    intros j rj Hj Hle Hd. apply od_get_elem in Hj.
    pose proof (proj1 (Forall_forall _ _) HF (j, rj) Hj Hle) as Hn.
    apply is_defined_true in Hd. cbn [snd] in Hn. congruence.
  - exists out, r'. split; [exact Eo|]. split; [exact Hr'|].
    rewrite Hw. vm_compute. reflexivity.
Defined.

Lemma blank_line_ignored_witness :
  process_line UTC temp_state (String tab "  ") = Ok temp_state.
Proof.
  apply (blank_line_ignored UTC temp_state (String tab "  ")).
  vm_compute. reflexivity.
Defined.

Lemma short_row_is_fatal_witness :
  process_line UTC temp_state "01/01/2022 00:00:01" = Raise IndexError ∧
  read_data_file UTC (Some short_row_file) = Raise IndexError.
Proof.
  apply (short_row_is_fatal UTC [temp_header] [] "01/01/2022 00:00:01"
           "01/01/2022 00:00:01" "temp" [] temp_state
           (PInt 1640995201) (PInt 1640980801)
           "2022-01-01 00:00:01" "2022-01-01 00:00:01" "2021-12-31 20:00:01").
  - vm_compute. reflexivity.
  - reflexivity.
  - reflexivity.
  - vm_compute. reflexivity.
  - vm_compute. discriminate.
  - vm_compute. reflexivity.
  - vm_compute. reflexivity.
  - vm_compute. reflexivity.
  - vm_compute. reflexivity.
  - vm_compute. reflexivity.
  - vm_compute. lia.
Defined.

Lemma data_row_columns_witness :
  ∃ atime r, od_get (data drift_state') atime = Some r ∧
    r !! "time" = Some "2022-01-01 00:00:01" ∧
    r !! "temp" = Some "20.5".
Proof.
  destruct (data_row_columns UTC drift_state drift_state' drift_row
              "01/01/2022 00:00:01" "temp" ["20.5"])
    as (adjtime & loctime & atime & ts & ls & r
        & _ & _ & Hts & _ & _ & Hr & Ht & _ & Hf & _).
  - vm_compute. reflexivity.
  - vm_compute. reflexivity.
  - apply (bool_decide_unpack _). vm_compute. exact I.
  - vm_compute. reflexivity.
  - vm_compute. discriminate.
  - vm_compute. reflexivity.
  - exists atime, r. split; [exact Hr|]. split.
    + rewrite Ht. f_equal.
      assert (E : time_to_string UTC (PInt (parse_time UTC "01/01/2022 00:00:01"))
                  = Ok "2022-01-01 00:00:01") by (vm_compute; reflexivity).
      rewrite E in Hts. by injection Hts as <-.
    + destruct (Hf "temp" 1%nat) as [_ ->]; [|reflexivity].
      apply (bool_decide_unpack _). vm_compute. exact I.
Defined.

(** ** [strptime] on the timestamps of the logger *)

Lemma digit_val_char v : 0 ≤ v ≤ 9 → digit_val (digit_char v) = Some v.
Proof.
  intros H.
  assert (Hc : v = 0 ∨ v = 1 ∨ v = 2 ∨ v = 3 ∨ v = 4 ∨ v = 5 ∨ v = 6 ∨ v = 7
               ∨ v = 8 ∨ v = 9) by lia.
  destruct Hc as [->|[->|[->|[->|[->|[->|[->|[->|[->| ->]]]]]]]]]; reflexivity.
Qed.

Section RegexOnDigits.
Context {A : Type}.
Implicit Types (k : Z → string → option A) (r : string).

Lemma re_digit_char lo hi k v r :
  0 ≤ v ≤ 9 → lo ≤ v ≤ hi →
  re_digit lo hi k (String (digit_char v) r) = k v r.
Proof.
  intros Hv Hr. unfold re_digit. rewrite (digit_val_char v Hv).
  destruct (Z.leb_spec lo v); [|lia]. destruct (Z.leb_spec v hi); [|lia]. done.
Qed.

Lemma re_digit_out lo hi k v r :
  0 ≤ v ≤ 9 → ¬ (lo ≤ v ≤ hi) →
  re_digit lo hi k (String (digit_char v) r) = None.
Proof.
  intros Hv Hr. unfold re_digit. rewrite (digit_val_char v Hv).
  destruct (Z.leb_spec lo v); [|done]. destruct (Z.leb_spec v hi); [lia|done].
Qed.

Lemma re_2digits_char lo1 hi1 lo2 hi2 k a b r :
  0 ≤ a ≤ 9 → 0 ≤ b ≤ 9 → lo1 ≤ a ≤ hi1 → lo2 ≤ b ≤ hi2 →
  re_2digits lo1 hi1 lo2 hi2 k (String (digit_char a) (String (digit_char b) r))
  = k (10 * a + b) r.
Proof.
  intros Ha Hb Ha' Hb'. unfold re_2digits.
  rewrite re_digit_char by done. by rewrite re_digit_char.
Qed.

Lemma re_2digits_out lo1 hi1 lo2 hi2 k a r :
  0 ≤ a ≤ 9 → ¬ (lo1 ≤ a ≤ hi1) →
  re_2digits lo1 hi1 lo2 hi2 k (String (digit_char a) r) = None.
Proof. intros Ha Ha'. unfold re_2digits. by rewrite re_digit_out. Qed.

Lemma pad2_append n r :
  pad2 n +:+ r =
  String (digit_char (n / 10 mod 10)) (String (digit_char (n mod 10)) r).
Proof. reflexivity. Qed.

Lemma pad4_append n r :
  pad4 n +:+ r =
  String (digit_char (n / 1000 mod 10)) (String (digit_char (n / 100 mod 10))
    (String (digit_char (n / 10 mod 10)) (String (digit_char (n mod 10)) r))).
Proof. reflexivity. Qed.

Lemma re_d_pad2 k d r x :
  1 ≤ d ≤ 31 → k d r = Some x → re_d k (pad2 d +:+ r) = Some x.
Proof.
  intros Hd Hk. rewrite pad2_append.
  set (a := d / 10 mod 10). set (b := d mod 10).
  assert (Ha : 0 ≤ a ≤ 3) by (unfold a; Z.div_mod_to_equations; lia).
  assert (Hb : 0 ≤ b ≤ 9) by (unfold b; Z.div_mod_to_equations; lia).
  assert (Hab : 10 * a + b = d) by (unfold a, b; Z.div_mod_to_equations; lia).
  unfold re_d, re_alt.
  destruct (decide (a = 3)) as [Ha3|Ha3].
  { rewrite re_2digits_char by lia. by rewrite Hab, Hk. }
  rewrite re_2digits_out by lia.
  destruct (decide (a = 0)) as [Ha0|Ha0].
  - rewrite re_2digits_out by lia. rewrite re_2digits_char by lia.
    by rewrite Hab, Hk.
  - rewrite re_2digits_char by lia. by rewrite Hab, Hk.
Qed.

Lemma re_m_pad2 k m r x :
  1 ≤ m ≤ 12 → k m r = Some x → re_m k (pad2 m +:+ r) = Some x.
Proof.
  intros Hm Hk. rewrite pad2_append.
  set (a := m / 10 mod 10). set (b := m mod 10).
  assert (Ha : 0 ≤ a ≤ 1) by (unfold a; Z.div_mod_to_equations; lia).
  assert (Hb : 0 ≤ b ≤ 9) by (unfold b; Z.div_mod_to_equations; lia).
  assert (Hab : 10 * a + b = m) by (unfold a, b; Z.div_mod_to_equations; lia).
  unfold re_m, re_alt.
  destruct (decide (a = 1)) as [Ha1|Ha1].
  { rewrite re_2digits_char by lia. by rewrite Hab, Hk. }
  rewrite re_2digits_out by lia. rewrite re_2digits_char by lia.
  by rewrite Hab, Hk.
Qed.

Lemma re_Y_pad4 k y r :
  0 ≤ y ≤ 9999 → re_Y k (pad4 y +:+ r) = k y r.
Proof.
  intros Hy. rewrite pad4_append. unfold re_Y.
  rewrite !re_digit_char by (Z.div_mod_to_equations; lia).
  f_equal. Z.div_mod_to_equations; lia.
Qed.

Lemma re_H_pad2 k h r x :
  0 ≤ h ≤ 23 → k h r = Some x → re_H k (pad2 h +:+ r) = Some x.
Proof.
  intros Hh Hk. rewrite pad2_append.
  set (a := h / 10 mod 10). set (b := h mod 10).
  assert (Ha : 0 ≤ a ≤ 2) by (unfold a; Z.div_mod_to_equations; lia).
  assert (Hb : 0 ≤ b ≤ 9) by (unfold b; Z.div_mod_to_equations; lia).
  assert (Hab : 10 * a + b = h) by (unfold a, b; Z.div_mod_to_equations; lia).
  unfold re_H, re_alt.
  destruct (decide (a = 2)) as [Ha2|Ha2].
  { rewrite re_2digits_char by lia. by rewrite Hab, Hk. }
  rewrite re_2digits_out by lia. rewrite re_2digits_char by lia.
  by rewrite Hab, Hk.
Qed.

Lemma re_M_pad2 k m r x :
  0 ≤ m ≤ 59 → k m r = Some x → re_M k (pad2 m +:+ r) = Some x.
Proof.
  intros Hm Hk. rewrite pad2_append.
  set (a := m / 10 mod 10). set (b := m mod 10).
  assert (Ha : 0 ≤ a ≤ 5) by (unfold a; Z.div_mod_to_equations; lia).
  assert (Hb : 0 ≤ b ≤ 9) by (unfold b; Z.div_mod_to_equations; lia).
  assert (Hab : 10 * a + b = m) by (unfold a, b; Z.div_mod_to_equations; lia).
  unfold re_M, re_alt. rewrite re_2digits_char by lia. by rewrite Hab, Hk.
Qed.

Lemma re_S_pad2 k s r x :
  0 ≤ s ≤ 59 → k s r = Some x → re_S k (pad2 s +:+ r) = Some x.
Proof.
  intros Hs Hk. rewrite pad2_append.
  set (a := s / 10 mod 10). set (b := s mod 10).
  assert (Ha : 0 ≤ a ≤ 5) by (unfold a; Z.div_mod_to_equations; lia).
  assert (Hb : 0 ≤ b ≤ 9) by (unfold b; Z.div_mod_to_equations; lia).
  assert (Hab : 10 * a + b = s) by (unfold a, b; Z.div_mod_to_equations; lia).
  unfold re_S, re_alt. rewrite re_2digits_out by lia.
  rewrite re_2digits_char by lia. by rewrite Hab, Hk.
Qed.

Lemma re_char_cons c (q : string → option A) r :
  re_char c q (String c r) = q r.
Proof. unfold re_char. by rewrite Ascii.eqb_refl. Qed.

Lemma re_spaces_one (q : string → option A) c r :
  is_space c = false →
  re_spaces q (String " " (String c r)) = q (String c r).
Proof. intros Hc. cbn [re_spaces]. by rewrite Hc. Qed.
End RegexOnDigits.

Lemma digit_char_not_space v : 0 ≤ v ≤ 9 → is_space (digit_char v) = false.
Proof.
  intros H.
  assert (Hc : v = 0 ∨ v = 1 ∨ v = 2 ∨ v = 3 ∨ v = 4 ∨ v = 5 ∨ v = 6 ∨ v = 7
               ∨ v = 8 ∨ v = 9) by lia.
  destruct Hc as [->|[->|[->|[->|[->|[->|[->|[->|[->| ->]]]]]]]]]; reflexivity.
Qed.

Lemma strptime_match_logger_stamp dt :
  valid_datetime dt = true → strptime_match (logger_stamp dt) = Some (dt, "").
Proof.
  intros Hv. apply valid_datetime_spec in Hv as (Hy & Hm & Hd & HH & HM & HS).
  assert (Hd' : 1 ≤ day dt ≤ 31).
  { pose proof (days_in_month_bound (year dt) (month dt)). lia. }
  destruct dt as [y m d H M S]. cbn [year month day hour minute second] in *.
  unfold strptime_match, logger_stamp.
  cbn [year month day hour minute second].
  apply re_d_pad2; [done|]. change ("/" +:+ ?r) with (String "/" r).
  rewrite re_char_cons. apply re_m_pad2; [done|].
  change ("/" +:+ ?r) with (String "/" r). rewrite re_char_cons.
  rewrite re_Y_pad4 by lia.
  change (" " +:+ ?r) with (String " " r). rewrite (pad2_append H).
  rewrite re_spaces_one
    by (apply digit_char_not_space; Z.div_mod_to_equations; lia).
  rewrite <- (pad2_append H). apply re_H_pad2; [done|].
  change (":" +:+ ?r) with (String ":" r). rewrite re_char_cons.
  apply re_M_pad2; [done|].
  change (":" +:+ ?r) with (String ":" r). rewrite re_char_cons.
  rewrite <- (append_nil_r (pad2 S)). by apply re_S_pad2.
Qed.

(** *** The calendar: [ymd2ord] inverts [ord2ymd] *)

Lemma check_ord_true : forall3b check_ord60 41 60 60 = true.
Proof. vm_compute. reflexivity. Qed.

Lemma ymd2ord_period q y m d :
  ymd2ord (400 * q + y) m d = DI400Y * q + ymd2ord y m d.
Proof.
  unfold ymd2ord, days_before_month.
  rewrite days_before_year_period, is_leap_period. lia.
Qed.

Lemma days_in_month_period q y m :
  days_in_month (400 * q + y) m = days_in_month y m.
Proof. unfold days_in_month. by rewrite is_leap_period. Qed.

Lemma ymd2ord_ord2ymd n :
  ∃ y m d, ord2ymd n = (y, m, d) ∧ ymd2ord y m d = n ∧
    1 ≤ m ≤ 12 ∧ 1 ≤ d ≤ days_in_month y m.
Proof.
  unfold ord2ymd.
  set (q := (n - 1) / DI400Y). set (r := (n - 1) mod DI400Y).
  assert (Hr : 0 ≤ r < DI400Y)
    by (unfold r, DI400Y; Z.div_mod_to_equations; lia).
  assert (Hn : n = DI400Y * q + r + 1)
    by (unfold q, r, DI400Y; Z.div_mod_to_equations; lia).
  pose proof (forall3b_spec check_ord60 41 60 60 (r / 3600 + 1)
                (r mod 3600 / 60 + 1) (r mod 60 + 1) check_ord_true) as H.
  unfold check_ord60 in H.
  replace (((r / 3600 + 1 - 1) * 60 + (r mod 3600 / 60 + 1 - 1)) * 60
           + (r mod 60 + 1 - 1)) with r in H
    by (Z.div_mod_to_equations; lia).
  specialize (H ltac:(unfold DI400Y in Hr; Z.div_mod_to_equations; lia)
                ltac:(Z.div_mod_to_equations; lia)
                ltac:(Z.div_mod_to_equations; lia)).
  unfold check_ord in H.
  destruct (ord2ymd_cycle r) as [[y m] d].
  apply orb_true_iff in H as [H|H]; [apply Z.leb_le in H; lia|].
  repeat (apply andb_true_iff in H as [H ?]).
  exists (q * 400 + 1 + y), m, d. split; [done|].
  replace (q * 400 + 1 + y) with (400 * q + (y + 1)) by lia.
  rewrite ymd2ord_period, days_in_month_period. lia.
Qed.

Lemma days_before_year_succ y :
  days_before_year (y + 1) =
  days_before_year y + (if is_leap y then 366 else 365).
Proof.
  unfold days_before_year, is_leap.
  replace (y + 1 - 1) with y by lia.
  destruct (Z.eqb_spec (y mod 4) 0), (Z.eqb_spec (y mod 100) 0),
    (Z.eqb_spec (y mod 400) 0); cbn [andb orb negb];
    Z.div_mod_to_equations; lia.
Qed.

Lemma days_before_year_mono y y' :
  y ≤ y' → days_before_year y ≤ days_before_year y'.
Proof. intros H. unfold days_before_year. Z.div_mod_to_equations. lia. Qed.

Lemma ymd2ord_in_year y m d :
  1 ≤ m ≤ 12 → 1 ≤ d ≤ days_in_month y m →
  days_before_year y < ymd2ord y m d ≤ days_before_year (y + 1).
Proof.
  intros Hm Hd. rewrite days_before_year_succ.
  unfold ymd2ord, days_before_month, days_in_month in *.
  destruct (is_leap y); month_cases m; cbn in *; lia.
Qed.

Lemma civil_seconds_civil u : civil_seconds (civil u) = u.
Proof.
  unfold civil, civil_seconds.
  destruct (ymd2ord_ord2ymd (u / 86400 + EPOCH_ORD))
    as (y & m & d & -> & Ho & _).
  cbn [year month day hour minute second]. rewrite Ho.
  Z.div_mod_to_equations. lia.
Qed.

(** The seconds of the dates and times of a [datetime], from 0001-01-01
    00:00:00 to 9999-12-31 23:59:59. *)
Lemma civil_seconds_bounds dt :
  valid_datetime dt = true →
  -62135596800 ≤ civil_seconds dt ≤ 253402300799.
Proof.
  intros (Hy & Hm & Hd & HH & HM & HS)%valid_datetime_spec.
  pose proof (ymd2ord_in_year _ _ _ Hm Hd) as Ho.
  pose proof (days_before_year_mono 1 (year dt) ltac:(lia)) as H1.
  pose proof (days_before_year_mono (year dt + 1) 10000 ltac:(lia)) as H2.
  change (days_before_year 1) with 0 in H1.
  change (days_before_year 10000) with 3652059 in H2.
  unfold civil_seconds, EPOCH_ORD. lia.
Qed.

Lemma TIME_T_values : TIME_T_MIN = -9223372036854775808 ∧
  TIME_T_MAX = 9223372036854775807.
Proof. split; reflexivity. Qed.

(** *** Zones *)

Lemma fixed_zone_ok off : -86400 < off < 86400 → zone_ok (fixed_zone off).
Proof.
  intros Hoff dt Hv. pose proof (civil_seconds_bounds dt Hv) as Hb.
  destruct TIME_T_values as [Emin Emax].
  unfold mktime, localtime. cbn [fixed_zone mktime_of utcoffset].
  split; [rewrite Emin, Emax; lia|]. intros t _.
  replace (civil_seconds dt - off + off) with (civil_seconds dt) by lia.
  by apply civil_civil_seconds.
Qed.

Lemma EASTERN_ok : zone_ok EASTERN.
Proof.
  intros dt Hv. pose proof (civil_seconds_bounds dt Hv) as Hb.
  destruct TIME_T_values as [Emin Emax].
  unfold mktime, localtime. cbn [EASTERN mktime_of utcoffset].
  set (c := civil_seconds dt) in *. unfold DST_START. split.
  - rewrite Emin, Emax. destruct (1647154800 <=? c + 14400); lia.
  - intros t Ht.
    assert (Hc : c = t + (if t <? 1647154800 then -18000 else -14400)).
    { unfold c. rewrite <- Ht. by rewrite civil_seconds_civil. }
    destruct (Z.ltb_spec t 1647154800) as [Hlt|Hge].
    + destruct (Z.leb_spec 1647154800 (c + 14400)) as [H1|H1]; [lia|].
      replace (c + 18000) with t by lia.
      destruct (Z.ltb_spec t 1647154800) as [_|H2]; [|lia].
      by rewrite <- Ht.
    + destruct (Z.leb_spec 1647154800 (c + 14400)) as [H1|H1]; [|lia].
      replace (c + 14400) with t by lia.
      destruct (Z.ltb_spec t 1647154800) as [H2|_]; [lia|].
      by rewrite <- Ht.
Qed.

(** ** Parsing a time and formatting it again *)

Section RoundTrip.
Variable tz : zone.

Lemma local_Ok t dt :
  localtime tz t = dt → year_in_range (year dt) = true →
  local tz t = Ok dt.
Proof.
  intros Hl Hy. unfold local, localtime_r. rewrite Hl.
  unfold year_in_range in Hy. apply andb_true_iff in Hy as [H1 H2].
  apply Z.leb_le in H1, H2.
  assert (Hi : (INT_MIN <=? year dt - 1900) && (year dt - 1900 <=? INT_MAX)
               = true).
  { apply andb_true_iff. split; apply Z.leb_le.
    - change INT_MIN with (-2147483648). lia.
    - change INT_MAX with 2147483647. lia. }
  rewrite Hi. cbn [mbind result_bind]. unfold year_in_range.
  apply Z.leb_le in H1, H2. by rewrite H1, H2.
Qed.

Lemma fromtimestamp_Ok t dt :
  TIME_T_MIN ≤ t ≤ TIME_T_MAX →
  localtime tz t = dt → year_in_range (year dt) = true →
  look_back_ok tz t →
  fromtimestamp tz t = Ok dt.
Proof.
  intros Ht Hl Hy [Hb1 Hb2]. unfold fromtimestamp.
  assert (Hr : (TIME_T_MIN <=? t) && (t <=? TIME_T_MAX) = true)
    by (apply andb_true_iff; split; apply Z.leb_le; lia).
  rewrite Hr, (local_Ok t dt Hl Hy). cbn [mbind result_bind].
  rewrite (local_Ok (t - 86400) _ eq_refl Hb1). cbn [mbind result_bind].
  destruct (Z.ltb_spec (utcoffset tz t - utcoffset tz (t - 86400)) 0)
    as [Hneg|]; [|done].
  by rewrite (local_Ok _ _ eq_refl (Hb2 Hneg)).
Qed.

(** C8, as the code has it. For a string [s] that [strptime] accepts,
    whose date and time is a local time of the zone, and at which the
    looks back of [fromtimestamp] stay within the years of a
    [datetime]: the time that [parse_time] returns is one at which the
    local time is that of [s], and [time_to_string] writes it as the
    year (without leading zeros), the month, the day, the hour, the
    minute and the second of [s], in that order; the text of these
    fields in the format of the logger, each with its leading zeros, is
    such a string. *)
Theorem format_parse_roundtrip (s : string) (dt : datetime) :
  zone_ok tz →
  strptime s = Some dt →
  (∃ t, localtime tz t = dt) →
  look_back_ok tz (parse_time tz s) →
  strptime (logger_stamp dt) = Some dt ∧
  localtime tz (parse_time tz s) = dt ∧
  time_to_string tz (PInt (parse_time tz s)) =
    Ok (year_text (year dt) +:+ "-" +:+ pad2 (month dt) +:+ "-" +:+
        pad2 (day dt) +:+ " " +:+ pad2 (hour dt) +:+ ":" +:+
        pad2 (minute dt) +:+ ":" +:+ pad2 (second dt)).
Proof.
  intros Hz Hs [t0 Ht0] Hback.
  pose proof (strptime_valid s dt Hs) as Hv.
  destruct (Hz dt Hv) as [Hrange Hinv].
  assert (Hp : parse_time tz s = mktime tz dt)
    by (unfold parse_time; by rewrite Hs).
  rewrite Hp in Hback |- *.
  pose proof (Hinv t0 Ht0) as Hl.
  split; [|split; [done|]].
  - unfold strptime. by rewrite (strptime_match_logger_stamp dt Hv), Hv.
  - cbn [time_to_string]. unfold format_seconds.
    rewrite (fromtimestamp_Ok (mktime tz dt) dt Hrange Hl); [done| |done].
    apply valid_datetime_spec in Hv as (Hy & _).
    unfold year_in_range. apply andb_true_iff. split; apply Z.leb_le; lia.
Qed.
End RoundTrip.

Lemma format_parse_roundtrip_witness :
  (strptime "29/02/2024 23:59:59" = Some (mkDatetime 2024 2 29 23 59 59) ∧
   localtime UTC (parse_time UTC "29/02/2024 23:59:59")
     = mkDatetime 2024 2 29 23 59 59 ∧
   time_to_string UTC (PInt (parse_time UTC "29/02/2024 23:59:59"))
     = Ok "2024-02-29 23:59:59") ∧
  (strptime "13/03/2022 03:30:00" = Some (mkDatetime 2022 3 13 3 30 0) ∧
   localtime EASTERN (parse_time EASTERN "13/3/2022 3:30:0")
     = mkDatetime 2022 3 13 3 30 0 ∧
   time_to_string EASTERN (PInt (parse_time EASTERN "13/3/2022 3:30:0"))
     = Ok "2022-03-13 03:30:00").
Proof.
  split.
  - apply (format_parse_roundtrip UTC "29/02/2024 23:59:59"
             (mkDatetime 2024 2 29 23 59 59)).
    + apply fixed_zone_ok. lia.
    + vm_compute. reflexivity.
    + exists 1709251199. vm_compute. reflexivity.
    + split; [vm_compute; reflexivity|]. vm_compute. discriminate.
  - apply (format_parse_roundtrip EASTERN "13/3/2022 3:30:0"
             (mkDatetime 2022 3 13 3 30 0)).
    + exact EASTERN_ok.
    + vm_compute. reflexivity.
    + exists 1647156600. vm_compute. reflexivity.
    + split; [vm_compute; reflexivity|]. vm_compute. discriminate.
Defined.

(** C8, as the specification words it, fails: not every valid string
    comes back. On the first day of the year 1 the look back of
    [fromtimestamp] leaves the years of a [datetime] and [time_to_string]
    raises [ValueError]; and a time that a change of the clock skips comes
    back as the time an hour later. *)
Lemma format_parse_roundtrip_fails :
  (strptime "01/01/0001 00:00:00" = Some (mkDatetime 1 1 1 0 0 0) ∧
   time_to_string UTC (PInt (parse_time UTC "01/01/0001 00:00:00"))
     = Raise ValueError) ∧
  (strptime "13/03/2022 02:30:00" = Some (mkDatetime 2022 3 13 2 30 0) ∧
   time_to_string EASTERN (PInt (parse_time EASTERN "13/03/2022 02:30:00"))
     = Ok "2022-03-13 03:30:00").
Proof. repeat split; vm_compute; reflexivity. Qed.

(** ** From a file to the table *)

Lemma Ok_inj {A} (a b : A) : Ok a = Ok b → a = b.
Proof. by intros [= ->]. Qed.

Lemma getitem_Ok {V} (d : gmap string V) k v : getitem d k = Ok v → d !! k = Some v.
Proof. unfold getitem. destruct (d !! k); [by intros [= ->]|done]. Qed.

Lemma emit_row_cells k r row :
  emit_row (k, r) = Ok row →
  row !! 0%nat = Some (Some k) ∧ ∀ f i, (f, i) ∈ COLUMNS → row !! i = r !! f.
Proof.
  unfold emit_row.
  destruct (getitem r "localtime") as [c1|] eqn:E1;
    cbn [mbind result_bind]; [|done].
  destruct (getitem r "time") as [c2|] eqn:E2;
    cbn [mbind result_bind]; [|done].
  destruct (getitem r "temp") as [c3|] eqn:E3;
    cbn [mbind result_bind]; [|done].
  destruct (getitem r "light") as [c4|] eqn:E4;
    cbn [mbind result_bind]; [|done].
  destruct (getitem r "wets") as [c5|] eqn:E5;
    cbn [mbind result_bind]; [|done].
  destruct (getitem r "wetdry") as [c6|] eqn:E6;
    cbn [mbind result_bind]; [|done].
  destruct (getitem r "duration") as [c7|] eqn:E7;
    cbn [mbind result_bind]; [|done].
  destruct (getitem r "wet_temp_min") as [c8|] eqn:E8;
    cbn [mbind result_bind]; [|done].
  destruct (getitem r "wet_temp_max") as [c9|] eqn:E9;
    cbn [mbind result_bind]; [|done].
  destruct (getitem r "wet_temp_mean") as [c10|] eqn:E10;
    cbn [mbind result_bind]; [|done].
  destruct (getitem r "wet_temp_samples") as [c11|] eqn:E11;
    cbn [mbind result_bind]; [|done].
  intros [= <-]. split; [done|]. intros f i H.
  apply list_elem_of_In in H. cbn [In COLUMNS] in H.
  destruct H as [H|[H|[H|[H|[H|[H|[H|[H|[H|[H|[H|[]]]]]]]]]]]];
    injection H as <- <-; cbn [lookup list_lookup]; symmetry;
    by apply getitem_Ok.
Qed.

Lemma mapM_elem {A B} (f : A → result B) (l : list A) (rows : list B) x :
  mapM f l = Ok rows → x ∈ l → ∃ y, y ∈ rows ∧ f x = Ok y.
Proof.
  revert rows. induction l as [|a l IH]; intros rows Hm Hx.
  - by apply elem_of_nil in Hx.
  - cbn [mapM] in Hm.
    destruct (f a) as [b|] eqn:Ea; cbn [mbind result_bind] in Hm; [|done].
    destruct (mapM f l) as [bs|]; cbn [mbind result_bind] in Hm; [|done].
    injection Hm as <-. apply elem_of_cons in Hx as [->|Hx].
    + exists b. split; [apply elem_of_cons; by left | done].
    + destruct (IH bs eq_refl Hx) as (y & Hy & Ey).
      exists y. split; [apply elem_of_cons; by right | done].
Qed.

Lemma COLUMNS_names f i : (f, i) ∈ COLUMNS → f ∈ FIELD_NAMES.
Proof.
  intros H. apply list_elem_of_In in H. cbn [In COLUMNS] in H.
  destruct H as [H|[H|[H|[H|[H|[H|[H|[H|[H|[H|[H|[]]]]]]]]]]]];
    injection H as <- <-; field_in.
Qed.

Section EndToEnd.
Variable tz : zone.

Lemma read_data_file_NoDup contents d :
  read_data_file tz contents = Ok d → NoDup (od_keys d).
Proof.
  destruct contents as [lines|]; cbn [read_data_file].
  - intros Hr.
    destruct (read_lines_Ok tz _ _ _ Hr) as (pre & post & st & _ & E & ->).
    by destruct (process_lines_inv tz _ _ _ initial_state_inv E)
      as (_ & _ & Hnd & _).
  - intros [= <-]. apply NoDup_nil_2.
Qed.

Lemma read_files_app output l1 l2 :
  read_files tz output (l1 ++ l2) =
  read_files tz output l1 ≫= fun o => read_files tz o l2.
Proof.
  revert output. induction l1 as [|[f c] l1 IH]; intros output; [done|].
  cbn [app read_files]. destruct (contains "driftadj" f); [apply IH|].
  destruct (read_data_file tz c); cbn [mbind result_bind]; [|done].
  apply IH.
Qed.

(** A value of the output stays through the files read after it that do
    not have the field at the key. *)
Lemma read_files_keeps output after out k f (v : string) ro :
  f ∈ FIELD_NAMES →
  read_files tz output after = Ok out →
  od_get output k = Some ro → ro !! f = Some (Some v) →
  (∀ file' contents' data' r', (file', contents') ∈ after →
     contains "driftadj" file' = false →
     read_data_file tz contents' = Ok data' →
     od_get data' k = Some r' → r' !! f = None) →
  ∃ ro', od_get out k = Some ro' ∧ ro' !! f = Some (Some v).
Proof.
  intros Hf. revert output ro.
  induction after as [|[file' c'] after IH]; intros output ro Hr Hk Hv Hlater.
  - injection Hr as <-. eauto.
  - cbn [read_files] in Hr.
    assert (Hl' : ∀ file' contents' data' r', (file', contents') ∈ after →
              contains "driftadj" file' = false →
              read_data_file tz contents' = Ok data' →
              od_get data' k = Some r' → r' !! f = None).
    { intros ? ? ? ? Hin. apply Hlater. apply elem_of_cons. by right. }
    destruct (contains "driftadj" file') eqn:Ed; [by eapply IH|].
    destruct (read_data_file tz c') as [data'|] eqn:Ec;
      cbn [mbind result_bind] in Hr; [|done].
    pose proof (read_data_file_NoDup c' data' Ec) as Hnd.
    destruct (od_get data' k) as [r'|] eqn:Er'.
    + apply (IH (merge_file output data')
               (merge_reading r' (default ∅ (od_get output k)))); [done| | |done].
      * by rewrite merge_file_get, Er'.
      * rewrite merge_reading_lookup, decide_True by done.
        unfold merged_value.
        rewrite (Hlater file' c' data' r' ltac:(apply elem_of_cons; by left)
                   Ed Ec Er').
        by rewrite Hk; cbn; rewrite Hv.
    + apply (IH (merge_file output data') ro); [done| |done..].
      by rewrite merge_file_get, Er'.
Qed.

(** X21. A value read from a file reaches the table. When the run
    succeeds, a value a file has at a key for [time], [localtime],
    [temp], [light], [wets] or [duration], which no file read later has
    at that key, is in the row of the key, in the column of the field:
    neither the merge nor the interpolation, the two sorts or the
    emission lose or move it. *)
Theorem value_reaches_table
    (before after : list (string * option (list string)))
    (file : string) (contents : option (list string))
    (data : odict (gmap string string)) (rows : list (list (option string)))
    (k f v : string) (i : nat) (r : gmap string string) :
  main tz (before ++ (file, contents) :: after) = Ok rows →
  contains "driftadj" file = false →
  read_data_file tz contents = Ok data →
  od_get data k = Some r →
  r !! f = Some v →
  (f, i) ∈ COLUMNS →
  f ∉ INTERPOLATED →
  (∀ file' contents' data' r', (file', contents') ∈ after →
     contains "driftadj" file' = false →
     read_data_file tz contents' = Ok data' →
     od_get data' k = Some r' → r' !! f = None) →
  ∃ row, row ∈ rows ∧ row !! 0%nat = Some (Some k) ∧ row !! i = Some (Some v).
Proof.
  intros Hmain Hd Hdata Hk Hv Hcol Hni Hlater.
  pose proof (COLUMNS_names f i Hcol) as Hf.
  unfold main in Hmain. rewrite read_files_app in Hmain.
  destruct (read_files tz [] before) as [o1|] eqn:E1;
    cbn [mbind result_bind] in Hmain; [|done].
  cbn [read_files] in Hmain. rewrite Hd, Hdata in Hmain.
  cbn [mbind result_bind] in Hmain.
  destruct (read_files tz (merge_file o1 data) after) as [output|]
    eqn:E2; cbn [mbind result_bind] in Hmain; [|done].
  pose proof (read_files_merged tz [] before o1 merged_nil E1) as Hm1.
  pose proof (read_files_merged tz _ after output
                (merge_file_merged o1 data Hm1) E2) as Hm.
  destruct (read_files_keeps (merge_file o1 data) after output k f v
              (merge_reading r (default ∅ (od_get o1 k))) Hf E2)
    as (ro & Hro & Hrov); [| |done|].
  { rewrite merge_file_get by (by eapply read_data_file_NoDup).
    by rewrite Hk. }
  { rewrite merge_reading_lookup, decide_True by done.
    unfold merged_value. by rewrite Hv. }
  destruct (interpolate_frame output Hm) as (out & Ei & _ & _ & Hkeep & _).
  rewrite Ei in Hmain. cbn [mbind result_bind] in Hmain.
  destruct (Hkeep k ro Hro) as (r' & Hr' & _ & Hsame).
  destruct (mapM_elem emit_row out rows (k, r') Hmain (od_get_elem _ _ _ Hr'))
    as (row & Hrow & Erow).
  destruct (emit_row_cells k r' row Erow) as [H0 Hcells].
  exists row. split; [done|]. split; [done|].
  by rewrite (Hcells f i Hcol), (Hsame f Hni).
Qed.
End EndToEnd.

Lemma value_reaches_table_witness :
  ∃ row, row ∈ data_of_rows (main UTC shared_files) ∧
    row !! 0%nat = Some (Some "2022-01-01 00:00:02") ∧
    row !! 4%nat = Some (Some "350").
Proof.
  apply (value_reaches_table UTC [] [("logs/a.deg", Some temp_file)]
           "logs/b.lux" (Some light_file)
           (data_of (read_data_file UTC (Some light_file)))
           (data_of_rows (main UTC shared_files))
           "2022-01-01 00:00:02" "light" "350" 4
           (reading_at (data_of (read_data_file UTC (Some light_file)))
              "2022-01-01 00:00:02")).
  - vm_compute. reflexivity.
  - vm_compute. reflexivity.
  - vm_compute. reflexivity.
  - vm_compute. reflexivity.
  - vm_compute. reflexivity.
  - apply (bool_decide_unpack _). vm_compute. exact I.
  - apply (bool_decide_unpack _). vm_compute. exact I.
  - intros file' contents' data' r' Hin Hd Hr Hk.
    apply list_elem_of_In in Hin. cbn [In] in Hin.
    destruct Hin as [Hin|[]]. injection Hin as <- <-.
    assert (E : read_data_file UTC (Some temp_file)
                = Ok (data_of (read_data_file UTC (Some temp_file))))
      by (vm_compute; reflexivity).
    pose proof (Ok_inj _ _ (eq_trans (eq_sym Hr) E)) as ->.
    assert (E' : od_get (data_of (read_data_file UTC (Some temp_file)))
                   "2022-01-01 00:00:02"
                 = Some (reading_at (data_of (read_data_file UTC (Some temp_file)))
                           "2022-01-01 00:00:02"))
      by (vm_compute; reflexivity).
    pose proof (Some_inj _ _ (eq_trans (eq_sym Hk) E')) as ->.
    vm_compute. reflexivity.
Defined.
